(** * File converter: dispatch, converters and merge aggregators

    A shallow embedding of [app.py] and [converters.py].

    Python strings are modelled by [string]; a character stands for the
    code point of the same number, so the model covers text whose code
    points are below 256.  The file system is a finite map from paths to
    typed file contents, directories are implicit (a directory is the
    set of paths below it) and paths are compared as written (no
    normalisation of [a//b] or [a/./b]).  Writes always succeed.
    Python floats are binary64 numbers, held as the rationals they
    denote, with every operation rounded to nearest, ties to even.

    Everything the program delegates to a library or to an external
    tool (the codecs, the layout engines, the spawned executables, the
    upload sanitiser) is a field of the environment record [Env]: the
    converters are modelled, the libraries are consulted. *)

From Stdlib Require Import ZArith QArith Qround Qabs Qpower Lqa SpecFloat.
From Stdlib Require Import Ascii String DecimalString DecimalNat.
From stdpp Require Import base tactics option list strings gmap.

Local Open Scope Z_scope.

(** ** Python strings *)

Module Py.

Definition chr (n : nat) : ascii := ascii_of_nat n.
Definition ord (c : ascii) : nat := nat_of_ascii c.

Definition nl : string := String (chr 10) EmptyString.

(** [str.isspace] on one code point below 256. *)
Definition isspace (c : ascii) : bool :=
  let n := ord c in
  ((9 <=? n) && (n <=? 13) || (28 <=? n) && (n <=? 32)
   || (n =? 133) || (n =? 160))%nat.

(** Upper-case letters below 256: A-Z and the Latin-1 capitals
    (192-222 without the multiplication sign 215). *)
Definition isupper (c : ascii) : bool :=
  let n := ord c in
  ((65 <=? n) && (n <=? 90)
   || (192 <=? n) && (n <=? 222) && negb (n =? 215))%nat.

Definition lower_char (c : ascii) : ascii :=
  if isupper c then chr (ord c + 32) else c.

(** [s.lower()] *)
Fixpoint lower (s : string) : string :=
  match s with
  | EmptyString => EmptyString
  | String c r => String (lower_char c) (lower r)
  end.

Definition is_ascii_lower (c : ascii) : bool :=
  let n := ord c in ((97 <=? n) && (n <=? 122))%nat.
Definition is_ascii_upper (c : ascii) : bool :=
  let n := ord c in ((65 <=? n) && (n <=? 90))%nat.

(** [s.title()], on ASCII letters (the program only applies it to
    registered conversion-type names). *)
Fixpoint title_from (prev_cased : bool) (s : string) : string :=
  match s with
  | EmptyString => EmptyString
  | String c r =>
      if is_ascii_lower c then
        String (if prev_cased then c else chr (ord c - 32)) (title_from true r)
      else if is_ascii_upper c then
        String (if prev_cased then chr (ord c + 32) else c) (title_from true r)
      else String c (title_from false r)
  end.
Definition title (s : string) : string := title_from false s.

(** [c in s] for a one-character [c]. *)
Fixpoint contains (c : ascii) (s : string) : bool :=
  match s with
  | EmptyString => false
  | String a r => if decide (a = c) then true else contains c r
  end.

(** Split at the last occurrence of [c]: [s.rsplit(c, 1)] when [c]
    occurs in [s], as the pair (before, after). *)
Fixpoint rsplit1 (c : ascii) (s : string) : option (string * string) :=
  match s with
  | EmptyString => None
  | String a r =>
      match rsplit1 c r with
      | Some (b, e) => Some (String a b, e)
      | None => if decide (a = c) then Some (EmptyString, r) else None
      end
  end.

(** [s.split(c)] for a one-character separator. *)
Fixpoint split_aux (c : ascii) (cur : string) (s : string) : list string :=
  match s with
  | EmptyString => [String.rev cur]
  | String a r =>
      if decide (a = c) then String.rev cur :: split_aux c EmptyString r
      else split_aux c (String a cur) r
  end.
Definition split (c : ascii) (s : string) : list string :=
  split_aux c EmptyString s.

(** [s.split(c1 + c2)] for a two-character separator. *)
Fixpoint split2_aux (c1 c2 : ascii) (cur : string) (s : string) : list string :=
  match s with
  | EmptyString => [String.rev cur]
  | String a r =>
      match r with
      | EmptyString => [String.rev (String a cur)]
      | String b r' =>
          if decide (a = c1 ∧ b = c2)
          then String.rev cur :: split2_aux c1 c2 EmptyString r'
          else split2_aux c1 c2 (String a cur) r
      end
  end.
Definition split2 (c1 c2 : ascii) (s : string) : list string :=
  split2_aux c1 c2 EmptyString s.

(** [s.replace(c, t)] for a one-character [c]. *)
Fixpoint replace (c : ascii) (t : string) (s : string) : string :=
  match s with
  | EmptyString => EmptyString
  | String a r =>
      if decide (a = c) then t +:+ replace c t r else String a (replace c t r)
  end.

Fixpoint lstrip (s : string) : string :=
  match s with
  | EmptyString => EmptyString
  | String c r => if isspace c then lstrip r else s
  end.

(** [s.strip()] *)
Definition strip (s : string) : string :=
  String.rev (lstrip (String.rev (lstrip s))).

(** Nothing but white space (the empty string included). *)
Fixpoint all_space (s : string) : bool :=
  match s with
  | EmptyString => true
  | String c r => isspace c && all_space r
  end.

(** Truth value of a string: non-empty. *)
Definition truthy (s : string) : bool :=
  match s with EmptyString => false | _ => true end.

(** [sep.join(l)] *)
Definition join (sep : string) (l : list string) : string :=
  String.concat sep l.

Definition startswith (s p : string) : bool := String.prefix p s.
Fixpoint endswith (s p : string) : bool :=
  bool_decide (s = p) ||
  match s with
  | EmptyString => false
  | String _ r => endswith r p
  end.

(** [p in s] for strings. *)
Fixpoint substring_of (p s : string) : bool :=
  String.prefix p s ||
  match s with
  | EmptyString => false
  | String _ r => substring_of p r
  end.

(** [str(n)] for a natural number. *)
Definition str_nat (n : nat) : string :=
  NilEmpty.string_of_uint (Nat.to_uint n).

(** [str(z)] for an integer. *)
Definition str_Z (z : Z) : string :=
  NilEmpty.string_of_int (Z.to_int z).

Fixpoint zeros (n : nat) : string :=
  match n with O => EmptyString | S k => String "0"%char (zeros k) end.

(** [f"{n:0wd}"] *)
Definition zfill (w : nat) (n : nat) : string :=
  let s := str_nat n in zeros (w - String.length s) +:+ s.

(** [repr(s)]: quotes chosen as Python does, the quote, the backslash
    and the control characters escaped. *)
Definition hex_digit (n : nat) : ascii :=
  if (n <? 10)%nat then chr (48 + n) else chr (87 + n).
Definition isprintable (c : ascii) : bool :=
  let n := ord c in
  ((32 <=? n) && (n <? 127) || (161 <=? n) && negb (n =? 173))%nat.
Definition repr_char (q : ascii) (c : ascii) : string :=
  let bs := chr 92 in
  if decide (c = bs) then String bs (String bs EmptyString)
  else if decide (c = q) then String bs (String q EmptyString)
  else if decide (c = chr 10) then String bs "n"
  else if decide (c = chr 13) then String bs "r"
  else if decide (c = chr 9) then String bs "t"
  else if isprintable c then String c EmptyString
  else String bs (String "x"%char
         (String (hex_digit (ord c / 16)) (String (hex_digit (ord c mod 16)) EmptyString))).
Fixpoint repr_body (q : ascii) (s : string) : string :=
  match s with
  | EmptyString => EmptyString
  | String c r => repr_char q c +:+ repr_body q r
  end.
Definition repr (s : string) : string :=
  let sq := chr 39 in
  let dq := chr 34 in
  let q := if contains sq s && negb (contains dq s) then dq else sq in
  String q (repr_body q s +:+ String q EmptyString).

(** [str(l)] for a list of strings. *)
Definition str_list (l : list string) : string :=
  "[" +:+ join ", " (map repr l) +:+ "]".

End Py.

(** ** Python floats *)

(** A Python [float] is an IEEE 754 binary64 number and every
    operation returns the exact result rounded to the nearest float,
    ties to the even significand.  A finite float is held here as the
    rational it denotes.  The exponent range is not modelled: no
    quotient of image sides comes near its ends.  Division by zero,
    which raises in Python, does not arise: the sides of an image are
    positive. *)
Module Float.

Local Open Scope Q_scope.

(** [floor(log2 x)] for a positive [x] *)
Definition ilog2 (x : Q) : Z :=
  let k := (Z.log2 (Qnum x) - Z.log2 (Zpos (Qden x)))%Z in
  if Qle_bool (2 ^ k) x then k else (k - 1)%Z.

(** The nearest integer, the even one of two that are equally near. *)
Definition round_half_even (y : Q) : Z :=
  let f := Qfloor y in
  match Qcompare (y - inject_Z f) (1 # 2) with
  | Lt => f
  | Gt => (f + 1)%Z
  | Eq => if Z.even f then f else (f + 1)%Z
  end.

(** The nearest float to a positive [x]: [x] is scaled so that its
    integer part has 53 bits, rounded to an integer, and scaled back. *)
Definition round_pos (x : Q) : Q :=
  let e := (ilog2 x - 52)%Z in
  inject_Z (round_half_even (x / 2 ^ e)) * 2 ^ e.

Definition round (x : Q) : Q :=
  match Qcompare x 0 with
  | Eq => 0
  | Gt => round_pos x
  | Lt => - round_pos (- x)
  end.

(** [float(n)] *)
Definition of_int (n : Z) : Q := round (inject_Z n).

(** [a / b] on two [int]s: the quotient is rounded once. *)
Definition truediv (a b : Z) : Q := round (inject_Z a / inject_Z b).

(** [a * b], [a / b] and [a - b] on floats *)
Definition mul (a b : Q) : Q := round (a * b).
Definition div (a b : Q) : Q := round (a / b).
Definition sub (a b : Q) : Q := round (a - b).

End Float.

(** ** [os.path] (POSIX flavour) *)

Module OsPath.

Definition sep : ascii := "/"%char.
Definition extsep : ascii := "."%char.

(** [os.path.basename(p)]: what follows the last slash. *)
Definition basename (p : string) : string :=
  match Py.rsplit1 sep p with
  | Some (_, tail) => tail
  | None => p
  end.

Fixpoint all_dots (s : string) : bool :=
  match s with
  | EmptyString => true
  | String c r => if decide (c = extsep) then all_dots r else false
  end.

(** [os.path.splitext(p)]: the extension starts at the last dot of the
    last component, unless only dots precede it there. *)
Definition splitext (p : string) : string * string :=
  let '(head, tail) :=
    match Py.rsplit1 sep p with
    | Some (h, t) => (h +:+ String sep EmptyString, t)
    | None => (EmptyString, p)
    end in
  match Py.rsplit1 extsep tail with
  | Some (stem, e) =>
      if all_dots stem then (p, EmptyString)
      else (head +:+ stem, String extsep e)
  | None => (p, EmptyString)
  end.

(** [os.path.join(a, b)] *)
Definition join (a b : string) : string :=
  if Py.startswith b "/" then b
  else if negb (Py.truthy a) || Py.endswith a "/" then a +:+ b
  else a +:+ "/" +:+ b.

End OsPath.

(** ** Data model *)

(** Pillow image modes the program distinguishes. *)
Inductive Mode := RGB | RGBA | LA | P | L | CMYK | Bilevel.

Global Instance Mode_eq_dec : EqDecision Mode.
Proof. solve_decision. Defined.

(** A pixel is the colour it shows and its opacity (red, green, blue,
    alpha, each 0..255), whatever the storage mode of its image. *)
Record Pixel := mkPixel { red : Z; green : Z; blue : Z; alpha : Z }.

Record Image := mkImage {
  mode : Mode;
  width : Z;
  height : Z;
  pixels : list Pixel
}.

Inductive ImgFormat := JPEG | PNG | WEBP | BMP | PDFImg.

(** A page of a document: text laid out by an engine, or an image. *)
Inductive Page :=
| TextPage (text : string)
| ImagePage (img : Image).

(** A spreadsheet cell is [None] or the [str] of its value. *)
Record Workbook := mkWorkbook {
  sheets : list (string * list (list (option string)));
  active : nat
}.

#[warnings="-register-all"]
Inductive File :=
| FPdf (pages : list Page)
| FImage (fmt : ImgFormat) (img : Image)
| FText (content : string)
| FDocx (paragraphs : list string)
| FXlsx (wb : Workbook)
| FZip (entries : list (string * File))
| FMedia (codec : string) (source : string)
| FOther (bytes : string).

Abbreviation FS := (gmap string File).

(** Exceptions, by the classes the program's handlers tell apart. *)
Inductive exn :=
| Exception (msg : string)
| TimeoutExpired (cmd : list string) (timeout : nat)
| FileNotFoundError (msg : string)
| OSError (msg : string)
| ImportError (msg : string)
| RequestEntityTooLarge
| LibraryError (msg : string).

(** [str(e)] *)
Definition str_exn (e : exn) : string :=
  match e with
  | Exception m | FileNotFoundError m | OSError m | ImportError m
  | LibraryError m => m
  | TimeoutExpired cmd t =>
      "Command '" +:+ Py.str_list cmd +:+ "' timed out after "
        +:+ Py.str_nat t +:+ " seconds"
  | RequestEntityTooLarge =>
      "413 Request Entity Too Large: The data value transmitted exceeds the capacity limit."
  end.

Definition is_ImportError (e : exn) : bool :=
  match e with ImportError _ => true | _ => false end.
Definition is_OSError (e : exn) : bool :=
  match e with OSError _ | FileNotFoundError _ => true | _ => false end.
Definition is_TimeoutExpired (e : exn) : bool :=
  match e with TimeoutExpired _ _ => true | _ => false end.

Inductive LogLevel := INFO | WARNING | ERROR.

(** What a run leaves behind besides files: log records, flashed
    messages, and two ghost events, one per call of a converter's
    [convert] and one per spawned process. *)
Inductive Event :=
| EvLog (level : LogLevel) (msg : string)
| EvFlash (msg : string) (category : string)
| EvConvert (converter : string) (inputs : list string) (output_dir : string)
| EvRun (cmd : list string) (capture_output : bool) (timeout : nat).

Record State := mkState { fs : FS; trace : list Event }.

(** Result of a spawned process. *)
Inductive ProcOutcome :=
| Exited (returncode : Z) (stdout stderr : string)
| TimedOut
| NoSuchTool.

(** reportlab flowables *)
Inductive Flowable :=
| Paragraph (text style : string)
| Spacer (w h : Z)
| Preformatted (text style : string)
| Table (data : list (list string)).

(** ** The environment: libraries and external tools *)

Record Env := mkEnv {
  (** werkzeug *)
  secure_filename : string → string;
  (** [tempfile.mkdtemp()] *)
  mkdtemp : FS → string;
  (** the spawned executable: its result and what it does to the files *)
  spawn : list string → nat → FS → ProcOutcome * FS;
  (** text of the exception a library raises on a path it cannot open *)
  open_error : string → string;
  (** PyMuPDF: [page.get_pixmap(matrix=Matrix(2.0, 2.0))] and [page.get_text()] *)
  get_pixmap : Page → Image;
  get_text : Page → string;
  (** Pillow: pixel data of an image resized with the Lanczos filter *)
  lanczos : Image → Z → Z → list Pixel;
  (** optional packages *)
  has_reportlab : bool;
  has_pdf2docx : bool;
  has_openpyxl : bool;
  (** reportlab: [SimpleDocTemplate.build(story)] *)
  reportlab_build : list Flowable → exn + list Page;
  (** pdfkit *)
  pdfkit_from_string : string → exn + list Page;
  pdfkit_from_file : option File → exn + list Page;
  (** pdf2docx *)
  pdf2docx_convert : option File → exn + list string;
  (** [re.sub], [html.unescape], [csv.reader], [csv.writer] *)
  re_sub : string → string → string → string;
  html_unescape : string → string;
  csv_reader : string → list (list string);
  csv_writer : list (list string) → string
}.

(** ** State and exception monad *)

Definition M (A : Type) : Type := State → (exn + A) * State.

Definition ret {A} (a : A) : M A := λ s, (inr a, s).
Definition raise {A} (e : exn) : M A := λ s, (inl e, s).
Definition bind {A B} (m : M A) (k : A → M B) : M B :=
  λ s, match m s with
       | (inr a, s') => k a s'
       | (inl e, s') => (inl e, s')
       end.

Notation "'let*' x ':=' m 'in' k" := (bind m (λ x, k))
  (at level 10, x pattern, m at level 100, k at level 200).
Notation "m ';;' k" := (bind m (λ _, k))
  (at level 100, k at level 200, right associativity).

(** [try: m except <classes h accepts>: ...]; [h e = None] lets [e] pass. *)
Definition try_except {A} (m : M A) (h : exn → option (M A)) : M A :=
  λ s, match m s with
       | (inl e, s') => match h e with Some k => k s' | None => (inl e, s') end
       | r => r
       end.

(** [try: m finally: c] *)
Definition try_finally {A} (m : M A) (c : M unit) : M A :=
  λ s, match m s with
       | (r, s') => match c s' with
                    | (inl e, s'') => (inl e, s'')
                    | (inr _, s'') => (r, s'')
                    end
       end.

(** [except Exception as e] and [except <Class>] *)
Definition except_Exception {A} (k : exn → M A) : exn → option (M A) :=
  λ e, Some (k e).
Definition except_if {A} (cls : exn → bool) (k : exn → M A) : exn → option (M A) :=
  λ e, if cls e then Some (k e) else None.

Definition get_fs : M FS := λ s, (inr (fs s), s).
Definition put_fs (f : FS) : M unit := λ s, (inr tt, mkState f (trace s)).
Definition emit (ev : Event) : M unit :=
  λ s, (inr tt, mkState (fs s) (trace s ++ [ev])).

Definition log_info (msg : string) : M unit := emit (EvLog INFO msg).
Definition log_warning (msg : string) : M unit := emit (EvLog WARNING msg).
Definition log_error (msg : string) : M unit := emit (EvLog ERROR msg).

(** [for x in xs: body x] *)
Fixpoint for_each {A} (xs : list A) (body : A → M unit) : M unit :=
  match xs with
  | [] => ret tt
  | x :: r => body x ;; for_each r body
  end.

(** [for x in xs: acc = body acc x] *)
Fixpoint fold_each {A B} (xs : list A) (acc : B) (body : B → A → M B) : M B :=
  match xs with
  | [] => ret acc
  | x :: r => let* acc' := body acc x in fold_each r acc' body
  end.

(** [enumerate(xs)] *)
Fixpoint enumerate_from {A} (start : nat) (xs : list A) : list (nat * A) :=
  match xs with
  | [] => []
  | x :: r => (start, x) :: enumerate_from (S start) r
  end.
Definition enumerate {A} (xs : list A) : list (nat * A) := enumerate_from 0 xs.

(** ** The file system *)

Definition write_file (path : string) (f : File) : M unit :=
  let* m := get_fs in put_fs (<[path := f]> m).

(** [os.path.exists(path)] *)
Definition path_exists (path : string) : M bool :=
  let* m := get_fs in ret (bool_decide (is_Some (m !! path))).

Definition dir_prefix (dir : string) : string :=
  if Py.endswith dir "/" then dir else dir +:+ "/".

Definition under (dir path : string) : bool :=
  Py.startswith path (dir_prefix dir).

(** [shutil.rmtree(dir)]: every file below [dir] goes. *)
Definition rmtree (dir : string) : M unit :=
  let* m := get_fs in
  put_fs (filter (λ kv, under dir kv.1 = false) m).

(** [os.makedirs(dir, exist_ok=True)]: directories are implicit. *)
Definition makedirs (dir : string) : M unit := ret tt.

(** ** Pillow *)

Module PIL.

Definition white : Pixel := mkPixel 255 255 255 255.

Definition has_alpha_band (m : Mode) : bool :=
  match m with RGBA | LA => true | _ => false end.

(** [Image.new(mode, size, color)] *)
Definition new (m : Mode) (w h : Z) (color : Pixel) : Image :=
  mkImage m w h (repeat color (Z.to_nat (w * h))).

Definition opaque (p : Pixel) : Pixel :=
  mkPixel (red p) (green p) (blue p) 255.

(** [img.convert(m)]: the colours stay; a target mode without an alpha
    band drops the opacity (nothing is blended in its place). *)
Definition convert (m : Mode) (img : Image) : Image :=
  mkImage m (width img) (height img)
    (if has_alpha_band m then pixels img else map opaque (pixels img)).

(** [img.split()[-1]]: the last band, the alpha band of RGBA and LA. *)
Definition last_band (img : Image) : list Z := map alpha (pixels img).

(** Pillow's division by 255 with rounding. *)
Definition div255 (x : Z) : Z :=
  let t := x + 128 in Z.shiftr (Z.shiftr t 8 + t) 8.

Definition blend (mask dst src : Z) : Z :=
  div255 (dst * (255 - mask) + src * mask).

Definition paste_pixel (dst src : Pixel) (mask : Z) : Pixel :=
  mkPixel (blend mask (red dst) (red src))
          (blend mask (green dst) (green src))
          (blend mask (blue dst) (blue src)) 255.

(** [background.paste(img, mask=mask)] for an RGB background of the
    size of [img]: without a mask the source replaces the background,
    with one the two are blended pixel by pixel. *)
Definition paste (background img : Image) (mask : option (list Z)) : Image :=
  mkImage (mode background) (width background) (height background)
    (match mask with
     | None => zip_with (λ _ s, opaque s) (pixels background) (pixels img)
     | Some band =>
         zip_with (λ ds a, paste_pixel ds.1 ds.2 a)
                  (zip (pixels background) (pixels img)) band
     end).

(** Size computed by [Image.thumbnail((bx, by))]: [None] when the image
    already fits.  Pillow computes the aspect ratio, the scaled side
    and the keys that decide between its floor and its ceiling in
    floats.  [min(floor, ceil, key=key)] keeps the floor unless the
    ceiling has the smaller key. *)
Definition round_aspect (number : Q) (key : Z → Q) : Z :=
  let lo := Qfloor number in
  let hi := Qceiling number in
  Z.max (match Qcompare (key hi) (key lo) with Lt => hi | _ => lo end) 1.

Definition thumbnail_size (w h bx by_ : Z) : option (Z * Z) :=
  if (bx >=? w) && (by_ >=? h) then None
  else
    let aspect := Float.truediv w h in
    if Qle_bool aspect (Float.truediv bx by_) then
      (* x = round_aspect(y * aspect, key=lambda n: abs(aspect - n / y)) *)
      Some (round_aspect (Float.mul (Float.of_int by_) aspect)
              (λ n, Qabs (Float.sub aspect (Float.truediv n by_))), by_)
    else
      (* y = round_aspect(x / aspect,
                          key=lambda n: 0 if n == 0 else abs(aspect - x / n)) *)
      Some (bx, round_aspect (Float.div (Float.of_int bx) aspect)
                  (λ n, if n =? 0 then 0%Q
                        else Qabs (Float.sub aspect (Float.truediv bx n)))).

(** Modes a format's encoder accepts. *)
Definition can_write (fmt : ImgFormat) (m : Mode) : bool :=
  match fmt, m with
  | JPEG, (RGBA | LA | P) => false
  | PNG, CMYK => false
  | _, _ => true
  end.

Definition format_name (fmt : ImgFormat) : string :=
  match fmt with
  | JPEG => "JPEG" | PNG => "PNG" | WEBP => "WEBP" | BMP => "BMP" | PDFImg => "PDF"
  end.

Definition mode_name (m : Mode) : string :=
  match m with
  | RGB => "RGB" | RGBA => "RGBA" | LA => "LA" | P => "P" | L => "L"
  | CMYK => "CMYK" | Bilevel => "1"
  end.

End PIL.

(** ** Library calls, relative to an environment *)

Section Libraries.

Variable env : Env.

(** [fitz.open(path)] *)
Definition fitz_open (path : string) : M (list Page) :=
  let* m := get_fs in
  match m !! path with
  | Some (FPdf pages) => ret pages
  | _ => raise (LibraryError (open_error env path))
  end.

(** [doc.save(path)]: PyMuPDF refuses to write a document without pages. *)
Definition fitz_save (path : string) (pages : list Page) : M unit :=
  match pages with
  | [] => raise (LibraryError "cannot save with zero pages")
  | _ => write_file path (FPdf pages)
  end.

(** [Image.open(path)] *)
Definition Image_open (path : string) : M Image :=
  let* m := get_fs in
  match m !! path with
  | Some (FImage _ img) => ret img
  | _ => raise (LibraryError (open_error env path))
  end.

(** [img.save(path, format)] *)
Definition Image_save (img : Image) (path : string) (fmt : ImgFormat) : M unit :=
  if PIL.can_write fmt (mode img) then
    write_file path
      (match fmt with
       | PDFImg => FPdf [ImagePage img]
       | _ => FImage fmt img
       end)
  else raise (OSError ("cannot write mode " +:+ PIL.mode_name (mode img)
                         +:+ " as " +:+ PIL.format_name fmt)).

(** [img.save(path, 'PDF', save_all=True, append_images=others)] *)
Definition Image_save_all (img : Image) (others : list Image) (path : string) : M unit :=
  if PIL.can_write PDFImg (mode img) then
    write_file path (FPdf (map ImagePage (img :: others)))
  else raise (OSError ("cannot write mode " +:+ PIL.mode_name (mode img) +:+ " as PDF")).

(** [img.thumbnail((bx, by), Image.Resampling.LANCZOS)] *)
Definition thumbnail (img : Image) (bx by_ : Z) : Image :=
  match PIL.thumbnail_size (width img) (height img) bx by_ with
  | None => img
  | Some (w, h) =>
      if decide ((width img, height img) = (w, h)) then img
      else mkImage (mode img) w h (lanczos env img w h)
  end.

(** [docx.Document(path)] and its paragraphs' texts *)
Definition Document_open (path : string) : M (list string) :=
  let* m := get_fs in
  match m !! path with
  | Some (FDocx paragraphs) => ret paragraphs
  | _ => raise (LibraryError (open_error env path))
  end.

(** [open(path, 'r', encoding='utf-8').read()] *)
Definition read_text (path : string) : M string :=
  let* m := get_fs in
  match m !! path with
  | Some (FText content) => ret content
  | None => raise (FileNotFoundError
                     ("[Errno 2] No such file or directory: " +:+ Py.repr path))
  | Some _ => raise (LibraryError (open_error env path))
  end.

(** [openpyxl.load_workbook(path, data_only=True)] *)
Definition load_workbook (path : string) : M Workbook :=
  let* m := get_fs in
  match m !! path with
  | Some (FXlsx wb) => ret wb
  | _ => raise (LibraryError (open_error env path))
  end.

(** [zipfile.ZipFile(path, 'r')] *)
Definition ZipFile_open (path : string) : M (list (string * File)) :=
  let* m := get_fs in
  match m !! path with
  | Some (FZip entries) => ret entries
  | _ => raise (LibraryError (open_error env path))
  end.

(** [import <package>] *)
Definition import (present : bool) (name : string) : M unit :=
  if present then ret tt
  else raise (ImportError ("No module named " +:+ Py.repr name)).

(** [SimpleDocTemplate(output_path, ...).build(story)] *)
Definition doc_build (output_path : string) (story : list Flowable) : M unit :=
  match reportlab_build env story with
  | inl e => raise e
  | inr pages => write_file output_path (FPdf pages)
  end.

(** The completed process: return code, stdout, stderr. *)
Record CompletedProcess := mkCompleted {
  returncode : Z; stdout : string; stderr : string
}.

(** [subprocess.run(cmd, capture_output=True, text=True, timeout=t)] *)
Definition subprocess_run (cmd : list string) (t : nat) : M CompletedProcess :=
  emit (EvRun cmd true t) ;;
  let* m := get_fs in
  let '(out, m') := spawn env cmd t m in
  put_fs m' ;;
  match out with
  | Exited rc so se => ret (mkCompleted rc so se)
  | TimedOut => raise (TimeoutExpired cmd t)
  | NoSuchTool =>
      raise (FileNotFoundError
               ("[Errno 2] No such file or directory: " +:+ Py.repr (default EmptyString (head cmd))))
  end.

End Libraries.

(** ** converters.py *)

Section Converters.

Variable env : Env.

(** [os.path.splitext(os.path.basename(input_path))[0]] *)
Definition base_name_of (input_path : string) : string :=
  (OsPath.splitext (OsPath.basename input_path)).1.

(** The handler every converter ends with:
    [except Exception as e: logging.error(f"{what}: {e}"); raise Exception(f"{failed}: {e}")] *)
Definition reraise {A} (what failed : string) : exn → option (M A) :=
  except_Exception (λ e,
    log_error (what +:+ ": " +:+ str_exn e) ;;
    raise (Exception (failed +:+ ": " +:+ str_exn e))).

Definition when (b : bool) (m : M unit) : M unit := if b then m else ret tt.

(** *** PDFToPNGConverter *)

Definition PDFToPNG_page_filename (base_name : string) (page_num : nat) : string :=
  base_name +:+ "_page_" +:+ Py.zfill 3 (page_num + 1) +:+ ".png".

(** One turn of the page loop: render the page, save it, remember
    where. *)
Definition PDFToPNG_save_page (pdf_document : list Page) (base_name png_dir : string)
    (png_files : list string) (page_num : nat) : M (list string) :=
  match pdf_document !! page_num with
  | None => raise (LibraryError "page not in document")
  | Some page =>
      let pix := get_pixmap env page in
      let page_filename := PDFToPNG_page_filename base_name page_num in
      let page_output_path := OsPath.join png_dir page_filename in
      write_file page_output_path (FImage PNG pix) ;;
      log_info ("Converted page " +:+ Py.str_nat (page_num + 1)
                  +:+ " to PNG: " +:+ page_output_path) ;;
      ret (png_files ++ [page_output_path])
  end.

(** One turn of the archive loop: [zipf.write(png_file, basename)]. *)
Definition PDFToPNG_zip_write (zip_output_path : string)
    (entries : list (string * File)) (png_file : string) : M (list (string * File)) :=
  let* m := get_fs in
  match m !! png_file with
  | Some f =>
      let entries' := entries ++ [(OsPath.basename png_file, f)] in
      write_file zip_output_path (FZip entries') ;;
      ret entries'
  | None =>
      raise (FileNotFoundError
               ("[Errno 2] No such file or directory: " +:+ Py.repr png_file))
  end.

Definition PDFToPNG_convert (input_path output_dir : string) : M string :=
  try_except
    (let* pdf_document := fitz_open env input_path in
     let base_name := base_name_of input_path in
     let png_dir := OsPath.join output_dir (base_name +:+ "_pages") in
     makedirs png_dir ;;
     let* png_files :=
       fold_each (seq 0 (length pdf_document)) []
         (PDFToPNG_save_page pdf_document base_name png_dir) in
     let zip_output_path := OsPath.join output_dir (base_name +:+ "_pages.zip") in
     write_file zip_output_path (FZip []) ;;
     let* entries := fold_each png_files [] (PDFToPNG_zip_write zip_output_path) in
     rmtree png_dir ;;
     log_info ("Successfully converted PDF to PNG files (ZIP): " +:+ zip_output_path) ;;
     log_info ("Total pages converted: " +:+ Py.str_nat (length png_files)) ;;
     ret zip_output_path)
    (reraise "PDF to PNG conversion failed" "PDF conversion failed").

(** *** PNGToJPGConverter and WEBPToJPGConverter *)

(** The mode normalisation both share: an image with an alpha band or a
    palette is pasted on a white background through its alpha band. *)
Definition flatten_on_white (img : Image) : Image :=
  if bool_decide (mode img ∈ [RGBA; LA; P]) then
    let background := PIL.new RGB (width img) (height img) PIL.white in
    let img := if decide (mode img = P) then PIL.convert RGBA img else img in
    PIL.paste background img
      (if bool_decide (mode img ∈ [RGBA; LA]) then Some (PIL.last_band img) else None)
  else if decide (mode img ≠ RGB) then PIL.convert RGB img
  else img.

Definition PNGToJPG_convert (input_path output_dir : string) : M string :=
  try_except
    (let* img := Image_open env input_path in
     let img := flatten_on_white img in
     let base_name := base_name_of input_path in
     let output_path := OsPath.join output_dir (base_name +:+ ".jpg") in
     Image_save img output_path JPEG ;;
     log_info ("Successfully converted PNG to JPG: " +:+ output_path) ;;
     ret output_path)
    (reraise "PNG to JPG conversion failed" "Image conversion failed").

Definition WEBPToJPG_convert (input_path output_dir : string) : M string :=
  try_except
    (let* img := Image_open env input_path in
     let img := flatten_on_white img in
     let base_name := base_name_of input_path in
     let output_path := OsPath.join output_dir (base_name +:+ ".jpg") in
     Image_save img output_path JPEG ;;
     log_info ("Successfully converted WEBP to JPG: " +:+ output_path) ;;
     ret output_path)
    (reraise "WEBP to JPG conversion failed" "Image conversion failed").

(** *** JPGToPDFConverter, JPGToWEBPConverter, BMPToPNGConverter, JPGToPNGConverter *)

(** [if img.mode != 'RGB': img = img.convert('RGB')] *)
Definition to_rgb (img : Image) : Image :=
  if decide (mode img ≠ RGB) then PIL.convert RGB img else img.

Definition JPGToPDF_convert (input_path output_dir : string) : M string :=
  try_except
    (let* img := Image_open env input_path in
     let img := to_rgb img in
     let base_name := base_name_of input_path in
     let output_path := OsPath.join output_dir (base_name +:+ ".pdf") in
     Image_save img output_path PDFImg ;;
     log_info ("Successfully converted JPG to PDF: " +:+ output_path) ;;
     ret output_path)
    (reraise "JPG to PDF conversion failed" "Image conversion failed").

Definition JPGToWEBP_convert (input_path output_dir : string) : M string :=
  try_except
    (let* img := Image_open env input_path in
     let img := to_rgb img in
     let base_name := base_name_of input_path in
     let output_path := OsPath.join output_dir (base_name +:+ ".webp") in
     Image_save img output_path WEBP ;;
     log_info ("Successfully converted JPG to WEBP: " +:+ output_path) ;;
     ret output_path)
    (reraise "JPG to WEBP conversion failed" "Image conversion failed").

Definition BMPToPNG_convert (input_path output_dir : string) : M string :=
  try_except
    (let* img := Image_open env input_path in
     let base_name := base_name_of input_path in
     let output_path := OsPath.join output_dir (base_name +:+ ".png") in
     Image_save img output_path PNG ;;
     log_info ("Successfully converted BMP to PNG: " +:+ output_path) ;;
     ret output_path)
    (reraise "BMP to PNG conversion failed" "Image conversion failed").

Definition JPGToPNG_convert (input_path output_dir : string) : M string :=
  try_except
    (let* img := Image_open env input_path in
     let base_name := base_name_of input_path in
     let output_path := OsPath.join output_dir (base_name +:+ ".png") in
     Image_save img output_path PNG ;;
     log_info ("Successfully converted JPG to PNG: " +:+ output_path) ;;
     ret output_path)
    (reraise "JPG to PNG conversion failed" "Image conversion failed").

(** *** The FFmpeg converters *)

Definition MP4ToMP3_convert (input_path output_dir : string) : M string :=
  try_except
    (let base_name := base_name_of input_path in
     let output_path := OsPath.join output_dir (base_name +:+ ".mp3") in
     let cmd := ["ffmpeg"; "-i"; input_path; "-vn"; "-acodec"; "mp3";
                 "-ab"; "192k"; "-ar"; "44100"; "-y"; output_path] in
     let* result := subprocess_run env cmd 300 in
     when (negb (returncode result =? 0))
       (log_error ("FFmpeg error: " +:+ stderr result) ;;
        raise (Exception ("Audio conversion failed: " +:+ stderr result))) ;;
     let* created := path_exists output_path in
     when (negb created) (raise (Exception "Converted file was not created")) ;;
     log_info ("Successfully converted MP4 to MP3: " +:+ output_path) ;;
     ret output_path)
    (λ e,
       if is_TimeoutExpired e then
         Some (log_error "MP4 to MP3 conversion timed out" ;;
               raise (Exception "Conversion timed out. File may be too large."))
       else
         Some (log_error ("MP4 to MP3 conversion failed: " +:+ str_exn e) ;;
               raise (Exception ("Audio conversion failed: " +:+ str_exn e)))).

(** The body the other seven share: run, check the return code, log,
    return the output path. *)
Definition ffmpeg_run (cmd : list string) (t : nat) (label output_path : string) : M string :=
  let* result := subprocess_run env cmd t in
  when (negb (returncode result =? 0))
    (raise (Exception ("FFmpeg error: " +:+ stderr result))) ;;
  log_info ("Successfully converted " +:+ label +:+ ": " +:+ output_path) ;;
  ret output_path.

Definition MP3ToWAV_convert (input_path output_dir : string) : M string :=
  try_except
    (let base_name := base_name_of input_path in
     let output_path := OsPath.join output_dir (base_name +:+ ".wav") in
     let cmd := ["ffmpeg"; "-i"; input_path; "-y"; output_path] in
     ffmpeg_run cmd 300 "MP3 to WAV" output_path)
    (reraise "MP3 to WAV conversion failed" "Audio conversion failed").

Definition WAVToMP3_convert (input_path output_dir : string) : M string :=
  try_except
    (let base_name := base_name_of input_path in
     let output_path := OsPath.join output_dir (base_name +:+ ".mp3") in
     let cmd := ["ffmpeg"; "-i"; input_path; "-acodec"; "mp3"; "-ab"; "192k"; "-y"; output_path] in
     ffmpeg_run cmd 300 "WAV to MP3" output_path)
    (reraise "WAV to MP3 conversion failed" "Audio conversion failed").

Definition OGGToMP3_convert (input_path output_dir : string) : M string :=
  try_except
    (let base_name := base_name_of input_path in
     let output_path := OsPath.join output_dir (base_name +:+ ".mp3") in
     let cmd := ["ffmpeg"; "-i"; input_path; "-acodec"; "mp3"; "-ab"; "192k"; "-y"; output_path] in
     ffmpeg_run cmd 300 "OGG to MP3" output_path)
    (reraise "OGG to MP3 conversion failed" "Audio conversion failed").

Definition MP4ToAVI_convert (input_path output_dir : string) : M string :=
  try_except
    (let base_name := base_name_of input_path in
     let output_path := OsPath.join output_dir (base_name +:+ ".avi") in
     let cmd := ["ffmpeg"; "-i"; input_path; "-c:v"; "libx264"; "-c:a"; "aac"; "-y"; output_path] in
     ffmpeg_run cmd 600 "MP4 to AVI" output_path)
    (reraise "MP4 to AVI conversion failed" "Video conversion failed").

Definition AVIToMP4_convert (input_path output_dir : string) : M string :=
  try_except
    (let base_name := base_name_of input_path in
     let output_path := OsPath.join output_dir (base_name +:+ ".mp4") in
     let cmd := ["ffmpeg"; "-i"; input_path; "-c:v"; "libx264"; "-c:a"; "aac"; "-y"; output_path] in
     ffmpeg_run cmd 600 "AVI to MP4" output_path)
    (reraise "AVI to MP4 conversion failed" "Video conversion failed").

Definition MKVToMP4_convert (input_path output_dir : string) : M string :=
  try_except
    (let base_name := base_name_of input_path in
     let output_path := OsPath.join output_dir (base_name +:+ ".mp4") in
     let cmd := ["ffmpeg"; "-i"; input_path; "-c:v"; "libx264"; "-c:a"; "aac"; "-y"; output_path] in
     ffmpeg_run cmd 600 "MKV to MP4" output_path)
    (reraise "MKV to MP4 conversion failed" "Video conversion failed").

Definition MP4ToWEBM_convert (input_path output_dir : string) : M string :=
  try_except
    (let base_name := base_name_of input_path in
     let output_path := OsPath.join output_dir (base_name +:+ ".webm") in
     let cmd := ["ffmpeg"; "-i"; input_path; "-c:v"; "libvpx-vp9"; "-c:a"; "libopus"; "-y"; output_path] in
     ffmpeg_run cmd 600 "MP4 to WebM" output_path)
    (reraise "MP4 to WebM conversion failed" "Video conversion failed").

(** *** The LibreOffice converters *)

Definition libreoffice_cmd (input_path output_dir : string) : list string :=
  ["libreoffice"; "--headless"; "--convert-to"; "pdf"; "--outdir"; output_dir; input_path].

Definition PPTXToPDF_convert (input_path output_dir : string) : M string :=
  try_except
    (let base_name := base_name_of input_path in
     let output_path := OsPath.join output_dir (base_name +:+ ".pdf") in
     let cmd := libreoffice_cmd input_path output_dir in
     let* result := subprocess_run env cmd 60 in
     let* created := path_exists output_path in
     when (negb (returncode result =? 0) || negb created)
       (raise (Exception "LibreOffice conversion failed")) ;;
     log_info ("Successfully converted PPTX to PDF: " +:+ output_path) ;;
     ret output_path)
    (reraise "PPTX to PDF conversion failed" "Presentation conversion failed").

(** The story both document converters build from the extracted text:
    one paragraph and one spacer per non-blank line. *)
Definition lines_story (content : string) : list Flowable :=
  flat_map (λ line, if Py.truthy (Py.strip line)
                    then [Paragraph line "Normal"; Spacer 1 12] else [])
           (Py.split (Py.chr 10) content).

(** The inner [try]: LibreOffice, returning at once when it delivers. *)
Definition DOCToPDF_libreoffice (input_path output_dir output_path : string)
  : M (option string) :=
  let cmd := libreoffice_cmd input_path output_dir in
  let* result := subprocess_run env cmd 60 in
  let* created := path_exists output_path in
  if (returncode result =? 0) && created then
    log_info ("Successfully converted DOC to PDF: " +:+ output_path) ;;
    ret (Some output_path)
  else raise (Exception "LibreOffice conversion failed").

(** Its handler: python-docx for the text, reportlab for the layout. *)
Definition DOCToPDF_fallback (input_path output_path : string) : M (option string) :=
  try_except
    (let* paragraphs := Document_open env input_path in
     let content := Py.join Py.nl paragraphs in
     when (negb (Py.truthy (Py.strip content)))
       (raise (Exception "Document appears to be empty")) ;;
     import (has_reportlab env) "reportlab" ;;
     doc_build env output_path (lines_story content) ;;
     ret None)
    (except_if is_ImportError (λ _,
       raise (Exception
         "Neither LibreOffice nor required Python libraries available for DOC conversion."))).

Definition DOCToPDF_convert (input_path output_dir : string) : M string :=
  try_except
    (let base_name := base_name_of input_path in
     let output_path := OsPath.join output_dir (base_name +:+ ".pdf") in
     let* early :=
       try_except
         (DOCToPDF_libreoffice input_path output_dir output_path)
         (* except (subprocess.TimeoutExpired, FileNotFoundError, Exception) *)
         (except_Exception (λ _, DOCToPDF_fallback input_path output_path)) in
     match early with
     | Some path => ret path
     | None =>
         let* created := path_exists output_path in
         when (negb created) (raise (Exception "PDF file was not created")) ;;
         log_info ("Successfully converted DOC to PDF: " +:+ output_path) ;;
         ret output_path
     end)
    (reraise "DOC to PDF conversion failed" "Document conversion failed").

(** *** DOCXToPDFConverter *)

Definition dq : string := String (Py.chr 34) EmptyString.

(** The HTML page handed to pdfkit when reportlab is missing. *)
Definition DOCX_html_content (content_paragraphs : string) : string :=
  Py.join Py.nl
    [ EmptyString;
      "            <!DOCTYPE html>";
      "            <html>";
      "            <head>";
      "                <meta charset=" +:+ dq +:+ "UTF-8" +:+ dq +:+ ">";
      "                <style>";
      "                    body {";
      "                        font-family: Arial, sans-serif;";
      "                        line-height: 1.6;";
      "                        margin: 40px;";
      "                        color: #333;";
      "                    }";
      "                    p {";
      "                        margin: 12px 0;";
      "                    }";
      "                </style>";
      "            </head>";
      "            <body>";
      "                " +:+ content_paragraphs;
      "            </body>";
      "            </html>";
      "            " ].

Definition DOCXToPDF_convert (input_path output_dir : string) : M string :=
  try_except
    (let* paragraphs := Document_open env input_path in
     let content := Py.join Py.nl paragraphs in
     when (negb (Py.truthy (Py.strip content)))
       (raise (Exception "Document appears to be empty")) ;;
     let content_paragraphs :=
       "<p>" +:+ Py.replace (Py.chr 10) "</p><p>" content +:+ "</p>" in
     let html_content := DOCX_html_content content_paragraphs in
     let base_name := base_name_of input_path in
     let output_path := OsPath.join output_dir (base_name +:+ ".pdf") in
     try_except
       (import (has_reportlab env) "reportlab" ;;
        doc_build env output_path (lines_story content))
       (except_if is_ImportError (λ _,
          try_except
            (match pdfkit_from_string env html_content with
             | inl e => raise e
             | inr pages => write_file output_path (FPdf pages)
             end)
            (except_if is_OSError (λ e,
               if Py.substring_of "wkhtmltopdf" (str_exn e) then
                 raise (Exception
                   "Neither reportlab nor wkhtmltopdf available for PDF conversion. Please install one of them.")
               else raise e)))) ;;
     let* created := path_exists output_path in
     when (negb created) (raise (Exception "PDF file was not created")) ;;
     log_info ("Successfully converted DOCX to PDF: " +:+ output_path) ;;
     ret output_path)
    (reraise "DOCX to PDF conversion failed" "Document conversion failed").

(** *** TXTToPDFConverter *)

Definition TXTToPDF_convert (input_path output_dir : string) : M string :=
  try_except
    (let* content := read_text env input_path in
     when (negb (Py.truthy (Py.strip content)))
       (raise (Exception "Text file appears to be empty")) ;;
     let base_name := base_name_of input_path in
     let output_path := OsPath.join output_dir (base_name +:+ ".pdf") in
     try_except
       (import (has_reportlab env) "reportlab" ;;
        doc_build env output_path [Preformatted content "Code"])
       (except_if is_ImportError (λ _,
          raise (Exception "reportlab not available for TXT to PDF conversion."))) ;;
     let* created := path_exists output_path in
     when (negb created) (raise (Exception "PDF file was not created")) ;;
     log_info ("Successfully converted TXT to PDF: " +:+ output_path) ;;
     ret output_path)
    (reraise "TXT to PDF conversion failed" "Text conversion failed").

(** *** EPUBToPDFConverter *)

(** [bytes.decode('utf-8')] of an archive member *)
Definition decode (f : File) : exn + string :=
  match f with
  | FText content => inr content
  | _ => inl (LibraryError "'utf-8' codec can't decode bytes")
  end.

(** [zip.read(name)]: the member last stored under that name. *)
Definition zip_read (entries : list (string * File)) (name : string) : exn + File :=
  match List.find (λ e, bool_decide (e.1 = name)) (reverse entries) with
  | Some e => inr e.2
  | None => inl (LibraryError ("There is no item named " +:+ Py.repr name +:+ " in the archive"))
  end.

Definition EPUB_clean_text (html : string) : string :=
  let clean_text := re_sub env "<[^>]+>" EmptyString html in
  let clean_text := html_unescape env clean_text in
  Py.strip (re_sub env "\s+" " " clean_text).

Definition EPUB_member_text (f : exn + File) : list string :=
  match f with
  | inl _ => []
  | inr f =>
      match decode f with
      | inl _ => []
      | inr html => let t := EPUB_clean_text html in if Py.truthy t then [t] else []
      end
  end.

Definition EPUBToPDF_convert (input_path output_dir : string) : M string :=
  try_except
    (let base_name := base_name_of input_path in
     let output_path := OsPath.join output_dir (base_name +:+ ".pdf") in
     let* entries := ZipFile_open env input_path in
     let namelist := map fst entries in
     let is_html f := Py.endswith f ".xhtml" || Py.endswith f ".html" in
     let* content_text :=
       try_except
         (let manifest_files := List.filter (λ f, Py.endswith f ".opf") namelist in
          match manifest_files with
          | first :: _ =>
              match zip_read entries first with
              | inl e => raise e
              | inr f => match decode f with inl e => raise e | inr _ => ret tt end
              end
          | [] => ret tt
          end ;;
          let html_files := List.filter is_html namelist in
          ret (flat_map (λ html_file, EPUB_member_text (zip_read entries html_file)) html_files))
         (* the list is still empty when the manifest cannot be read *)
         (except_Exception (λ _,
            ret (flat_map
                   (λ e, if Py.endswith e.1 ".txt" || is_html e.1
                         then EPUB_member_text (inr e.2) else [])
                   entries))) in
     when (bool_decide (content_text = []))
       (raise (Exception "No readable content found in EPUB file")) ;;
     let full_content := Py.join (Py.nl +:+ Py.nl) content_text in
     try_except
       (import (has_reportlab env) "reportlab" ;;
        let paragraphs := Py.split2 (Py.chr 10) (Py.chr 10) full_content in
        let story :=
          flat_map (λ para, if Py.truthy (Py.strip para)
                            then [Paragraph (Py.strip para) "Normal"; Spacer 1 12] else [])
                   paragraphs in
        doc_build env output_path story)
       (except_if is_ImportError (λ _,
          raise (Exception "reportlab not available for EPUB to PDF conversion."))) ;;
     let* created := path_exists output_path in
     when (negb created) (raise (Exception "PDF file was not created")) ;;
     log_info ("Successfully converted EPUB to PDF: " +:+ output_path) ;;
     ret output_path)
    (reraise "EPUB to PDF conversion failed" "EPUB conversion failed").

(** *** PDFToDOCXConverter, PDFToTXTConverter, PDFToHTMLConverter, CompressPDFConverter *)

(** Texts of the pages that have some: [if text.strip(): full_text.append(text)] *)
Definition pages_text (pdf_document : list Page) : list string :=
  List.filter (λ text, Py.truthy (Py.strip text)) (map (get_text env) pdf_document).

Definition PDFToDOCX_convert (input_path output_dir : string) : M string :=
  try_except
    (let base_name := base_name_of input_path in
     let output_path := OsPath.join output_dir (base_name +:+ ".docx") in
     try_except
       (import (has_pdf2docx env) "pdf2docx" ;;
        let* m := get_fs in
        match pdf2docx_convert env (m !! input_path) with
        | inl e => raise e
        | inr paragraphs => write_file output_path (FDocx paragraphs)
        end)
       (except_if is_ImportError (λ _,
          let* pdf_document := fitz_open env input_path in
          let full_text := pages_text pdf_document in
          when (bool_decide (full_text = []))
            (raise (Exception "No text content found in PDF")) ;;
          let doc :=
            flat_map (λ text_block,
                        flat_map (λ para, if Py.truthy (Py.strip para)
                                          then [Py.strip para] else [])
                                 (Py.split (Py.chr 10) text_block))
                     full_text in
          write_file output_path (FDocx doc))) ;;
     let* created := path_exists output_path in
     when (negb created) (raise (Exception "DOCX file was not created")) ;;
     log_info ("Successfully converted PDF to DOCX: " +:+ output_path) ;;
     ret output_path)
    (reraise "PDF to DOCX conversion failed" "PDF conversion failed").

Definition PDFToTXT_convert (input_path output_dir : string) : M string :=
  try_except
    (let base_name := base_name_of input_path in
     let output_path := OsPath.join output_dir (base_name +:+ ".txt") in
     let* pdf_document := fitz_open env input_path in
     let full_text := pages_text pdf_document in
     when (bool_decide (full_text = []))
       (raise (Exception "No text content found in PDF")) ;;
     write_file output_path (FText (Py.join (Py.nl +:+ Py.nl) full_text)) ;;
     log_info ("Successfully converted PDF to TXT: " +:+ output_path) ;;
     ret output_path)
    (reraise "PDF to TXT conversion failed" "PDF text extraction failed").

Definition PDFToHTML_page (page_num : nat) (page : Page) : list string :=
  let text := get_text env page in
  if Py.truthy (Py.strip text) then
    ("<h2>Page " +:+ Py.str_nat (page_num + 1) +:+ "</h2>")
      :: flat_map (λ para, if Py.truthy (Py.strip para)
                           then ["<p>" +:+ Py.strip para +:+ "</p>"] else [])
                  (Py.split2 (Py.chr 10) (Py.chr 10) text)
  else [].

Definition PDFToHTML_convert (input_path output_dir : string) : M string :=
  try_except
    (let base_name := base_name_of input_path in
     let output_path := OsPath.join output_dir (base_name +:+ ".html") in
     let* pdf_document := fitz_open env input_path in
     let html_content :=
       ["<!DOCTYPE html><html><head><title>Converted PDF</title></head><body>"]
         ++ flat_map (λ ip, PDFToHTML_page ip.1 ip.2) (enumerate pdf_document)
         ++ ["</body></html>"] in
     write_file output_path (FText (Py.join Py.nl html_content)) ;;
     log_info ("Successfully converted PDF to HTML: " +:+ output_path) ;;
     ret output_path)
    (reraise "PDF to HTML conversion failed" "PDF to HTML conversion failed").

Definition CompressPDF_convert (input_path output_dir : string) : M string :=
  try_except
    (let base_name := base_name_of input_path in
     let output_path := OsPath.join output_dir (base_name +:+ "_compressed.pdf") in
     let* pdf_document := fitz_open env input_path in
     fitz_save output_path pdf_document ;;
     log_info ("Successfully compressed PDF: " +:+ output_path) ;;
     ret output_path)
    (reraise "PDF compression failed" "PDF compression failed").

(** *** The spreadsheet converters *)

(** [[str(cell) if cell is not None else '' for cell in row]] *)
Definition row_strings (row : list (option string)) : list string :=
  map (default EmptyString) row.

Definition XLSX_sheet_story (sheet : string * list (list (option string))) : list Flowable :=
  let '(sheet_name, ws) := sheet in
  let data :=
    map row_strings (List.filter (λ row, existsb (λ c, bool_decide (is_Some c)) row) ws) in
  let max_col := foldl (λ acc row, Nat.max acc (length row)) 0%nat data in
  [Paragraph ("Sheet: " +:+ sheet_name) "Heading1"; Spacer 1 12]
    ++ match data with
       | [] => []
       | _ => [Table (map (λ row, row ++ repeat EmptyString (max_col - length row)) data);
               Spacer 1 20]
       end.

Definition XLSXToPDF_convert (input_path output_dir : string) : M string :=
  try_except
    (let base_name := base_name_of input_path in
     let output_path := OsPath.join output_dir (base_name +:+ ".pdf") in
     try_except
       (import (has_openpyxl env) "openpyxl" ;;
        import (has_reportlab env) "reportlab" ;;
        let* wb := load_workbook env input_path in
        doc_build env output_path (flat_map XLSX_sheet_story (sheets wb)))
       (except_if is_ImportError (λ _,
          raise (Exception "openpyxl and reportlab required for XLSX to PDF conversion."))) ;;
     let* created := path_exists output_path in
     when (negb created) (raise (Exception "PDF file was not created")) ;;
     log_info ("Successfully converted XLSX to PDF: " +:+ output_path) ;;
     ret output_path)
    (reraise "XLSX to PDF conversion failed" "Excel conversion failed").

Definition XLSXToCSV_convert (input_path output_dir : string) : M string :=
  try_except
    (import (has_openpyxl env) "openpyxl" ;;
     let base_name := base_name_of input_path in
     let output_path := OsPath.join output_dir (base_name +:+ ".csv") in
     let* wb := load_workbook env input_path in
     write_file output_path (FText EmptyString) ;;
     match sheets wb !! active wb with
     | None => raise (LibraryError "'NoneType' object has no attribute 'iter_rows'")
     | Some ws => write_file output_path (FText (csv_writer env (map row_strings ws.2)))
     end ;;
     log_info ("Successfully converted XLSX to CSV: " +:+ output_path) ;;
     ret output_path)
    (reraise "XLSX to CSV conversion failed" "Excel to CSV conversion failed").

Definition CSVToXLSX_convert (input_path output_dir : string) : M string :=
  try_except
    (import (has_openpyxl env) "openpyxl" ;;
     let base_name := base_name_of input_path in
     let output_path := OsPath.join output_dir (base_name +:+ ".xlsx") in
     let* text := read_text env input_path in
     let rows := map (map Some) (csv_reader env text) in
     write_file output_path (FXlsx (mkWorkbook [("Sheet", rows)] 0)) ;;
     log_info ("Successfully converted CSV to XLSX: " +:+ output_path) ;;
     ret output_path)
    (reraise "CSV to XLSX conversion failed" "CSV to Excel conversion failed").

Definition CSVToPDF_convert (input_path output_dir : string) : M string :=
  try_except
    (import (has_reportlab env) "reportlab" ;;
     let base_name := base_name_of input_path in
     let output_path := OsPath.join output_dir (base_name +:+ ".pdf") in
     let* text := read_text env input_path in
     let data := csv_reader env text in
     when (bool_decide (data = [])) (raise (Exception "CSV file is empty")) ;;
     doc_build env output_path [Table data] ;;
     log_info ("Successfully converted CSV to PDF: " +:+ output_path) ;;
     ret output_path)
    (reraise "CSV to PDF conversion failed" "CSV conversion failed").

(** *** HTMLToPDFConverter *)

Definition HTMLToPDF_convert (input_path output_dir : string) : M string :=
  try_except
    (let base_name := base_name_of input_path in
     let output_path := OsPath.join output_dir (base_name +:+ ".pdf") in
     try_except
       (let* m := get_fs in
        match pdfkit_from_file env (m !! input_path) with
        | inl e => raise e
        | inr pages => write_file output_path (FPdf pages)
        end)
       (* bare [except:] *)
       (except_Exception (λ _,
          let* html_content := read_text env input_path in
          let clean_text := re_sub env "<[^>]+>" EmptyString html_content in
          let clean_text := html_unescape env clean_text in
          import (has_reportlab env) "reportlab" ;;
          doc_build env output_path [Paragraph clean_text "Normal"])) ;;
     log_info ("Successfully converted HTML to PDF: " +:+ output_path) ;;
     ret output_path)
    (reraise "HTML to PDF conversion failed" "HTML conversion failed").

(** *** MergePDFsConverter *)

(** One turn of the loop: open the source and append its pages; a
    source that cannot be processed is logged and skipped. *)
Definition MergePDFs_step (merged_pdf : list Page) (item : nat * string) : M (list Page) :=
  let '(i, pdf_path) := item in
  try_except
    (let* source_pdf := fitz_open env pdf_path in
     let page_count := length source_pdf in
     let merged_pdf := merged_pdf ++ source_pdf in
     log_info ("Added PDF " +:+ Py.str_nat (i + 1) +:+ ": " +:+ OsPath.basename pdf_path
                 +:+ " (" +:+ Py.str_nat page_count +:+ " pages)") ;;
     ret merged_pdf)
    (except_Exception (λ e,
       log_error ("Failed to process PDF " +:+ pdf_path +:+ ": " +:+ str_exn e) ;;
       ret merged_pdf)).

Definition MergePDFs_convert (input_paths : list string) (output_dir : string) : M string :=
  try_except
    (let* merged_pdf := fold_each (enumerate input_paths) [] MergePDFs_step in
     when (bool_decide (length merged_pdf = 0%nat))
       (raise (Exception "No valid PDF pages found to merge")) ;;
     let output_path := OsPath.join output_dir "merged_document.pdf" in
     fitz_save output_path merged_pdf ;;
     let final_page_count := length merged_pdf in
     log_info ("Successfully merged " +:+ Py.str_nat (length input_paths)
                 +:+ " PDFs into: " +:+ output_path) ;;
     log_info ("Total pages in merged PDF: " +:+ Py.str_nat final_page_count) ;;
     ret output_path)
    (reraise "PDF merge failed" "PDF merge failed").

(** *** MergeImagesConverter *)

Definition max_size : Z := 2000.

(** What the loop does to an opened image before storing it. *)
Definition MergeImages_prepare (img : Image) : Image :=
  let img := to_rgb img in
  if (width img >? max_size) || (height img >? max_size)
  then thumbnail env img max_size max_size
  else img.

Definition MergeImages_step (images : list Image) (item : nat * string) : M (list Image) :=
  let '(i, img_path) := item in
  try_except
    (let* img := Image_open env img_path in
     let img := MergeImages_prepare img in
     let images := images ++ [img] in
     log_info ("Added image " +:+ Py.str_nat (i + 1) +:+ ": " +:+ OsPath.basename img_path
                 +:+ " (" +:+ Py.str_Z (width img) +:+ "x" +:+ Py.str_Z (height img) +:+ ")") ;;
     ret images)
    (except_Exception (λ e,
       log_error ("Failed to process image " +:+ img_path +:+ ": " +:+ str_exn e) ;;
       ret images)).

Definition MergeImages_convert (input_paths : list string) (output_dir : string) : M string :=
  try_except
    (let* images := fold_each (enumerate input_paths) [] MergeImages_step in
     when (bool_decide (images = []))
       (raise (Exception "No valid images found to merge")) ;;
     let output_path := OsPath.join output_dir "merged_images.pdf" in
     match images with
     | [only] => Image_save only output_path PDFImg
     | first :: others => Image_save_all first others output_path
     | [] => raise (LibraryError "list index out of range")
     end ;;
     log_info ("Successfully merged " +:+ Py.str_nat (length images)
                 +:+ " images into: " +:+ output_path) ;;
     ret output_path)
    (reraise "Image merge failed" "Image merge failed").

(** *** The converter classes *)

Inductive Converter :=
| PDFToPNGConverter | PNGToJPGConverter | MP4ToMP3Converter
| DOCXToPDFConverter | DOCToPDFConverter | TXTToPDFConverter
| EPUBToPDFConverter | JPGToPDFConverter | PDFToDOCXConverter
| XLSXToPDFConverter | PPTXToPDFConverter | PDFToTXTConverter
| XLSXToCSVConverter | CSVToXLSXConverter | CSVToPDFConverter
| HTMLToPDFConverter | PDFToHTMLConverter | MP3ToWAVConverter
| WAVToMP3Converter | MP4ToAVIConverter | AVIToMP4Converter
| WEBPToJPGConverter | BMPToPNGConverter | CompressPDFConverter
| JPGToWEBPConverter | JPGToPNGConverter | MKVToMP4Converter
| MP4ToWEBMConverter | OGGToMP3Converter | MergePDFsConverter
| MergeImagesConverter.

Global Instance Converter_eq_dec : EqDecision Converter.
Proof. solve_decision. Defined.

Definition class_name (c : Converter) : string :=
  match c with
  | PDFToPNGConverter => "PDFToPNGConverter" | PNGToJPGConverter => "PNGToJPGConverter"
  | MP4ToMP3Converter => "MP4ToMP3Converter" | DOCXToPDFConverter => "DOCXToPDFConverter"
  | DOCToPDFConverter => "DOCToPDFConverter" | TXTToPDFConverter => "TXTToPDFConverter"
  | EPUBToPDFConverter => "EPUBToPDFConverter" | JPGToPDFConverter => "JPGToPDFConverter"
  | PDFToDOCXConverter => "PDFToDOCXConverter" | XLSXToPDFConverter => "XLSXToPDFConverter"
  | PPTXToPDFConverter => "PPTXToPDFConverter" | PDFToTXTConverter => "PDFToTXTConverter"
  | XLSXToCSVConverter => "XLSXToCSVConverter" | CSVToXLSXConverter => "CSVToXLSXConverter"
  | CSVToPDFConverter => "CSVToPDFConverter" | HTMLToPDFConverter => "HTMLToPDFConverter"
  | PDFToHTMLConverter => "PDFToHTMLConverter" | MP3ToWAVConverter => "MP3ToWAVConverter"
  | WAVToMP3Converter => "WAVToMP3Converter" | MP4ToAVIConverter => "MP4ToAVIConverter"
  | AVIToMP4Converter => "AVIToMP4Converter" | WEBPToJPGConverter => "WEBPToJPGConverter"
  | BMPToPNGConverter => "BMPToPNGConverter" | CompressPDFConverter => "CompressPDFConverter"
  | JPGToWEBPConverter => "JPGToWEBPConverter" | JPGToPNGConverter => "JPGToPNGConverter"
  | MKVToMP4Converter => "MKVToMP4Converter" | MP4ToWEBMConverter => "MP4ToWEBMConverter"
  | OGGToMP3Converter => "OGGToMP3Converter" | MergePDFsConverter => "MergePDFsConverter"
  | MergeImagesConverter => "MergeImagesConverter"
  end.

(** The [output_mimetype] property of each class. *)
Definition output_mimetype (c : Converter) : string :=
  match c with
  | PDFToPNGConverter => "application/zip"
  | PNGToJPGConverter | WEBPToJPGConverter => "image/jpeg"
  | MP4ToMP3Converter | WAVToMP3Converter | OGGToMP3Converter => "audio/mpeg"
  | DOCXToPDFConverter | DOCToPDFConverter | TXTToPDFConverter | EPUBToPDFConverter
  | JPGToPDFConverter | XLSXToPDFConverter | PPTXToPDFConverter | CSVToPDFConverter
  | HTMLToPDFConverter | CompressPDFConverter | MergePDFsConverter
  | MergeImagesConverter => "application/pdf"
  | PDFToDOCXConverter =>
      "application/vnd.openxmlformats-officedocument.wordprocessingml.document"
  | PDFToTXTConverter => "text/plain"
  | XLSXToCSVConverter => "text/csv"
  | CSVToXLSXConverter =>
      "application/vnd.openxmlformats-officedocument.spreadsheetml.sheet"
  | PDFToHTMLConverter => "text/html"
  | MP3ToWAVConverter => "audio/wav"
  | MP4ToAVIConverter => "video/x-msvideo"
  | AVIToMP4Converter | MKVToMP4Converter => "video/mp4"
  | BMPToPNGConverter | JPGToPNGConverter => "image/png"
  | JPGToWEBPConverter => "image/webp"
  | MP4ToWEBMConverter => "video/webm"
  end.

(** Iterating over a string yields its characters. *)
Fixpoint chars (s : string) : list string :=
  match s with
  | EmptyString => []
  | String c r => String c EmptyString :: chars r
  end.

(** The body of [convert] of each class, for a string argument. *)
Definition convert_body (c : Converter) (input_path output_dir : string) : M string :=
  match c with
  | PDFToPNGConverter => PDFToPNG_convert input_path output_dir
  | PNGToJPGConverter => PNGToJPG_convert input_path output_dir
  | MP4ToMP3Converter => MP4ToMP3_convert input_path output_dir
  | DOCXToPDFConverter => DOCXToPDF_convert input_path output_dir
  | DOCToPDFConverter => DOCToPDF_convert input_path output_dir
  | TXTToPDFConverter => TXTToPDF_convert input_path output_dir
  | EPUBToPDFConverter => EPUBToPDF_convert input_path output_dir
  | JPGToPDFConverter => JPGToPDF_convert input_path output_dir
  | PDFToDOCXConverter => PDFToDOCX_convert input_path output_dir
  | XLSXToPDFConverter => XLSXToPDF_convert input_path output_dir
  | PPTXToPDFConverter => PPTXToPDF_convert input_path output_dir
  | PDFToTXTConverter => PDFToTXT_convert input_path output_dir
  | XLSXToCSVConverter => XLSXToCSV_convert input_path output_dir
  | CSVToXLSXConverter => CSVToXLSX_convert input_path output_dir
  | CSVToPDFConverter => CSVToPDF_convert input_path output_dir
  | HTMLToPDFConverter => HTMLToPDF_convert input_path output_dir
  | PDFToHTMLConverter => PDFToHTML_convert input_path output_dir
  | MP3ToWAVConverter => MP3ToWAV_convert input_path output_dir
  | WAVToMP3Converter => WAVToMP3_convert input_path output_dir
  | MP4ToAVIConverter => MP4ToAVI_convert input_path output_dir
  | AVIToMP4Converter => AVIToMP4_convert input_path output_dir
  | WEBPToJPGConverter => WEBPToJPG_convert input_path output_dir
  | BMPToPNGConverter => BMPToPNG_convert input_path output_dir
  | CompressPDFConverter => CompressPDF_convert input_path output_dir
  | JPGToWEBPConverter => JPGToWEBP_convert input_path output_dir
  | JPGToPNGConverter => JPGToPNG_convert input_path output_dir
  | MKVToMP4Converter => MKVToMP4_convert input_path output_dir
  | MP4ToWEBMConverter => MP4ToWEBM_convert input_path output_dir
  | OGGToMP3Converter => OGGToMP3_convert input_path output_dir
  | MergePDFsConverter => MergePDFs_convert (chars input_path) output_dir
  | MergeImagesConverter => MergeImages_convert (chars input_path) output_dir
  end.

(** [converter.convert(input_path, output_dir)]; the call is recorded. *)
Definition convert (c : Converter) (input_path output_dir : string) : M string :=
  emit (EvConvert (class_name c) [input_path] output_dir) ;;
  convert_body c input_path output_dir.

(** [MergePDFsConverter().convert(input_paths, output_dir)] *)
Definition merge_pdfs (input_paths : list string) (output_dir : string) : M string :=
  emit (EvConvert (class_name MergePDFsConverter) input_paths output_dir) ;;
  MergePDFs_convert input_paths output_dir.

(** [MergeImagesConverter().convert(input_paths, output_dir)] *)
Definition merge_images (input_paths : list string) (output_dir : string) : M string :=
  emit (EvConvert (class_name MergeImagesConverter) input_paths output_dir) ;;
  MergeImages_convert input_paths output_dir.

End Converters.

(** ** app.py *)

(** The dictionary literals, entry by entry. *)
Definition ALLOWED_EXTENSIONS_items : list (string * list string) :=
  [ ("pdf_to_docx", ["pdf"]); ("docx_to_pdf", ["docx"]); ("doc_to_pdf", ["doc"]);
    ("pptx_to_pdf", ["pptx"]); ("pdf_to_txt", ["pdf"]); ("txt_to_pdf", ["txt"]);
    ("xlsx_to_csv", ["xlsx"; "xls"]); ("csv_to_xlsx", ["csv"]);
    ("xlsx_to_pdf", ["xlsx"; "xls"]); ("csv_to_pdf", ["csv"]);
    ("html_to_pdf", ["html"; "htm"]); ("epub_to_pdf", ["epub"]);
    ("pdf_to_html", ["pdf"]);
    ("jpg_to_png", ["jpg"; "jpeg"]); ("png_to_jpg", ["png"]);
    ("webp_to_jpg", ["webp"]); ("jpg_to_webp", ["jpg"; "jpeg"]);
    ("image_to_pdf", ["jpg"; "jpeg"; "png"; "webp"; "bmp"]);
    ("pdf_to_png", ["pdf"]); ("bmp_to_png", ["bmp"]);
    ("mp3_to_wav", ["mp3"]); ("wav_to_mp3", ["wav"]); ("mp4_to_mp3", ["mp4"]);
    ("mp4_to_avi", ["mp4"]); ("avi_to_mp4", ["avi"]); ("mkv_to_mp4", ["mkv"]);
    ("mp4_to_webm", ["mp4"]);
    ("ogg_to_mp3", ["ogg"]);
    ("compress_pdf", ["pdf"]); ("merge_pdfs", ["pdf"]);
    ("merge_images", ["jpg"; "jpeg"; "png"; "webp"; "bmp"]) ].

Definition converters_items : list (string * Converter) :=
  [ ("pdf_to_docx", PDFToDOCXConverter); ("docx_to_pdf", DOCXToPDFConverter);
    ("doc_to_pdf", DOCToPDFConverter); ("pptx_to_pdf", PPTXToPDFConverter);
    ("pdf_to_txt", PDFToTXTConverter); ("txt_to_pdf", TXTToPDFConverter);
    ("xlsx_to_csv", XLSXToCSVConverter); ("csv_to_xlsx", CSVToXLSXConverter);
    ("xlsx_to_pdf", XLSXToPDFConverter); ("csv_to_pdf", CSVToPDFConverter);
    ("html_to_pdf", HTMLToPDFConverter); ("epub_to_pdf", EPUBToPDFConverter);
    ("pdf_to_html", PDFToHTMLConverter);
    ("jpg_to_png", JPGToPNGConverter); ("png_to_jpg", PNGToJPGConverter);
    ("webp_to_jpg", WEBPToJPGConverter); ("jpg_to_webp", JPGToWEBPConverter);
    ("image_to_pdf", JPGToPDFConverter); ("pdf_to_png", PDFToPNGConverter);
    ("bmp_to_png", BMPToPNGConverter);
    ("mp3_to_wav", MP3ToWAVConverter); ("wav_to_mp3", WAVToMP3Converter);
    ("mp4_to_mp3", MP4ToMP3Converter); ("ogg_to_mp3", OGGToMP3Converter);
    ("mp4_to_avi", MP4ToAVIConverter); ("avi_to_mp4", AVIToMP4Converter);
    ("mkv_to_mp4", MKVToMP4Converter); ("mp4_to_webm", MP4ToWEBMConverter);
    ("compress_pdf", CompressPDFConverter); ("merge_pdfs", MergePDFsConverter);
    ("merge_images", MergeImagesConverter) ].

(** A dictionary literal keeps, for a repeated key, the last value. *)
Definition dict {V} (items : list (string * V)) : gmap string V :=
  list_to_map (reverse items).

Definition ALLOWED_EXTENSIONS : gmap string (gset string) :=
  dict (map (λ kv, (kv.1, list_to_set kv.2)) ALLOWED_EXTENSIONS_items).

Definition converters : gmap string Converter := dict converters_items.

Definition allowed_file (filename conversion_type : string) : bool :=
  if negb (Py.contains "." filename) then false
  else
    match Py.rsplit1 "." filename with
    | Some (_, last) =>
        let extension := Py.lower last in
        bool_decide (extension ∈ default ∅ (ALLOWED_EXTENSIONS !! conversion_type))
    | None => false
    end.

(** An uploaded file: the name the client gave and the bytes. *)
Record FileStorage := mkUpload { filename : string; payload : File }.

(** The parts of the request the handlers read.  Reading the form or
    the files of a request above the size limit raises. *)
Record Request := mkRequest {
  too_large : bool;
  form_conversion_type : option string;
  files_file : option FileStorage;
  files_files : list FileStorage
}.

Inductive Response :=
| Redirect (endpoint : string)
| SendFile (path download_name mimetype : string) (body : File).

Section App.

Variable env : Env.

Definition flash (msg category : string) : M unit := emit (EvFlash msg category).

Definition redirect_index : M Response := ret (Redirect "index").

Definition request_read {A} (req : Request) (field : A) : M A :=
  if too_large req then raise RequestEntityTooLarge else ret field.

(** [file.save(path)] *)
Definition FileStorage_save (file : FileStorage) (path : string) : M unit :=
  if Py.endswith path "/" then
    raise (OSError ("[Errno 21] Is a directory: " +:+ Py.repr path))
  else write_file path (payload file).

(** [send_file(path, as_attachment=True, download_name=..., mimetype=...)] *)
Definition send_file (path download_name mimetype : string) : M Response :=
  let* m := get_fs in
  match m !! path with
  | Some body => ret (SendFile path download_name mimetype body)
  | None => raise (FileNotFoundError
                     ("[Errno 2] No such file or directory: " +:+ Py.repr path))
  end.

(** The [finally] block of every handler. *)
Definition cleanup (temp_dir : string) : M unit :=
  try_except (rmtree temp_dir)
    (except_Exception (λ e,
       log_warning ("Failed to clean up temp directory: " +:+ str_exn e))).

Definition new_temp_dir : M string :=
  let* m := get_fs in ret (mkdtemp env m).

(** The validation loop of [handle_pdf_merge]: skip unnamed uploads,
    stop at the first name that does not end in [.pdf]. *)
Fixpoint collect_pdf_files (uploaded : list FileStorage) (pdf_files : list FileStorage)
  : string + list FileStorage :=
  match uploaded with
  | [] => inr pdf_files
  | file :: rest =>
      if bool_decide (filename file = EmptyString) then collect_pdf_files rest pdf_files
      else if negb (Py.endswith (Py.lower (filename file)) ".pdf") then inl (filename file)
      else collect_pdf_files rest (pdf_files ++ [file])
  end.

Definition save_uploads (prefix temp_dir : string) (files : list FileStorage) : M (list string) :=
  fold_each (enumerate files) []
    (λ input_paths item,
       let '(i, file) := item in
       let name := secure_filename env
                     (prefix +:+ Py.zfill 2 (i + 1) +:+ "_" +:+ filename file) in
       let input_path := OsPath.join temp_dir name in
       FileStorage_save file input_path ;;
       ret (input_paths ++ [input_path])).

Definition handle_pdf_merge (req : Request) : M Response :=
  try_except
    (let* uploaded_files := request_read req (files_files req) in
     if bool_decide (uploaded_files = []) || (length uploaded_files <? 2)%nat then
       flash "Please select at least 2 PDF files to merge" "error" ;;
       redirect_index
     else
       match collect_pdf_files uploaded_files [] with
       | inl bad =>
           flash ("All files must be PDF format. Invalid file: " +:+ bad) "error" ;;
           redirect_index
       | inr pdf_files =>
           if (length pdf_files <? 2)%nat then
             flash "Please select at least 2 valid PDF files to merge" "error" ;;
             redirect_index
           else
             let* temp_dir := new_temp_dir in
             try_finally
               (try_except
                  (let* input_paths := save_uploads "input_" temp_dir pdf_files in
                   let* output_path := merge_pdfs env input_paths temp_dir in
                   let* created := path_exists output_path in
                   if negb (Py.truthy output_path) || negb created then
                     flash "PDF merge failed. Please try again." "error" ;;
                     redirect_index
                   else
                     send_file output_path
                       ("merged_" +:+ Py.str_nat (length pdf_files) +:+ "_pdfs.pdf")
                       "application/pdf")
                  (except_Exception (λ e,
                     log_error ("PDF merge error: " +:+ str_exn e) ;;
                     flash ("PDF merge failed: " +:+ str_exn e) "error" ;;
                     redirect_index)))
               (cleanup temp_dir)
       end)
    (except_Exception (λ e,
       log_error ("Unexpected error in PDF merge: " +:+ str_exn e) ;;
       flash "An unexpected error occurred during PDF merge. Please try again." "error" ;;
       redirect_index)).

Definition image_extensions : gset string :=
  list_to_set [".jpg"; ".jpeg"; ".png"; ".webp"; ".bmp"].

Fixpoint collect_image_files (uploaded : list FileStorage) (image_files : list FileStorage)
  : string + list FileStorage :=
  match uploaded with
  | [] => inr image_files
  | file :: rest =>
      if bool_decide (filename file = EmptyString) then collect_image_files rest image_files
      else
        let file_ext := (OsPath.splitext (Py.lower (filename file))).2 in
        if bool_decide (file_ext ∉ image_extensions) then inl (filename file)
        else collect_image_files rest (image_files ++ [file])
  end.

Definition handle_image_merge (req : Request) : M Response :=
  try_except
    (let* uploaded_files := request_read req (files_files req) in
     if bool_decide (uploaded_files = []) || (length uploaded_files <? 2)%nat then
       flash "Please select at least 2 image files to merge" "error" ;;
       redirect_index
     else
       match collect_image_files uploaded_files [] with
       | inl bad =>
           flash ("Invalid file type: " +:+ bad
                    +:+ ". Only JPG, PNG, WEBP, BMP images are supported.") "error" ;;
           redirect_index
       | inr image_files =>
           if (length image_files <? 2)%nat then
             flash "Please select at least 2 valid image files to merge" "error" ;;
             redirect_index
           else
             let* temp_dir := new_temp_dir in
             try_finally
               (try_except
                  (let* input_paths := save_uploads "image_" temp_dir image_files in
                   let* output_path := merge_images env input_paths temp_dir in
                   let* created := path_exists output_path in
                   if negb (Py.truthy output_path) || negb created then
                     flash "Image merge failed. Please try again." "error" ;;
                     redirect_index
                   else
                     send_file output_path
                       ("merged_" +:+ Py.str_nat (length image_files) +:+ "_images.pdf")
                       "application/pdf")
                  (except_Exception (λ e,
                     log_error ("Image merge error: " +:+ str_exn e) ;;
                     flash ("Image merge failed: " +:+ str_exn e) "error" ;;
                     redirect_index)))
               (cleanup temp_dir)
       end)
    (except_Exception (λ e,
       log_error ("Unexpected error in image merge: " +:+ str_exn e) ;;
       flash "An unexpected error occurred during image merge. Please try again." "error" ;;
       redirect_index)).

Definition convert_file (req : Request) : M Response :=
  try_except
    (let* conversion_type := request_read req (form_conversion_type req) in
     if bool_decide (conversion_type = Some "merge_pdfs") then handle_pdf_merge req
     else if bool_decide (conversion_type = Some "merge_images") then handle_image_merge req
     else
       let* files := request_read req (files_file req) in
       match files with
       | None =>
           flash "No file selected" "error" ;;
           redirect_index
       | Some file =>
           if bool_decide (filename file = EmptyString) then
             flash "No file selected" "error" ;;
             redirect_index
           else
             match conversion_type with
             | None =>
                 flash "Invalid conversion type selected" "error" ;;
                 redirect_index
             | Some conversion_type =>
                 match (if Py.truthy conversion_type
                        then converters !! conversion_type else None) with
                 | None =>
                     flash "Invalid conversion type selected" "error" ;;
                     redirect_index
                 | Some converter =>
                     if negb (allowed_file (filename file) conversion_type) then
                       flash ("Invalid file type for "
                                +:+ Py.title (Py.replace "_" " " conversion_type)
                                +:+ " conversion") "error" ;;
                       redirect_index
                     else
                       let* temp_dir := new_temp_dir in
                       try_finally
                         (try_except
                            (let name := secure_filename env (filename file) in
                             let input_path := OsPath.join temp_dir name in
                             FileStorage_save file input_path ;;
                             let* output_path := convert env converter input_path temp_dir in
                             let* created := path_exists output_path in
                             if negb (Py.truthy output_path) || negb created then
                               flash "Conversion failed. Please try again." "error" ;;
                               redirect_index
                             else
                               let download_name := OsPath.basename output_path in
                               let download_name :=
                                 if bool_decide (conversion_type = "pdf_to_png")
                                    && Py.endswith output_path ".zip"
                                 then base_name_of input_path +:+ "_all_pages.zip"
                                 else download_name in
                               send_file output_path download_name
                                 (output_mimetype converter))
                            (except_Exception (λ e,
                               log_error ("Conversion error: " +:+ str_exn e) ;;
                               flash ("Conversion failed: " +:+ str_exn e) "error" ;;
                               redirect_index)))
                         (cleanup temp_dir)
                 end
             end
       end)
    (λ e,
       match e with
       | RequestEntityTooLarge =>
           Some (flash "File too large. Maximum size is 50MB." "error" ;;
                 redirect_index)
       | _ =>
           Some (log_error ("Unexpected error: " +:+ str_exn e) ;;
                 flash "An unexpected error occurred. Please try again." "error" ;;
                 redirect_index)
       end).

End App.

(** [@app.errorhandler(413)] and [@app.errorhandler(500)] *)
Definition too_large_handler (e : exn) : M Response :=
  flash "File too large. Maximum size is 50MB." "error" ;;
  redirect_index.

Definition internal_error (e : exn) : M Response :=
  flash "An internal error occurred. Please try again." "error" ;;
  redirect_index.

(** Running a computation from a file system with an empty trace. *)
Definition run {A} (m : M A) (files : FS) : (exn + A) * State :=
  m (mkState files []).

(** An environment for examples: no tool installed, every optional
    package present, engines that lay text out as one page, a
    resampler that keeps the leading pixels. *)
Definition demo_env : Env :=
  {| secure_filename := λ s, s;
     mkdtemp := λ _, "/tmp/job";
     spawn := λ _ _ m, (NoSuchTool, m);
     open_error := λ p, "cannot open " +:+ p;
     get_pixmap := λ p, match p with
                        | ImagePage img => img
                        | TextPage _ => mkImage RGB 1 1 [PIL.white]
                        end;
     get_text := λ p, match p with TextPage t => t | ImagePage _ => EmptyString end;
     lanczos := λ img w h, take (Z.to_nat (w * h)) (pixels img);
     has_reportlab := true;
     has_pdf2docx := true;
     has_openpyxl := true;
     reportlab_build := λ story, inr [TextPage "laid out"];
     pdfkit_from_string := λ s, inr [TextPage s];
     pdfkit_from_file := λ _, inl (OSError "No wkhtmltopdf executable found");
     pdf2docx_convert := λ _, inl (LibraryError "not a PDF");
     re_sub := λ _ _ s, s;
     html_unescape := λ s, s;
     csv_reader := λ s, [[s]];
     csv_writer := λ rows, Py.join Py.nl (map (Py.join ",") rows) |}.

(** * Vocabulary of the properties

    Closed forms, predicates and sample data the statements below are
    written with. *)

(** ** Computations *)

(** Every value the computation returns satisfies [Q]. *)
Definition returns_in {A} (Q : A → Prop) (m : M A) : Prop :=
  ∀ s r s', m s = (inr r, s') → Q r.

(** The computation only adds to the trace. *)
Definition extends {A} (m : M A) : Prop :=
  ∀ s r s', m s = (r, s') → ∃ rest, trace s' = trace s ++ rest.

(** A computation whose first addition to the trace is [ev]. *)
Definition starts_with {A} (ev : Event) (m : M A) : Prop :=
  ∀ s r s', m s = (r, s') → ∃ rest, trace s' = trace s ++ ev :: rest.

(** The run ends in an [Exception] whose message satisfies [P]. *)
Definition fails_with (r : exn + string) (P : string → Prop) : Prop :=
  ∃ msg, r = inl (Exception msg) ∧ P msg.

(** ** Dispatch *)

Definition is_convert (ev : Event) : bool :=
  match ev with EvConvert _ _ _ => true | _ => false end.

(** The calls of [convert] recorded in a trace. *)
Definition invocations (tr : list Event) : list Event := List.filter is_convert tr.

(** The extension of an uploaded name: what follows its last dot. *)
Definition extension (name : string) : option string :=
  snd <$> Py.rsplit1 "." name.

(** The accepted extensions of a conversion type. *)
Definition accepted (t : string) : gset string :=
  default ∅ (ALLOWED_EXTENSIONS !! t).

(** A response that delivers a file delivers it as [mimetype]. *)
Definition sent_as (mimetype : string) (resp : Response) : Prop :=
  match resp with
  | SendFile _ _ mime _ => mime = mimetype
  | Redirect _ => True
  end.

(** ** Floating point *)

(** Half the distance between 1 and the next float: the largest
    relative error of one rounding. *)
Definition unit_roundoff : Q := 1 # 9007199254740992.

(** The standard library's specification of IEEE 754 arithmetic, at the
    binary64 format: an integer as a float, and the rational a float
    denotes. *)
Definition binary64 (n : Z) : spec_float := binary_normalize 53 1024 n 0 false.

Definition SF2Q (x : spec_float) : Q :=
  match x with
  | S754_finite s m e => (inject_Z (if s then Z.neg m else Z.pos m) * 2 ^ e)%Q
  | _ => 0%Q
  end.

(** Pillow's size computation once more, on the library's floats. *)
Definition thumbnail_size_binary64 (w h bx by_ : Z) : option (Z * Z) :=
  let fdiv := SFdiv 53 1024 in
  let fmul := SFmul 53 1024 in
  let fsub := SFsub 53 1024 in
  let round_aspect number key :=
    let lo := Qfloor (SF2Q number) in
    let hi := Qceiling (SF2Q number) in
    Z.max (if SFltb (key hi) (key lo) then hi else lo) 1 in
  if (bx >=? w) && (by_ >=? h) then None
  else
    let aspect := fdiv (binary64 w) (binary64 h) in
    if SFleb aspect (fdiv (binary64 bx) (binary64 by_)) then
      Some (round_aspect (fmul (binary64 by_) aspect)
              (λ n, SFabs (fsub aspect (fdiv (binary64 n) (binary64 by_)))), by_)
    else
      Some (bx, round_aspect (fdiv (binary64 bx) aspect)
                  (λ n, if n =? 0 then S754_zero false
                        else SFabs (fsub aspect (fdiv (binary64 bx) (binary64 n))))).

(** Image sizes beyond the box: scaled sides halfway between two
    integers, sides that differ by one, extreme ratios, the largest
    sides an image can have, and ordinary photographs. *)
Definition sample_sizes : list (Z * Z) :=
  [ (13, 2080); (2001, 1001); (2080, 13); (1001, 2001); (26, 4160); (4002, 2002);
    (4000, 3000); (1000, 3000); (100000, 1); (1, 100000); (10001, 10000);
    (10000, 10001); (2001, 2001); (2001, 1); (1, 2001); (2001, 2000); (2000, 2001);
    (3000, 2999); (2999, 3000); (4000, 1); (8000, 3); (3, 8000); (5, 4000);
    (4000, 5); (65535, 65535); (2147483647, 1); (1, 2147483647);
    (2147483647, 2147483646); (2147483646, 2147483647); (123456789, 987654321);
    (987654321, 123456789); (10612, 6944); (12938, 3583); (2374, 19560);
    (3085, 13983); (19097, 3901); (16628, 9036); (1229, 4817); (14210, 15703);
    (2290, 9887); (2973, 15911); (1937, 6057); (7316, 4028); (18911, 14999);
    (1625, 9245); (1527, 6364); (9490, 15735); (4727, 19718) ].

(** ** Merges *)

(** What [fitz.open] makes of a path: the pages of the PDF stored
    there, if there is one. *)
Definition opens_as_pdf (m : FS) (path : string) : option (list Page) :=
  match m !! path with
  | Some (FPdf pages) => Some pages
  | _ => None
  end.

(** The pages of the inputs that open, input after input, each input's
    pages in their own order. *)
Definition merged_pages (m : FS) (input_paths : list string) : list Page :=
  flat_map (λ path, default [] (opens_as_pdf m path)) input_paths.

(** The record the loop logs for one input. *)
Definition MergePDFs_log (env : Env) (m : FS) (item : nat * string) : Event :=
  match opens_as_pdf m item.2 with
  | Some pages =>
      EvLog INFO ("Added PDF " +:+ Py.str_nat (item.1 + 1) +:+ ": "
                    +:+ OsPath.basename item.2
                    +:+ " (" +:+ Py.str_nat (length pages) +:+ " pages)")
  | None =>
      EvLog ERROR ("Failed to process PDF " +:+ item.2 +:+ ": " +:+ open_error env item.2)
  end.

(** What [Image.open] makes of a path. *)
Definition opens_as_image (m : FS) (path : string) : option Image :=
  match m !! path with
  | Some (FImage _ img) => Some img
  | _ => None
  end.

(** The images that survive, prepared, in input order. *)
Definition merged_images (env : Env) (m : FS) (input_paths : list string) : list Image :=
  flat_map (λ path, match opens_as_image m path with
                    | Some img => [MergeImages_prepare env img]
                    | None => []
                    end) input_paths.

(** The record the image loop logs for one input. *)
Definition MergeImages_log (env : Env) (m : FS) (item : nat * string) : Event :=
  match opens_as_image m item.2 with
  | Some img =>
      let img := MergeImages_prepare env img in
      EvLog INFO ("Added image " +:+ Py.str_nat (item.1 + 1) +:+ ": "
                    +:+ OsPath.basename item.2
                    +:+ " (" +:+ Py.str_Z (width img) +:+ "x"
                    +:+ Py.str_Z (height img) +:+ ")")
  | None =>
      EvLog ERROR ("Failed to process image " +:+ item.2 +:+ ": "
                     +:+ open_error env item.2)
  end.

(** ** Spawned tools *)

(** The tool a converter spawns and the time it allows it. *)
Definition external_tool (c : Converter) : option (string * nat) :=
  match c with
  | MP4ToMP3Converter | MP3ToWAVConverter | WAVToMP3Converter
  | OGGToMP3Converter => Some ("ffmpeg", 300%nat)
  | MP4ToAVIConverter | AVIToMP4Converter | MKVToMP4Converter
  | MP4ToWEBMConverter => Some ("ffmpeg", 600%nat)
  | DOCToPDFConverter | PPTXToPDFConverter => Some ("libreoffice", 60%nat)
  | _ => None
  end.

(** The command line of each spawning converter. *)
Definition command_line (c : Converter) (input_path output_dir : string) : list string :=
  let out ext := OsPath.join output_dir (base_name_of input_path +:+ ext) in
  match c with
  | MP4ToMP3Converter =>
      ["ffmpeg"; "-i"; input_path; "-vn"; "-acodec"; "mp3";
       "-ab"; "192k"; "-ar"; "44100"; "-y"; out ".mp3"]
  | MP3ToWAVConverter => ["ffmpeg"; "-i"; input_path; "-y"; out ".wav"]
  | WAVToMP3Converter | OGGToMP3Converter =>
      ["ffmpeg"; "-i"; input_path; "-acodec"; "mp3"; "-ab"; "192k"; "-y"; out ".mp3"]
  | MP4ToAVIConverter =>
      ["ffmpeg"; "-i"; input_path; "-c:v"; "libx264"; "-c:a"; "aac"; "-y"; out ".avi"]
  | AVIToMP4Converter | MKVToMP4Converter =>
      ["ffmpeg"; "-i"; input_path; "-c:v"; "libx264"; "-c:a"; "aac"; "-y"; out ".mp4"]
  | MP4ToWEBMConverter =>
      ["ffmpeg"; "-i"; input_path; "-c:v"; "libvpx-vp9"; "-c:a"; "libopus"; "-y"; out ".webm"]
  | DOCToPDFConverter | PPTXToPDFConverter =>
      ["libreoffice"; "--headless"; "--convert-to"; "pdf"; "--outdir"; output_dir; input_path]
  | _ => []
  end.

(** State right after the process was spawned. *)
Definition after_spawn (env : Env) (cmd : list string) (t : nat) (s : State) : State :=
  mkState (spawn env cmd t (fs s)).2 (trace s ++ [EvRun cmd true t]).

(** ** Output names *)

(** What each single-input class appends to the base name of its input. *)
Definition class_suffix (c : Converter) : option string :=
  match c with
  | PDFToPNGConverter => Some "_pages.zip"
  | CompressPDFConverter => Some "_compressed.pdf"
  | PNGToJPGConverter | WEBPToJPGConverter => Some ".jpg"
  | MP4ToMP3Converter | WAVToMP3Converter | OGGToMP3Converter => Some ".mp3"
  | DOCXToPDFConverter | DOCToPDFConverter | TXTToPDFConverter | EPUBToPDFConverter
  | JPGToPDFConverter | XLSXToPDFConverter | PPTXToPDFConverter | CSVToPDFConverter
  | HTMLToPDFConverter => Some ".pdf"
  | PDFToDOCXConverter => Some ".docx"
  | PDFToTXTConverter => Some ".txt"
  | XLSXToCSVConverter => Some ".csv"
  | CSVToXLSXConverter => Some ".xlsx"
  | PDFToHTMLConverter => Some ".html"
  | MP3ToWAVConverter => Some ".wav"
  | MP4ToAVIConverter => Some ".avi"
  | AVIToMP4Converter | MKVToMP4Converter => Some ".mp4"
  | BMPToPNGConverter | JPGToPNGConverter => Some ".png"
  | JPGToWEBPConverter => Some ".webp"
  | MP4ToWEBMConverter => Some ".webm"
  | MergePDFsConverter | MergeImagesConverter => None
  end.

(** The target extension a conversion type names: what follows its
    last underscore ([docx] for [pdf_to_docx]). *)
Definition target_extension (t : string) : string :=
  match Py.rsplit1 "_" t with
  | Some (_, e) => e
  | None => t
  end.

(** What the output name adds to the base name of the input, by
    conversion type. *)
Definition expected_suffix (t : string) : string :=
  if decide (t = "pdf_to_png") then "_pages.zip"
  else if decide (t = "compress_pdf") then "_compressed.pdf"
  else "." +:+ target_extension t.

(** ** The raster export *)

(** Writing a list of files, first to last. *)
Definition write_all (files : list (string * File)) (m : FS) : FS :=
  foldl (λ m e, <[e.1 := e.2]> m) m files.

(** The per-page files of the pages [rest], numbered from [k]. *)
Definition page_files (env : Env) (output_dir base : string) (k : nat)
    (rest : list Page) : list (string * File) :=
  map (λ ip, (OsPath.join (OsPath.join output_dir (base +:+ "_pages"))
                          (PDFToPNG_page_filename base ip.1),
              FImage PNG (get_pixmap env ip.2)))
      (enumerate_from k rest).

(** ** Sample data *)

(** A text of blanks and a newline. *)
Definition blank_text : string := "  " +:+ Py.nl +:+ " ".

(** An upload named [photo.GIF] for the conversion [png_to_jpg]. *)
Definition gif_request : Request :=
  mkRequest false (Some "png_to_jpg")
    (Some (mkUpload "photo.GIF" (FImage PNG (mkImage RGB 1 1 [PIL.white])))) [].

(** Three uploads for a PDF merge; the first is not a PDF, the others
    have five and two pages. *)
Definition three_pdfs : FS :=
  {[ "a.pdf" := FText "not a document";
     "b.pdf" := FPdf (TextPage <$> ["b1"; "b2"; "b3"; "b4"; "b5"]);
     "c.pdf" := FPdf (TextPage <$> ["c1"; "c2"]) ]}.

(** Three images, the second one 4000 x 3000 (pixel data elided). *)
Definition small_image : Image := mkImage RGB 1 1 [PIL.white].
Definition large_image : Image := mkImage RGBA 4000 3000 [].
Definition slim_image : Image := mkImage RGB 13 2080 [].
Definition three_images : FS :=
  {[ "1.png" := FImage PNG small_image;
     "2.png" := FImage PNG large_image;
     "3.jpg" := FImage JPEG small_image ]}.

(** A one-pixel image, black and fully transparent. *)
Definition transparent_pixel : Image := mkImage RGBA 1 1 [mkPixel 0 0 0 0].

(** An environment whose tools exit with code 1 and stderr [boom], and
    one whose tools never finish in time. *)
Definition failing_env : Env :=
  {| secure_filename := secure_filename demo_env;
     mkdtemp := mkdtemp demo_env;
     spawn := λ _ _ m, (Exited 1 EmptyString "boom", m);
     open_error := open_error demo_env;
     get_pixmap := get_pixmap demo_env;
     get_text := get_text demo_env;
     lanczos := lanczos demo_env;
     has_reportlab := true;
     has_pdf2docx := true;
     has_openpyxl := true;
     reportlab_build := reportlab_build demo_env;
     pdfkit_from_string := pdfkit_from_string demo_env;
     pdfkit_from_file := pdfkit_from_file demo_env;
     pdf2docx_convert := pdf2docx_convert demo_env;
     re_sub := re_sub demo_env;
     html_unescape := html_unescape demo_env;
     csv_reader := csv_reader demo_env;
     csv_writer := csv_writer demo_env |}.

Definition timeout_env : Env :=
  {| secure_filename := secure_filename demo_env;
     mkdtemp := mkdtemp demo_env;
     spawn := λ _ _ m, (TimedOut, m);
     open_error := open_error demo_env;
     get_pixmap := get_pixmap demo_env;
     get_text := get_text demo_env;
     lanczos := lanczos demo_env;
     has_reportlab := true;
     has_pdf2docx := true;
     has_openpyxl := true;
     reportlab_build := reportlab_build demo_env;
     pdfkit_from_string := pdfkit_from_string demo_env;
     pdfkit_from_file := pdfkit_from_file demo_env;
     pdf2docx_convert := pdf2docx_convert demo_env;
     re_sub := re_sub demo_env;
     html_unescape := html_unescape demo_env;
     csv_reader := csv_reader demo_env;
     csv_writer := csv_writer demo_env |}.

(** ** Runs that keep a relation between the states *)

(** Every run of the computation takes a state to a state related to it. *)
Definition preserves (R : State → State → Prop) {A} (m : M A) : Prop :=
  ∀ s r s', m s = (r, s') → R s s'.

(** The messages flashed so far, with their categories. *)
Definition flashes (tr : list Event) : list (string * string) :=
  flat_map (λ ev, match ev with EvFlash msg cat => [(msg, cat)] | _ => [] end) tr.

Definition same_flashes (s s' : State) : Prop :=
  flashes (trace s') = flashes (trace s).

(** The files outside [dir] are the same. *)
Definition same_outside (dir : string) (s s' : State) : Prop :=
  ∀ p, under dir p = false → fs s' !! p = fs s !! p.

(** A tool that keeps its hands off everything outside [dir]. *)
Definition tool_confined (env : Env) (dir : string) : Prop :=
  ∀ cmd t m p, under dir p = false → (spawn env cmd t m).2 !! p = m !! p.

(** What a run of a handler does to the flashed messages: an answer
    that redirects goes to the index page and adds one error message;
    a delivered file, or an exception on its way up, adds none. *)
Definition answered (s : State) (r : exn + Response) (s' : State) : Prop :=
  match r with
  | inr (Redirect endpoint) =>
      endpoint = "index"
      ∧ ∃ msg, flashes (trace s') = flashes (trace s) ++ [(msg, "error")]
  | _ => flashes (trace s') = flashes (trace s)
  end.

Definition answers (m : M Response) : Prop :=
  ∀ s r s', m s = (r, s') → answered s r s'.

(** The job directory [tempfile.mkdtemp()] hands out is new: it has a
    name and nothing is below it. *)
Definition fresh_dir (dir : string) (m : FS) : Prop :=
  dir ≠ EmptyString ∧ ∀ p, under dir p = true → m !! p = None.

(** What the sanitiser returns is a plain file name: it holds no
    separator and does not begin with a dot, so it is neither a path
    that leads elsewhere nor [.] or [..] (werkzeug's [secure_filename]
    replaces the separators and strips the leading dots). *)
Definition plain_names (env : Env) : Prop :=
  ∀ name, Py.contains "/" (secure_filename env name) = false
          ∧ Py.startswith (secure_filename env name) "." = false.

(** [path] lies in [dir] however it is resolved: it is below [dir] as
    written and none of its components is [..]. *)
Definition inside (dir path : string) : bool :=
  under dir path && negb (bool_decide (".." ∈ Py.split "/" path)).

(** A tool that writes inside [dir] only. *)
Definition tool_inside (env : Env) (dir : string) : Prop :=
  ∀ cmd t m p, inside dir p = false → (spawn env cmd t m).2 !! p = m !! p.

(** From a state where the next job directory is new and the tools
    write below it only, the run ends with the files it started with. *)
Definition restored (env : Env) (s s' : State) : Prop :=
  let dir := mkdtemp env (fs s) in
  fresh_dir dir (fs s) → tool_confined env dir → fs s' = fs s.

(** ** Jobs *)

(** What the download name adds to the base name of the upload. *)
Definition download_suffix (t : string) : string :=
  if decide (t = "pdf_to_png") then "_all_pages.zip" else expected_suffix t.

(** The state in which the converter of a single-file request starts:
    the upload saved in the job directory. *)
Definition job_dir (env : Env) (s : State) : string := mkdtemp env (fs s).

Definition saved_upload (env : Env) (file : FileStorage) (s : State) : string :=
  OsPath.join (job_dir env s) (secure_filename env (filename file)).

Definition upload_saved (env : Env) (file : FileStorage) (s : State) : State :=
  mkState (<[saved_upload env file s := payload file]> (fs s)) (trace s).

(** The state a job ends in: the job directory removed. *)
Definition job_done (env : Env) (s s2 : State) (tr : list Event) : State :=
  mkState (filter (λ kv, under (job_dir env s) kv.1 = false) (fs s2)) (trace s2 ++ tr).

(** A request for a single-file conversion that passes every check. *)
Definition valid_request (req : Request) (t : string) (c : Converter)
    (file : FileStorage) : Prop :=
  too_large req = false
  ∧ form_conversion_type req = Some t
  ∧ t ≠ "merge_pdfs" ∧ t ≠ "merge_images"
  ∧ converters !! t = Some c
  ∧ files_file req = Some file
  ∧ filename file ≠ EmptyString
  ∧ allowed_file (filename file) t = true.

(** ** Merge requests *)

(** The uploads of a merge request that carry a name. *)
Definition named (uploads : list FileStorage) : list FileStorage :=
  filter (λ f, filename f ≠ EmptyString) uploads.

(** Where the merge handlers save upload number [item.1 + 1]. *)
Definition upload_path (env : Env) (prefix temp_dir : string)
    (item : nat * FileStorage) : string :=
  OsPath.join temp_dir
    (secure_filename env
       (prefix +:+ Py.zfill 2 (item.1 + 1) +:+ "_" +:+ filename item.2)).

Definition upload_paths (env : Env) (prefix temp_dir : string)
    (files : list FileStorage) : list string :=
  map (upload_path env prefix temp_dir) (enumerate files).

(** The pages an upload contributes to a merged PDF, and the image it
    contributes to a merged album. *)
Definition pdf_pages (f : File) : list Page :=
  match f with FPdf pages => pages | _ => [] end.

Definition album_image (env : Env) (f : File) : list Image :=
  match f with FImage _ img => [MergeImages_prepare env img] | _ => [] end.

(** Names the PDF merge lets through: none, or one that ends in [.pdf]
    whatever the case of its letters. *)
Definition pdf_or_unnamed (f : FileStorage) : Prop :=
  filename f = EmptyString ∨ Py.endswith (Py.lower (filename f)) ".pdf" = true.

(** Names the image merge lets through: none, or one whose extension
    ([os.path.splitext], lower case) is one of the five. *)
Definition image_or_unnamed (f : FileStorage) : Prop :=
  filename f = EmptyString
  ∨ (OsPath.splitext (Py.lower (filename f))).2 ∈ image_extensions.

(** ** Requests that are turned away *)

(** The answer to a request turned away with one message. *)
Definition turned_away (s : State) (msg : string) : (exn + Response) * State :=
  (inr (Redirect "index"), mkState (fs s) (trace s ++ [EvFlash msg "error"])).

(** ** What converters produce *)

(** A pixel whose three colours are bytes. *)
Definition byte_colours (p : Pixel) : Prop :=
  0 ≤ red p ≤ 255 ∧ 0 ≤ green p ≤ 255 ∧ 0 ≤ blue p ≤ 255.

(** What compositing on white makes of a pixel [p]: [q] is opaque, is
    [p] without its alpha when [p] was opaque, and is white when [p]
    was fully transparent. *)
Definition flattened (p q : Pixel) : Prop :=
  alpha q = 255
  ∧ (alpha p = 255 → byte_colours p → q = PIL.opaque p)
  ∧ (alpha p = 0 → q = PIL.white).

(** The rows of a sheet that reach the PDF: those with a cell that is
    not [None]. *)
Definition kept_rows (ws : list (list (option string))) : list (list (option string)) :=
  List.filter (λ row, existsb (λ c, bool_decide (is_Some c)) row) ws.

(** The converters that write last: they read and check their input,
    build the output in memory and hand it to the one library call
    that writes it, so that nothing in their own code can fail once a
    file is written.  Left out are the converters that run a tool,
    directly or through pdfkit ([docx_to_pdf], [html_to_pdf]),
    [pdf_to_png], which writes page files as it goes and removes them
    only on success, and [xlsx_to_csv], which opens its output before
    it reads the rows. *)
Definition writes_last (c : Converter) : bool :=
  match c with
  | PNGToJPGConverter | WEBPToJPGConverter | JPGToPDFConverter
  | JPGToWEBPConverter | BMPToPNGConverter | JPGToPNGConverter
  | TXTToPDFConverter | EPUBToPDFConverter | PDFToDOCXConverter
  | PDFToTXTConverter | PDFToHTMLConverter | CompressPDFConverter
  | XLSXToPDFConverter | CSVToXLSXConverter | CSVToPDFConverter
  | MergePDFsConverter | MergeImagesConverter => true
  | _ => false
  end.

(** The first part of the message of every failure of a class:
    [raise Exception(f"<label>: {e}")]. *)
Definition failure_label (c : Converter) : string :=
  match c with
  | PDFToPNGConverter | PDFToDOCXConverter => "PDF conversion failed"
  | PNGToJPGConverter | WEBPToJPGConverter | JPGToPDFConverter | JPGToWEBPConverter
  | BMPToPNGConverter | JPGToPNGConverter => "Image conversion failed"
  | MP4ToMP3Converter | MP3ToWAVConverter | WAVToMP3Converter
  | OGGToMP3Converter => "Audio conversion failed"
  | MP4ToAVIConverter | AVIToMP4Converter | MKVToMP4Converter
  | MP4ToWEBMConverter => "Video conversion failed"
  | DOCXToPDFConverter | DOCToPDFConverter => "Document conversion failed"
  | PPTXToPDFConverter => "Presentation conversion failed"
  | TXTToPDFConverter => "Text conversion failed"
  | EPUBToPDFConverter => "EPUB conversion failed"
  | XLSXToPDFConverter => "Excel conversion failed"
  | PDFToTXTConverter => "PDF text extraction failed"
  | XLSXToCSVConverter => "Excel to CSV conversion failed"
  | CSVToXLSXConverter => "CSV to Excel conversion failed"
  | CSVToPDFConverter => "CSV conversion failed"
  | HTMLToPDFConverter => "HTML conversion failed"
  | PDFToHTMLConverter => "PDF to HTML conversion failed"
  | CompressPDFConverter => "PDF compression failed"
  | MergePDFsConverter => "PDF merge failed"
  | MergeImagesConverter => "Image merge failed"
  end.

(** What python-docx makes of a path. *)
Definition opens_as_docx (m : FS) (path : string) : option (list string) :=
  match m !! path with
  | Some (FDocx paragraphs) => Some paragraphs
  | _ => None
  end.

(** Whether LibreOffice delivered: it exited with code 0 and the
    output file is there. *)
Definition libreoffice_delivered (outcome : ProcOutcome) (m : FS) (output_path : string)
  : bool :=
  match outcome with
  | Exited rc _ _ => (rc =? 0) && bool_decide (is_Some (m !! output_path))
  | _ => false
  end.

(** ** More sample data *)

(** The example environment with a sanitiser that keeps the last
    component of the name. *)
Definition sample_env : Env :=
  {| secure_filename := OsPath.basename;
     mkdtemp := mkdtemp demo_env;
     spawn := spawn demo_env;
     open_error := open_error demo_env;
     get_pixmap := get_pixmap demo_env;
     get_text := get_text demo_env;
     lanczos := lanczos demo_env;
     has_reportlab := true;
     has_pdf2docx := true;
     has_openpyxl := true;
     reportlab_build := reportlab_build demo_env;
     pdfkit_from_string := pdfkit_from_string demo_env;
     pdfkit_from_file := pdfkit_from_file demo_env;
     pdf2docx_convert := pdf2docx_convert demo_env;
     re_sub := re_sub demo_env;
     html_unescape := html_unescape demo_env;
     csv_reader := csv_reader demo_env;
     csv_writer := csv_writer demo_env |}.

(** A sanitiser in the manner of werkzeug's: the separators become
    underscores, and the dots and underscores the name begins with are
    dropped. *)
Fixpoint lstrip_dots (s : string) : string :=
  match s with
  | String c rest =>
      if bool_decide (c = "."%char ∨ c = "_"%char) then lstrip_dots rest else s
  | EmptyString => s
  end.

Definition tidy_name (name : string) : string :=
  lstrip_dots (Py.replace "/" "_" name).

Definition tidy_env : Env :=
  {| secure_filename := tidy_name;
     mkdtemp := mkdtemp demo_env;
     spawn := spawn demo_env;
     open_error := open_error demo_env;
     get_pixmap := get_pixmap demo_env;
     get_text := get_text demo_env;
     lanczos := lanczos demo_env;
     has_reportlab := true;
     has_pdf2docx := true;
     has_openpyxl := true;
     reportlab_build := reportlab_build demo_env;
     pdfkit_from_string := pdfkit_from_string demo_env;
     pdfkit_from_file := pdfkit_from_file demo_env;
     pdf2docx_convert := pdf2docx_convert demo_env;
     re_sub := re_sub demo_env;
     html_unescape := html_unescape demo_env;
     csv_reader := csv_reader demo_env;
     csv_writer := csv_writer demo_env |}.

(** An environment whose tools exit with code 0 without writing. *)
Definition idle_env : Env :=
  {| secure_filename := secure_filename demo_env;
     mkdtemp := mkdtemp demo_env;
     spawn := λ _ _ m, (Exited 0 EmptyString EmptyString, m);
     open_error := open_error demo_env;
     get_pixmap := get_pixmap demo_env;
     get_text := get_text demo_env;
     lanczos := lanczos demo_env;
     has_reportlab := true;
     has_pdf2docx := true;
     has_openpyxl := true;
     reportlab_build := reportlab_build demo_env;
     pdfkit_from_string := pdfkit_from_string demo_env;
     pdfkit_from_file := pdfkit_from_file demo_env;
     pdf2docx_convert := pdf2docx_convert demo_env;
     re_sub := re_sub demo_env;
     html_unescape := html_unescape demo_env;
     csv_reader := csv_reader demo_env;
     csv_writer := csv_writer demo_env |}.

(** An upload named [holiday.PNG] for the conversion [png_to_jpg]. *)
Definition photo_upload : FileStorage := mkUpload "holiday.PNG" (FImage PNG transparent_pixel).
Definition photo_request : Request :=
  mkRequest false (Some "png_to_jpg") (Some photo_upload) [].

(** Uploads for the PDF merge: two documents and an empty form field. *)
Definition pdf_uploads : list FileStorage :=
  [ mkUpload "a.pdf" (FPdf [TextPage "a1"]);
    mkUpload EmptyString (FOther EmptyString);
    mkUpload "B.PDF" (FPdf [TextPage "b1"; TextPage "b2"]) ].
Definition merge_pdfs_request : Request :=
  mkRequest false (Some "merge_pdfs") None pdf_uploads.

(** Uploads for the image merge: a small image, and one of 13 by 2080
    pixels, whose scaled width falls halfway between 12 and 13. *)
Definition image_uploads : list FileStorage :=
  [ mkUpload "one.png" (FImage PNG small_image);
    mkUpload "two.JPEG" (FImage JPEG slim_image) ].
Definition merge_images_request : Request :=
  mkRequest false (Some "merge_images") None image_uploads.

(** A merge request with a text file among the uploads. *)
Definition mixed_uploads : list FileStorage :=
  [ mkUpload "a.pdf" (FPdf [TextPage "a1"]);
    mkUpload "notes.txt" (FText "n");
    mkUpload "b.pdf" (FPdf [TextPage "b1"]) ].

(** * Properties *)

(** ** The library models on sample inputs *)

Example splitext_ex1 : OsPath.splitext "a/b.tar.gz" = ("a/b.tar", ".gz").
Proof. reflexivity. Qed.
Example splitext_ex2 : OsPath.splitext "dir.d/.bashrc" = ("dir.d/.bashrc", EmptyString).
Proof. reflexivity. Qed.
Example splitext_ex3 : OsPath.splitext "x/..a.b" = ("x/..a", ".b").
Proof. reflexivity. Qed.
Example basename_ex : OsPath.basename "/tmp/x/report.pdf" = "report.pdf".
Proof. reflexivity. Qed.
Example join_ex : OsPath.join "/tmp/x" "a.pdf" = "/tmp/x/a.pdf".
Proof. reflexivity. Qed.
Example zfill_ex : Py.zfill 3 7 = "007" ∧ Py.zfill 3 1234 = "1234".
Proof. split; reflexivity. Qed.
Example split_ex : Py.split "," "a,,b," = ["a"; EmptyString; "b"; EmptyString].
Proof. reflexivity. Qed.
Example split2_ex : Py.split2 "-" "-" "a--b-c---d" = ["a"; "b-c"; "-d"].
Proof. reflexivity. Qed.
Example endswith_ex :
  Py.endswith "a/b.pdf" ".pdf" = true ∧ Py.endswith "a/b.pdf" "/" = false
  ∧ Py.endswith "pdf" ".pdf" = false ∧ Py.endswith "x" EmptyString = true.
Proof. repeat split; reflexivity. Qed.
Example strip_ex : Py.strip (" a b " +:+ Py.nl) = "a b".
Proof. reflexivity. Qed.
Example title_ex : Py.title (Py.replace "_" " " "mp4_to_mp3") = "Mp4 To Mp3".
Proof. reflexivity. Qed.
Example str_list_ex : Py.str_list ["ffmpeg"; "-i"; "a b.mp4"] = "['ffmpeg', '-i', 'a b.mp4']".
Proof. reflexivity. Qed.

Example div255_ex : PIL.div255 (255 * 255) = 255 ∧ PIL.div255 0 = 0 ∧ PIL.div255 (255 * 7) = 7.
Proof. repeat split; reflexivity. Qed.
Example thumbnail_ex1 : PIL.thumbnail_size 4000 3000 2000 2000 = Some (2000, 1500).
Proof. vm_compute. reflexivity. Qed.
Example thumbnail_ex2 : PIL.thumbnail_size 1000 3000 2000 2000 = Some (667, 2000).
Proof. vm_compute. reflexivity. Qed.
Example thumbnail_ex3 : PIL.thumbnail_size 100000 1 2000 2000 = Some (2000, 1).
Proof. vm_compute. reflexivity. Qed.
Example thumbnail_ex4 : PIL.thumbnail_size 10001 10000 2000 2000 = Some (2000, 2000).
Proof. vm_compute. reflexivity. Qed.
Example thumbnail_ex5 : PIL.thumbnail_size 800 600 2000 2000 = None.
Proof. reflexivity. Qed.

(** Sizes whose scaled side falls exactly between two integers: the
    keys are equal as rationals and differ as floats. *)
Example thumbnail_tie1 : PIL.thumbnail_size 13 2080 2000 2000 = Some (13, 2000).
Proof. vm_compute. reflexivity. Qed.
Example thumbnail_tie2 : PIL.thumbnail_size 2001 1001 2000 2000 = Some (2000, 1001).
Proof. vm_compute. reflexivity. Qed.

Example thumbnail_tie3 : PIL.thumbnail_size 5 4000 2000 2000 = Some (2, 2000).
Proof. vm_compute. reflexivity. Qed.
Example thumbnail_tie4 : PIL.thumbnail_size 4000 5 2000 2000 = Some (2000, 3).
Proof. vm_compute. reflexivity. Qed.

(** The sizes agree with those computed on the standard library's
    IEEE 754 floats. *)
Example thumbnail_binary64 :
  map (λ wh, PIL.thumbnail_size wh.1 wh.2 2000 2000) sample_sizes
  = map (λ wh, thumbnail_size_binary64 wh.1 wh.2 2000 2000) sample_sizes.
Proof. vm_compute. reflexivity. Qed.

(** The float operations against the standard library's IEEE 754
    specification, on the operands of the first tie. *)
Example truediv_binary64 :
  (Float.truediv 13 2080 == SF2Q (SFdiv 53 1024 (binary64 13) (binary64 2080)))%Q
  ∧ (Float.truediv 1 3 == 6004799503160661 # 18014398509481984)%Q.
Proof. split; vm_compute; reflexivity. Qed.
Example mul_binary64 :
  (Float.mul (Float.of_int 2000) (Float.truediv 13 2080)
   == SF2Q (SFmul 53 1024 (binary64 2000) (SFdiv 53 1024 (binary64 13) (binary64 2080))))%Q.
Proof. vm_compute. reflexivity. Qed.
Example div_binary64 :
  (Float.div (Float.of_int 2000) (Float.truediv 2001 1001)
   == SF2Q (SFdiv 53 1024 (binary64 2000) (SFdiv 53 1024 (binary64 2001) (binary64 1001))))%Q.
Proof. vm_compute. reflexivity. Qed.
Example sub_binary64 :
  (Float.sub (Float.truediv 13 2080) (Float.truediv 13 2000)
   == SF2Q (SFsub 53 1024 (SFdiv 53 1024 (binary64 13) (binary64 2080))
                          (SFdiv 53 1024 (binary64 13) (binary64 2000))))%Q
  ∧ (Float.sub (Float.truediv 13 2080) (Float.truediv 12 2000)
     == SF2Q (SFsub 53 1024 (SFdiv 53 1024 (binary64 13) (binary64 2080))
                            (SFdiv 53 1024 (binary64 12) (binary64 2000))))%Q.
Proof. split; vm_compute; reflexivity. Qed.

(** ** Strings *)

Lemma app_cons c a b : String c a +:+ b = String c (a +:+ b).
Proof. reflexivity. Qed.

Lemma app_nil_l_s a : EmptyString +:+ a = a.
Proof. reflexivity. Qed.

Lemma app_nil_r_s a : a +:+ EmptyString = a.
Proof. induction a as [|c a IH]; [done|]. by rewrite app_cons, IH. Qed.

Lemma app_assoc_s a b c : (a +:+ b) +:+ c = a +:+ b +:+ c.
Proof. induction a as [|x a IH]; [done|]. by rewrite !app_cons, IH. Qed.

Lemma prefix_cons c a b : String.prefix (String c a) (String c b) = String.prefix a b.
Proof. cbn [String.prefix]. by destruct (ascii_dec c c). Qed.

Lemma prefix_cons_ne c d a b : c ≠ d → String.prefix (String c a) (String d b) = false.
Proof. intros Hne. cbn [String.prefix]. by destruct (ascii_dec c d). Qed.

Lemma prefix_app a b c : String.prefix (a +:+ b) (a +:+ c) = String.prefix b c.
Proof. induction a as [|x a IH]; [done|]. by rewrite !app_cons, prefix_cons. Qed.

Lemma prefix_nil a : String.prefix EmptyString a = true.
Proof. by destruct a. Qed.

Lemma prefix_app_same a b : String.prefix a (a +:+ b) = true.
Proof.
  rewrite <- (app_nil_r_s a) at 1. rewrite prefix_app. apply prefix_nil.
Qed.

(** Unfolding the monad down to pairs of a result and a state. *)
Ltac msimpl :=
  cbv beta iota zeta delta
    [bind ret raise try_except try_finally except_Exception except_if
     get_fs put_fs emit log_info log_error log_warning write_file
     path_exists when reraise rmtree makedirs negb];
  cbn [fs trace].

(** ** What a computation returns *)

Lemma returns_in_ret {A} (Q : A → Prop) a : Q a → returns_in Q (ret a).
Proof. by intros Ha s r s' [= <- _]. Qed.

Lemma returns_in_raise {A} (Q : A → Prop) e : returns_in Q (raise e).
Proof. by intros s r s' [=]. Qed.

Lemma returns_in_bind {A B} (P : A → Prop) (Q : B → Prop) (m : M A) (k : A → M B) :
  returns_in P m → (∀ a, P a → returns_in Q (k a)) → returns_in Q (bind m k).
Proof.
  intros Hm Hk s r s'. unfold bind.
  destruct (m s) as [[e|a] s1] eqn:Hms; [done|].
  intros Hka. exact (Hk a (Hm _ _ _ Hms) _ _ _ Hka).
Qed.

Lemma returns_in_any {A} (m : M A) : returns_in (λ _, True) m.
Proof. by intros s r s' _. Qed.

Lemma returns_in_seq {A B} (Q : B → Prop) (m : M A) (k : A → M B) :
  (∀ a, returns_in Q (k a)) → returns_in Q (bind m k).
Proof.
  intros Hk. apply (returns_in_bind (λ _, True)); [apply returns_in_any | auto].
Qed.

Lemma returns_in_try_except {A} (Q : A → Prop) (m : M A) h :
  returns_in Q m →
  (∀ e, match h e with Some k => returns_in Q k | None => True end) →
  returns_in Q (try_except m h).
Proof.
  intros Hm Hh s r s'. unfold try_except.
  destruct (m s) as [[e|a] s1] eqn:Hms.
  - specialize (Hh e). destruct (h e) as [k|]; [|done]. apply Hh.
  - intros [= <- <-]. exact (Hm _ _ _ Hms).
Qed.

Lemma returns_in_try_finally {A} (Q : A → Prop) (m : M A) c :
  returns_in Q m → returns_in Q (try_finally m c).
Proof.
  intros Hm s r s'. unfold try_finally.
  destruct (m s) as [r1 s1] eqn:Hms. destruct (c s1) as [[e|[]] s2]; [done|].
  intros [= -> <-]. exact (Hm _ _ _ Hms).
Qed.

(** ** The registry *)

Lemma converters_keys_NoDup : NoDup (converters_items.*1).
Proof. apply (bool_decide_unpack _). vm_compute. exact I. Qed.

Lemma ALLOWED_EXTENSIONS_keys_NoDup : NoDup (ALLOWED_EXTENSIONS_items.*1).
Proof. apply (bool_decide_unpack _). vm_compute. exact I. Qed.

Lemma dict_lookup {V} (items : list (string * V)) k v :
  NoDup (items.*1) → dict items !! k = Some v ↔ (k, v) ∈ items.
Proof.
  intros Hnd. unfold dict.
  rewrite <- elem_of_list_to_map.
  - by rewrite elem_of_reverse.
  - by rewrite fmap_reverse, reverse_Permutation.
Qed.

Lemma converters_lookup t c :
  converters !! t = Some c ↔ (t, c) ∈ converters_items.
Proof. apply dict_lookup, converters_keys_NoDup. Qed.

(** The two dictionaries have the same keys. *)
Lemma registry_same_keys :
  converters_items.*1 ≡ₚ ALLOWED_EXTENSIONS_items.*1.
Proof.
  apply NoDup_Permutation.
  - apply converters_keys_NoDup.
  - apply ALLOWED_EXTENSIONS_keys_NoDup.
  - assert (Forall (λ x, x ∈ ALLOWED_EXTENSIONS_items.*1) (converters_items.*1)) as H1
      by (apply (bool_decide_unpack _); vm_compute; exact I).
    assert (Forall (λ x, x ∈ converters_items.*1) (ALLOWED_EXTENSIONS_items.*1)) as H2
      by (apply (bool_decide_unpack _); vm_compute; exact I).
    rewrite Forall_forall in H1, H2. intros x. split; auto.
Qed.

Lemma ALLOWED_EXTENSIONS_lookup t exts :
  ALLOWED_EXTENSIONS !! t = Some exts ↔
  ∃ l, (t, l) ∈ ALLOWED_EXTENSIONS_items ∧ exts = list_to_set l.
Proof.
  unfold ALLOWED_EXTENSIONS. rewrite dict_lookup.
  - rewrite list_elem_of_fmap. split.
    + intros [[k l] [Heq Hin]]. simplify_eq/=. eauto.
    + intros [l [Hin ->]]. by exists (t, l).
  - rewrite <- list_fmap_compose. apply ALLOWED_EXTENSIONS_keys_NoDup.
Qed.

Lemma ALLOWED_EXTENSIONS_nonempty t l :
  (t, l) ∈ ALLOWED_EXTENSIONS_items → l ≠ [].
Proof.
  assert (Forall (λ kv : string * list string, kv.2 ≠ []) ALLOWED_EXTENSIONS_items) as H.
  { unfold ALLOWED_EXTENSIONS_items. repeat constructor; discriminate. }
  intros Hin. rewrite Forall_forall in H. exact (H _ Hin).
Qed.

(** Whatever the request, a file delivered for a registered type is sent
    with the MIME type its converter declares. *)
Lemma returns_in_send_file path download_name mimetype :
  returns_in (sent_as mimetype) (send_file path download_name mimetype).
Proof.
  intros s r s'. unfold send_file. msimpl.
  destruct (fs s !! path); [|done]. by intros [= <- _].
Qed.

Lemma returns_in_request_read {A} (req : Request) (field : A) :
  returns_in (λ a, a = field) (request_read req field).
Proof.
  intros s r s'. unfold request_read. destruct (too_large req); [done|].
  by intros [= <- _].
Qed.

Ltac sent_step :=
  lazymatch goal with
  | |- returns_in _ redirect_index => apply returns_in_ret; exact I
  | |- returns_in _ (send_file _ _ _) => apply returns_in_send_file
  | |- returns_in _ (bind _ _) => apply returns_in_seq; intros ?
  | |- returns_in _ (try_except _ _) =>
      apply returns_in_try_except; [|intros ?; unfold except_Exception; cbv beta]
  | |- returns_in _ (try_finally _ _) => apply returns_in_try_finally
  | |- returns_in _ (if ?b then _ else _) => destruct b
  | |- returns_in _ (match ?x with _ => _ end) => destruct x
  end.

Lemma delivered_mimetype env req t c :
  form_conversion_type req = Some t → converters !! t = Some c →
  returns_in (sent_as (output_mimetype c)) (convert_file env req).
Proof.
  intros Ht Hc. unfold convert_file.
  apply returns_in_try_except; [|intros []; repeat sent_step].
  apply (returns_in_bind (λ a, a = form_conversion_type req));
    [apply returns_in_request_read|]. intros ? ->. rewrite Ht.
  case_bool_decide as Hpdf.
  { injection Hpdf as ->. vm_compute in Hc. injection Hc as <-.
    unfold handle_pdf_merge. repeat sent_step. }
  case_bool_decide as Himg.
  { injection Himg as ->. vm_compute in Hc. injection Hc as <-.
    unfold handle_image_merge. repeat sent_step. }
  apply returns_in_seq. intros [file|]; [|repeat sent_step].
  destruct (bool_decide _); [repeat sent_step|].
  destruct (Py.truthy t); [rewrite Hc|repeat sent_step].
  repeat sent_step.
Qed.

(** C8. Every registered conversion type has exactly one converter in
    the registry, a non-empty set of accepted extensions, and a MIME
    type that is a function of the type alone: it is not empty, any two
    lookups agree on it, and it is the one every delivered file of that
    type is sent with. *)
Theorem C8_registry_invariant (t : string) (c : Converter) :
  converters !! t = Some c →
  (∀ c', (t, c') ∈ converters_items → c' = c)
  ∧ (∃ exts, ALLOWED_EXTENSIONS !! t = Some exts ∧ exts ≠ ∅)
  ∧ output_mimetype c ≠ EmptyString
  ∧ (∀ c1 c2, converters !! t = Some c1 → converters !! t = Some c2 →
              output_mimetype c1 = output_mimetype c2)
  ∧ (∀ env req, form_conversion_type req = Some t →
                returns_in (sent_as (output_mimetype c)) (convert_file env req)).
Proof.
  intros Hc. split; [|split; [|split; [|split]]].
  - intros c' Hin. apply converters_lookup in Hin. congruence.
  - apply converters_lookup in Hc.
    assert (t ∈ ALLOWED_EXTENSIONS_items.*1) as Hk.
    { rewrite <- registry_same_keys. apply list_elem_of_fmap. by exists (t, c). }
    apply list_elem_of_fmap in Hk as [[k l] [-> Hin]]. simpl in *.
    exists (list_to_set l). split.
    + apply ALLOWED_EXTENSIONS_lookup. eauto.
    + pose proof (ALLOWED_EXTENSIONS_nonempty _ _ Hin) as Hne.
      destruct l as [|x l]; [done|]. intros Hempty.
      apply (not_elem_of_empty (C:=gset string) x).
      rewrite <- Hempty. apply elem_of_list_to_set. left.
  - destruct c; discriminate.
  - intros c1 c2 H1 H2. congruence.
  - intros env req Ht. by apply delivered_mimetype with t.
Qed.

Lemma C8_registry_invariant_witness :
  converters !! "pdf_to_png" = Some PDFToPNGConverter
  ∧ (∀ c', ("pdf_to_png", c') ∈ converters_items → c' = PDFToPNGConverter)
  ∧ (∃ exts, ALLOWED_EXTENSIONS !! "pdf_to_png" = Some exts ∧ exts ≠ ∅)
  ∧ output_mimetype PDFToPNGConverter ≠ EmptyString
  ∧ (∀ c1 c2, converters !! "pdf_to_png" = Some c1 → converters !! "pdf_to_png" = Some c2 →
              output_mimetype c1 = output_mimetype c2)
  ∧ (∀ env req, form_conversion_type req = Some "pdf_to_png" →
                returns_in (sent_as (output_mimetype PDFToPNGConverter))
                  (convert_file env req)).
Proof.
  split; [reflexivity|].
  apply (C8_registry_invariant "pdf_to_png" PDFToPNGConverter). reflexivity.
Defined.

(** ** Empty sources *)

Lemma lstrip_all_space s : Py.all_space s = true → Py.lstrip s = EmptyString.
Proof.
  induction s as [|c r IH]; simpl; [done|].
  intros [Hc Hr]%andb_prop. rewrite Hc. auto.
Qed.

Lemma strip_all_space s : Py.all_space s = true → Py.strip s = EmptyString.
Proof. intros H. unfold Py.strip. by rewrite (lstrip_all_space _ H). Qed.

(** C9. A text file, or a document whose paragraphs joined by newlines,
    holding nothing but white space makes [txt_to_pdf] and
    [docx_to_pdf] fail with the empty-content error; the file system is
    left as it was, so no output file exists. *)
Theorem C9_empty_content_rejected (env : Env) (input_path output_dir : string) (s : State) :
  (∀ content,
     fs s !! input_path = Some (FText content) →
     Py.all_space content = true →
     TXTToPDF_convert env input_path output_dir s =
       (inl (Exception "Text conversion failed: Text file appears to be empty"),
        mkState (fs s)
          (trace s ++ [EvLog ERROR "TXT to PDF conversion failed: Text file appears to be empty"])))
  ∧ (∀ paragraphs,
       fs s !! input_path = Some (FDocx paragraphs) →
       Py.all_space (Py.join Py.nl paragraphs) = true →
       DOCXToPDF_convert env input_path output_dir s =
         (inl (Exception "Document conversion failed: Document appears to be empty"),
          mkState (fs s)
            (trace s ++ [EvLog ERROR "DOCX to PDF conversion failed: Document appears to be empty"]))).
Proof.
  split.
  - intros content Hfile Hws.
    unfold TXTToPDF_convert, read_text. msimpl.
    rewrite Hfile. msimpl. rewrite (strip_all_space _ Hws). reflexivity.
  - intros paragraphs Hfile Hws.
    unfold DOCXToPDF_convert, Document_open. msimpl.
    rewrite Hfile. msimpl. rewrite (strip_all_space _ Hws). reflexivity.
Qed.

Lemma C9_empty_content_rejected_witness :
  (run (TXTToPDF_convert demo_env "in/a.txt" "out") {[ "in/a.txt" := FText blank_text ]}).1
    = inl (Exception "Text conversion failed: Text file appears to be empty")
  ∧ (run (DOCXToPDF_convert demo_env "in/a.docx" "out")
       {[ "in/a.docx" := FDocx [" "; EmptyString; "  "] ]}).1
    = inl (Exception "Document conversion failed: Document appears to be empty").
Proof.
  split.
  - unfold run.
    rewrite (proj1 (C9_empty_content_rejected demo_env "in/a.txt" "out"
                      (mkState {[ "in/a.txt" := FText blank_text ]} [])) blank_text);
      [reflexivity | reflexivity | reflexivity].
  - unfold run.
    rewrite (proj2 (C9_empty_content_rejected demo_env "in/a.docx" "out"
                      (mkState {[ "in/a.docx" := FDocx [" "; EmptyString; "  "] ]} []))
               [" "; EmptyString; "  "]);
      [reflexivity | reflexivity | reflexivity].
Defined.

(** ** Dispatch of single-input requests *)

Lemma rsplit1_None c s : Py.rsplit1 c s = None ↔ Py.contains c s = false.
Proof.
  induction s as [|a r IH]; simpl; [done|].
  destruct (Py.rsplit1 c r) as [[b e]|] eqn:Hr.
  - split; [done|]. case_decide; [done|]. intros Hc. apply IH in Hc. done.
  - case_decide; [done|]. split; [intros _; by apply IH | done].
Qed.

(** [allowed_file] accepts a name exactly when it has an extension
    whose lower-case form is accepted for the type. *)
Lemma allowed_file_spec name t :
  allowed_file name t = true ↔
  ∃ ext, extension name = Some ext ∧ Py.lower ext ∈ accepted t.
Proof.
  unfold allowed_file, extension, accepted.
  destruct (Py.contains "." name) eqn:Hdot; cbn [negb].
  - destruct (Py.rsplit1 "." name) as [[b e]|] eqn:Hr;
      cbn [fmap option_fmap option_map snd].
    + rewrite bool_decide_eq_true. split; [eauto|]. by intros [ext [[= <-] H]].
    + apply rsplit1_None in Hr. congruence.
  - apply rsplit1_None in Hdot. rewrite Hdot.
    cbn [fmap option_fmap option_map]. split; [done|]. by intros [ext [? _]].
Qed.

Lemma invocations_flash tr msg cat :
  invocations (tr ++ [EvFlash msg cat]) = invocations tr.
Proof. unfold invocations. rewrite List.filter_app. simpl. by rewrite app_nil_r. Qed.

(** C1. A request for a single-input conversion whose type is not
    registered, or whose uploaded name has no extension accepted for
    the type (compared in lower case), is answered by a redirect with
    one error message; no file is written and no converter is called. *)
Theorem C1_invalid_request_rejected (env : Env) (req : Request) (s : State) :
  form_conversion_type req ≠ Some "merge_pdfs" →
  form_conversion_type req ≠ Some "merge_images" →
  (∀ t, form_conversion_type req = Some t → converters !! t = None)
  ∨ (∀ file t ext,
       files_file req = Some file → form_conversion_type req = Some t →
       extension (filename file) = Some ext → Py.lower ext ∉ accepted t) →
  ∃ msg s',
    convert_file env req s = (inr (Redirect "index"), s')
    ∧ fs s' = fs s
    ∧ trace s' = trace s ++ [EvFlash msg "error"]
    ∧ invocations (trace s') = invocations (trace s).
Proof.
  intros Hpdf Himg Hbad.
  assert (∀ msg, ∃ msg' s',
            (inr (Redirect "index") : exn + Response,
             mkState (fs s) (trace s ++ [EvFlash msg "error"]))
              = (inr (Redirect "index"), s')
            ∧ fs s' = fs s
            ∧ trace s' = trace s ++ [EvFlash msg' "error"]
            ∧ invocations (trace s') = invocations (trace s)) as Hdone.
  { intros msg. eexists msg, _. split; [reflexivity|]. simpl.
    by rewrite invocations_flash. }
  unfold convert_file, request_read, flash, redirect_index.
  destruct (too_large req) eqn:Hlarge; msimpl; [apply Hdone|].
  rewrite (bool_decide_eq_false_2 _ Hpdf), (bool_decide_eq_false_2 _ Himg).
  destruct (files_file req) as [file|] eqn:Hfile; msimpl; [|apply Hdone].
  case_bool_decide; msimpl; [apply Hdone|].
  destruct (form_conversion_type req) as [t|] eqn:Ht; msimpl; [|apply Hdone].
  destruct (if Py.truthy t then converters !! t else None) as [c|] eqn:Hc;
    msimpl; [|apply Hdone].
  destruct (allowed_file (filename file) t) eqn:Hallowed; msimpl; [|apply Hdone].
  exfalso. destruct Hbad as [Hunreg | Hext].
  - specialize (Hunreg t eq_refl). destruct (Py.truthy t); congruence.
  - apply allowed_file_spec in Hallowed as [ext [Hext1 Hext2]].
    exact (Hext file t ext eq_refl eq_refl Hext1 Hext2).
Qed.

Lemma C1_invalid_request_rejected_witness :
  ∃ msg s',
    convert_file demo_env gif_request (mkState ∅ []) = (inr (Redirect "index"), s')
    ∧ fs s' = ∅
    ∧ trace s' = [] ++ [EvFlash msg "error"]
    ∧ invocations (trace s') = invocations [].
Proof.
  apply (C1_invalid_request_rejected demo_env gif_request (mkState ∅ [])).
  - discriminate.
  - discriminate.
  - right. intros file t ext [= <-] [= <-] [= <-]. vm_compute. intros H. discriminate H.
Defined.

(** ** PDF merge *)

Lemma fitz_open_run env path s :
  fitz_open env path s =
    match opens_as_pdf (fs s) path with
    | Some pages => (inr pages, s)
    | None => (inl (LibraryError (open_error env path)), s)
    end.
Proof.
  unfold fitz_open, opens_as_pdf. msimpl.
  destruct (fs s !! path) as [[]|]; reflexivity.
Qed.

Lemma MergePDFs_step_run env acc i path s :
  MergePDFs_step env acc (i, path) s =
    (inr (acc ++ default [] (opens_as_pdf (fs s) path)),
     mkState (fs s) (trace s ++ [MergePDFs_log env (fs s) (i, path)])).
Proof.
  unfold MergePDFs_step, MergePDFs_log. msimpl. rewrite fitz_open_run.
  cbn [snd fst].
  destruct (opens_as_pdf (fs s) path) as [pages|]; cbn [default fs trace].
  - reflexivity.
  - by rewrite app_nil_r.
Qed.

Lemma MergePDFs_loop_run env paths : ∀ k acc s,
  fold_each (enumerate_from k paths) acc (MergePDFs_step env) s =
    (inr (acc ++ merged_pages (fs s) paths),
     mkState (fs s) (trace s ++ map (MergePDFs_log env (fs s)) (enumerate_from k paths))).
Proof.
  induction paths as [|path rest IH]; intros k acc s.
  - cbn. rewrite !app_nil_r. by destruct s.
  - cbn [enumerate_from fold_each]. unfold bind at 1.
    rewrite MergePDFs_step_run, IH. cbn [fs trace map merged_pages flat_map].
    by rewrite <- !app_assoc.
Qed.

(** The whole run of the PDF merge, in closed form. *)
Lemma MergePDFs_convert_run (env : Env) (input_paths : list string) (output_dir : string)
    (s : State) :
  let pages := merged_pages (fs s) input_paths in
  let logs := map (MergePDFs_log env (fs s)) (enumerate input_paths) in
  let output_path := OsPath.join output_dir "merged_document.pdf" in
  MergePDFs_convert env input_paths output_dir s =
    (if bool_decide (pages = []) then
       (inl (Exception "PDF merge failed: No valid PDF pages found to merge"),
        mkState (fs s)
          (trace s ++ logs
             ++ [EvLog ERROR "PDF merge failed: No valid PDF pages found to merge"]))
     else
       (inr output_path,
        mkState (<[output_path := FPdf pages]> (fs s))
          (trace s ++ logs
             ++ [EvLog INFO ("Successfully merged " +:+ Py.str_nat (length input_paths)
                               +:+ " PDFs into: " +:+ output_path);
                 EvLog INFO ("Total pages in merged PDF: " +:+ Py.str_nat (length pages))]))).
Proof.
  intros pages logs output_path.
  unfold MergePDFs_convert, enumerate. msimpl.
  rewrite MergePDFs_loop_run. cbn [app fs trace].
  fold pages. fold (enumerate input_paths). fold logs.
  destruct pages as [|pg pgs] eqn:Hpages.
  - cbn [length]. rewrite bool_decide_eq_true_2 by done.
    rewrite bool_decide_eq_true_2 by done. msimpl.
    unfold str_exn. by rewrite <- app_assoc.
  - rewrite (bool_decide_eq_false_2 (length _ = 0%nat)) by done.
    rewrite bool_decide_eq_false_2 by done.
    unfold fitz_save. msimpl. fold output_path.
    by rewrite <- !app_assoc.
Qed.

(** C2. PDF merge.  The merged document holds the pages of the inputs
    that open, in input order and each input's pages in their own
    order; an input that does not open costs one error record and
    nothing else.  With at least one page the merge succeeds and writes
    exactly that document; with none it fails with the no-valid-pages
    error and writes nothing.  The page count of the result is the sum
    of the page counts of the inputs that opened. *)
Theorem C2_merge_pdfs (env : Env) (input_paths : list string) (output_dir : string)
    (s : State) :
  let pages := merged_pages (fs s) input_paths in
  let logs := map (MergePDFs_log env (fs s)) (enumerate input_paths) in
  let output_path := OsPath.join output_dir "merged_document.pdf" in
  MergePDFs_convert env input_paths output_dir s =
    (if bool_decide (pages = []) then
       (inl (Exception "PDF merge failed: No valid PDF pages found to merge"),
        mkState (fs s)
          (trace s ++ logs
             ++ [EvLog ERROR "PDF merge failed: No valid PDF pages found to merge"]))
     else
       (inr output_path,
        mkState (<[output_path := FPdf pages]> (fs s))
          (trace s ++ logs
             ++ [EvLog INFO ("Successfully merged " +:+ Py.str_nat (length input_paths)
                               +:+ " PDFs into: " +:+ output_path);
                 EvLog INFO ("Total pages in merged PDF: " +:+ Py.str_nat (length pages))])))
  ∧ length pages =
      sum_list (map (λ path, length (default [] (opens_as_pdf (fs s) path))) input_paths)
  ∧ (∀ path, path ∈ input_paths → opens_as_pdf (fs s) path = None →
       EvLog ERROR ("Failed to process PDF " +:+ path +:+ ": " +:+ open_error env path)
         ∈ logs).
Proof.
  intros pages logs output_path. split; [|split].
  - apply MergePDFs_convert_run.
  - subst pages. unfold merged_pages.
    induction input_paths as [|path rest IH]; [done|].
    cbn [flat_map map sum_list sum_list_with]. rewrite length_app. by rewrite IH.
  - intros path Hin Hnone. subst logs. unfold enumerate.
    generalize 0%nat.
    induction Hin as [path rest | path other rest Hin IH]; intros k; cbn [enumerate_from map].
    + assert (MergePDFs_log env (fs s) (k, path) =
              EvLog ERROR ("Failed to process PDF " +:+ path +:+ ": " +:+ open_error env path))
        as -> by (unfold MergePDFs_log; cbn [snd]; by rewrite Hnone).
      left.
    + right. by apply IH.
Qed.

Lemma C2_merge_pdfs_witness :
  (run (MergePDFs_convert demo_env ["a.pdf"; "b.pdf"; "c.pdf"] "out") three_pdfs).1
    = inr "out/merged_document.pdf"
  ∧ length (merged_pages three_pdfs ["a.pdf"; "b.pdf"; "c.pdf"]) = 7%nat
  ∧ EvLog ERROR "Failed to process PDF a.pdf: cannot open a.pdf"
      ∈ map (MergePDFs_log demo_env three_pdfs) (enumerate ["a.pdf"; "b.pdf"; "c.pdf"]).
Proof.
  pose proof (C2_merge_pdfs demo_env ["a.pdf"; "b.pdf"; "c.pdf"] "out"
                (mkState three_pdfs [])) as [Hrun [Hlen Hlog]].
  split; [|split].
  - unfold run. rewrite Hrun. reflexivity.
  - reflexivity.
  - apply (Hlog "a.pdf"); [apply list_elem_of_here | reflexivity].
Defined.

(** ** Image merge *)

(** *** Rounding, and the size of a thumbnail *)

Section FloatFacts.

Local Open Scope Q_scope.

Lemma pow2_pos k : 0 < 2 ^ k.
Proof. apply Qpower_0_lt. reflexivity. Qed.

Lemma pow2_add a b : 2 ^ (a + b) == 2 ^ a * 2 ^ b.
Proof. apply Qpower_plus. discriminate. Qed.

Lemma pow2_succ a : 2 ^ (a + 1) == 2 * 2 ^ a.
Proof. rewrite pow2_add. change (2 ^ 1) with 2. ring. Qed.

Lemma pow2_le a b : (a ≤ b)%Z → 2 ^ a <= 2 ^ b.
Proof. intros. apply Qpower_le_compat_l; [done | discriminate]. Qed.

Lemma pow2_Z a : (0 ≤ a)%Z → 2 ^ a == inject_Z (2 ^ a).
Proof. intros. by rewrite Zpower_Qpower. Qed.

(** Rounding to the nearest integer moves a number by at most a half
    and keeps the order. *)
Lemma round_half_even_bounds y :
  inject_Z (Float.round_half_even y) - (1 # 2) <= y
  ∧ y <= inject_Z (Float.round_half_even y) + (1 # 2).
Proof.
  unfold Float.round_half_even.
  pose proof (Qfloor_le y) as Hlo. pose proof (Qlt_floor y) as Hhi.
  rewrite inject_Z_plus in Hhi. change (inject_Z 1) with 1 in Hhi.
  destruct (Qcompare_spec (y - inject_Z (Qfloor y)) (1 # 2)) as [He|Hl|Hg].
  - destruct (Z.even _); rewrite ?inject_Z_plus; change (inject_Z 1) with 1; lra.
  - lra.
  - rewrite inject_Z_plus. change (inject_Z 1) with 1. lra.
Qed.

Lemma round_half_even_mono y1 y2 :
  y1 <= y2 → (Float.round_half_even y1 ≤ Float.round_half_even y2)%Z.
Proof.
  intros Hle. pose proof (Qfloor_resp_le _ _ Hle) as Hf.
  unfold Float.round_half_even.
  pose proof (Qfloor_le y1) as Hlo1. pose proof (Qlt_floor y1) as Hhi1.
  pose proof (Qfloor_le y2) as Hlo2. pose proof (Qlt_floor y2) as Hhi2.
  rewrite inject_Z_plus in Hhi1, Hhi2. change (inject_Z 1) with 1 in Hhi1, Hhi2.
  destruct (decide (Qfloor y1 = Qfloor y2)) as [Heq|Hne].
  - rewrite Heq in *.
    destruct (Qcompare_spec (y1 - inject_Z (Qfloor y2)) (1 # 2)),
             (Qcompare_spec (y2 - inject_Z (Qfloor y2)) (1 # 2));
      try destruct (Z.even _); try lia; lra.
  - assert (Qfloor y1 + 1 ≤ Qfloor y2)%Z by lia.
    destruct (Qcompare (y1 - _) _), (Qcompare (y2 - _) _);
      repeat destruct (Z.even _); lia.
Qed.

(** [ilog2 x] is the exponent of the power of two at or below [x]. *)
Lemma ilog2_spec x :
  0 < x → 2 ^ Float.ilog2 x <= x ∧ x < 2 ^ (Float.ilog2 x + 1).
Proof.
  intros Hx. unfold Float.ilog2.
  destruct x as [n d]. cbn [Qnum Qden].
  assert (0 < n)%Z as Hn by (unfold Qlt in Hx; cbn in Hx; lia).
  set (a := Z.log2 n). set (b := Z.log2 (Z.pos d)).
  pose proof (Z.log2_spec n Hn) as Ha. fold a in Ha.
  pose proof (Z.log2_spec (Z.pos d) eq_refl) as Hb. fold b in Hb.
  pose proof (Z.log2_nonneg n) as Ha0. fold a in Ha0.
  pose proof (Z.log2_nonneg (Z.pos d)) as Hb0. fold b in Hb0.
  assert (n # d == inject_Z n / inject_Z (Z.pos d)) as Hnd by apply Qmake_Qdiv.
  assert (0 < inject_Z (Z.pos d)) as Hdpos by (unfold Qlt; cbn; lia).
  assert (2 ^ a <= inject_Z n) as Han.
  { rewrite pow2_Z by done. rewrite <- Zle_Qle. lia. }
  assert (inject_Z n < 2 * 2 ^ a) as Han'.
  { rewrite <- pow2_succ, pow2_Z by lia. rewrite <- Zlt_Qlt. unfold Z.succ in Ha. lia. }
  assert (2 ^ b <= inject_Z (Z.pos d)) as Hbd.
  { rewrite pow2_Z by done. rewrite <- Zle_Qle. lia. }
  assert (inject_Z (Z.pos d) < 2 * 2 ^ b) as Hbd'.
  { rewrite <- pow2_succ, pow2_Z by lia. rewrite <- Zlt_Qlt. unfold Z.succ in Hb. lia. }
  assert (2 ^ a == 2 ^ (a - b) * 2 ^ b) as Hab.
  { rewrite <- pow2_add. by replace (a - b + b)%Z with a by lia. }
  pose proof (pow2_pos (a - b)) as Hk. pose proof (pow2_pos b) as Hpb.
  pose proof (pow2_pos a) as Hpa.
  assert (n # d < 2 * 2 ^ (a - b)) as Hupper.
  { rewrite Hnd. apply Qlt_shift_div_r; [done|].
    apply Qlt_le_trans with (2 * 2 ^ a); [done|].
    rewrite Hab. rewrite <- Qmult_assoc.
    apply Qmult_le_l; [reflexivity|]. apply Qmult_le_l; [done|]. done. }
  assert (2 ^ (a - b) <= 2 * (n # d)) as Hlower.
  { rewrite Hnd. unfold Qdiv. rewrite Qmult_assoc.
    apply Qle_shift_div_l; [done|].
    apply Qle_trans with (2 ^ (a - b) * (2 * 2 ^ b)).
    - apply Qmult_le_l; [done|]. lra.
    - nra. }
  destruct (Qle_bool (2 ^ (a - b)) (n # d)) eqn:Hcmp.
  - apply Qle_bool_iff in Hcmp. split; [done|]. by rewrite pow2_succ.
  - assert (¬ 2 ^ (a - b) <= n # d) as Hlt by (rewrite <- Qle_bool_iff; congruence).
    apply Qnot_le_lt in Hlt.
    replace (a - b - 1 + 1)%Z with (a - b)%Z by lia.
    split; [|done].
    assert (2 ^ (a - b) == 2 * 2 ^ (a - b - 1)) as Hs.
    { rewrite <- pow2_succ. by replace (a - b - 1 + 1)%Z with (a - b)%Z by lia. }
    lra.
Qed.

Lemma ilog2_mono x1 x2 : 0 < x1 → x1 <= x2 → (Float.ilog2 x1 ≤ Float.ilog2 x2)%Z.
Proof.
  intros H1 Hle.
  destruct (ilog2_spec x1 H1) as [Hlo1 _].
  destruct (ilog2_spec x2) as [_ Hhi2]; [lra|].
  destruct (Z_le_gt_dec (Float.ilog2 x1) (Float.ilog2 x2)) as [|Hgt]; [done|].
  pose proof (pow2_le (Float.ilog2 x2 + 1) (Float.ilog2 x1) ltac:(lia)). lra.
Qed.

Lemma pow2_52 : 2 ^ 52 == 4503599627370496.
Proof. reflexivity. Qed.

(** The scaled significand of a positive number has 53 bits. *)
Lemma scaled_bounds x :
  0 < x →
  let e := (Float.ilog2 x - 52)%Z in
  x == (x / 2 ^ e) * 2 ^ e
  ∧ 4503599627370496 <= x / 2 ^ e ∧ x / 2 ^ e < 9007199254740992.
Proof.
  intros Hx e. pose proof (pow2_pos e) as He.
  destruct (ilog2_spec x Hx) as [Hlo Hhi].
  assert (2 ^ Float.ilog2 x == 4503599627370496 * 2 ^ e) as Hs.
  { rewrite <- pow2_52, <- pow2_add. subst e. by replace (52 + _)%Z with (Float.ilog2 x) by lia. }
  rewrite pow2_succ in Hhi. rewrite Hs in Hlo, Hhi.
  split; [|split].
  - field. lra.
  - apply Qle_shift_div_l; [done|]. lra.
  - apply Qlt_shift_div_r; [done|]. lra.
Qed.

(** The rounded value lies in the binade of [x] and within the unit
    roundoff of it. *)
Lemma round_pos_spec x :
  0 < x →
  let e := (Float.ilog2 x - 52)%Z in
  4503599627370496 * 2 ^ e <= Float.round_pos x
  ∧ Float.round_pos x <= 9007199254740992 * 2 ^ e
  ∧ (1 - unit_roundoff) * x <= Float.round_pos x
  ∧ Float.round_pos x <= (1 + unit_roundoff) * x.
Proof.
  intros Hx e. pose proof (pow2_pos e) as He.
  destruct (scaled_bounds x Hx) as (Hxy & Hylo & Hyhi). fold e in Hxy, Hylo, Hyhi.
  unfold Float.round_pos. fold e.
  set (y := x / 2 ^ e) in *.
  destruct (round_half_even_bounds y) as [Hmlo Hmhi].
  set (m := Float.round_half_even y) in *.
  assert (4503599627370496 ≤ m)%Z as Hm1.
  { destruct (Z_le_gt_dec 4503599627370496 m) as [|Hgt]; [done|].
    assert (m ≤ 4503599627370495)%Z as Hle by lia.
    rewrite Zle_Qle in Hle. change (inject_Z 4503599627370495) with 4503599627370495 in Hle. lra. }
  assert (m ≤ 9007199254740992)%Z as Hm2.
  { destruct (Z_le_gt_dec m 9007199254740992) as [|Hgt]; [done|].
    assert (9007199254740993 ≤ m)%Z as Hle by lia.
    rewrite Zle_Qle in Hle. change (inject_Z 9007199254740993) with 9007199254740993 in Hle. lra. }
  rewrite Zle_Qle in Hm1, Hm2.
  change (inject_Z 4503599627370496) with 4503599627370496 in Hm1.
  change (inject_Z 9007199254740992) with 9007199254740992 in Hm2.
  clearbody m y. unfold unit_roundoff.
  repeat split.
  - apply Qmult_le_r; done.
  - apply Qmult_le_r; done.
  - rewrite Hxy, Qmult_assoc. apply Qmult_le_r; [done|]. lra.
  - rewrite Hxy, Qmult_assoc. apply Qmult_le_r; [done|]. lra.
Qed.

Lemma round_pos_pos x : 0 < x → 0 < Float.round_pos x.
Proof.
  intros Hx. destruct (round_pos_spec x Hx) as (H & _).
  pose proof (pow2_pos (Float.ilog2 x - 52)). lra.
Qed.

Lemma round_pos_mono x1 x2 :
  0 < x1 → x1 <= x2 → Float.round_pos x1 <= Float.round_pos x2.
Proof.
  intros H1 Hle. assert (0 < x2) as H2 by lra.
  pose proof (ilog2_mono x1 x2 H1 Hle) as He.
  destruct (decide (Float.ilog2 x1 = Float.ilog2 x2)) as [Heq|Hne].
  - unfold Float.round_pos. rewrite Heq.
    pose proof (pow2_pos (Float.ilog2 x2 - 52)) as Hp.
    apply Qmult_le_r; [done|]. rewrite <- Zle_Qle.
    apply round_half_even_mono.
    apply Qle_shift_div_l; [done|].
    assert (x1 / 2 ^ (Float.ilog2 x2 - 52) * 2 ^ (Float.ilog2 x2 - 52) == x1) as -> by (field; lra).
    done.
  - destruct (round_pos_spec x1 H1) as (_ & Hup & _).
    destruct (round_pos_spec x2 H2) as (Hlo & _).
    pose proof (pow2_le (Float.ilog2 x1 - 52 + 1) (Float.ilog2 x2 - 52) ltac:(lia)) as Hp.
    rewrite pow2_succ in Hp.
    pose proof (pow2_pos (Float.ilog2 x1 - 52)). lra.
Qed.

Lemma round_0 : Float.round 0 == 0.
Proof. reflexivity. Qed.

Lemma round_of_pos x : 0 < x → Float.round x = Float.round_pos x.
Proof. intros Hx. unfold Float.round. by apply Qgt_alt in Hx as ->. Qed.

Lemma round_of_neg x : x < 0 → Float.round x = - Float.round_pos (- x).
Proof. intros Hx. unfold Float.round. by apply Qlt_alt in Hx as ->. Qed.

Lemma round_of_zero x : x == 0 → Float.round x = 0.
Proof. intros Hx. unfold Float.round. by apply Qeq_alt in Hx as ->. Qed.

(** Rounding keeps the order. *)
Lemma round_mono x1 x2 : x1 <= x2 → Float.round x1 <= Float.round x2.
Proof.
  intros Hle.
  destruct (Qcompare_spec x1 0) as [Hz1|Hn1|Hp1];
    destruct (Qcompare_spec x2 0) as [Hz2|Hn2|Hp2]; try lra.
  - rewrite (round_of_zero x1), (round_of_zero x2) by done. lra.
  - rewrite (round_of_zero x1), (round_of_pos x2) by done.
    pose proof (round_pos_pos x2 Hp2). lra.
  - rewrite (round_of_neg x1), (round_of_zero x2) by done.
    pose proof (round_pos_pos (- x1)). lra.
  - rewrite (round_of_neg x1), (round_of_neg x2) by done.
    pose proof (round_pos_mono (- x2) (- x1)). lra.
  - rewrite (round_of_neg x1), (round_of_pos x2) by done.
    pose proof (round_pos_pos (- x1)). pose proof (round_pos_pos x2). lra.
  - rewrite (round_of_pos x1), (round_of_pos x2) by done.
    by apply round_pos_mono.
Qed.

Lemma round_comp x1 x2 : x1 == x2 → Float.round x1 == Float.round x2.
Proof.
  intros Heq. apply Qle_antisym; apply round_mono; lra.
Qed.

(** The relative error of rounding is at most 2^-53. *)
Lemma round_error x :
  0 <= x → (1 - unit_roundoff) * x <= Float.round x ∧ Float.round x <= (1 + unit_roundoff) * x.
Proof.
  intros Hx. destruct (Qcompare_spec x 0) as [Hz|Hn|Hp]; [|lra|].
  - rewrite (round_of_zero x) by done. unfold unit_roundoff. lra.
  - rewrite round_of_pos by done.
    destruct (round_pos_spec x Hp) as (_ & _ & H1 & H2). done.
Qed.

(** The absolute value of a rounded difference is the rounded distance. *)
Lemma abs_round_sub a b :
  b <= a → Qabs (Float.sub a b) == Float.round (a - b).
Proof.
  intros Hle. unfold Float.sub. apply Qabs_pos.
  rewrite <- round_0. apply round_mono. lra.
Qed.

Lemma abs_round_sub_rev a b :
  a <= b → Qabs (Float.sub a b) == Float.round (b - a).
Proof.
  intros Hle. unfold Float.sub.
  destruct (Qcompare_spec (a - b) 0) as [Hz|Hn|Hp]; [| |lra].
  - rewrite (round_of_zero (a - b)) by done.
    rewrite (round_of_zero (b - a)) by lra. reflexivity.
  - rewrite (round_of_neg (a - b)) by done.
    rewrite (round_of_pos (b - a)) by lra.
    rewrite Qabs_opp.
    assert (0 < - (a - b)) as Hpos by lra.
    pose proof (round_pos_pos _ Hpos) as Hr.
    rewrite Qabs_pos by lra.
    rewrite <- !round_of_pos by lra. apply round_comp. ring.
Qed.

Lemma inject_Z_succ n : inject_Z (n + 1) == inject_Z n + 1.
Proof. by rewrite inject_Z_plus. Qed.

Lemma Z_lt_of_Q (a b : Z) : inject_Z a < inject_Z b + 1 → (a ≤ b)%Z.
Proof.
  intros H. destruct (Z_le_gt_dec a b) as [|Hgt]; [done|].
  assert (b + 1 ≤ a)%Z as Hle by lia. rewrite Zle_Qle, inject_Z_succ in Hle. lra.
Qed.

(** [PIL.round_aspect] returns the floor or the ceiling of [number], at
    least 1.  When the keys prefer the integer on the side of the exact
    value [v], the result is less than one away from [v]. *)
Lemma round_aspect_spec (t : Q) (key : Z → Q) (v : Q) :
  0 < t → 0 < v → Qabs (t - v) < 1 →
  (∀ n, (1 ≤ n)%Z → inject_Z n < t → v <= inject_Z n → key n <= key (n + 1)%Z) →
  (∀ n, (1 ≤ n)%Z → inject_Z n < t → t < inject_Z n + 1 → inject_Z n + 1 <= v →
        key (n + 1)%Z < key n) →
  (1 ≤ PIL.round_aspect t key ≤ Qceiling t)%Z
  ∧ Qabs (inject_Z (PIL.round_aspect t key) - v) < 1.
Proof.
  intros Ht Hv Hclose Hfloor Hceil.
  apply Qabs_Qlt_condition in Hclose.
  unfold PIL.round_aspect.
  pose proof (Qfloor_le t) as Hlo. pose proof (Qlt_floor t) as Hlo'.
  pose proof (Qle_ceiling t) as Hhi. pose proof (Qceiling_lt t) as Hhi'.
  rewrite inject_Z_succ in Hlo'.
  unfold Z.sub in Hhi'. rewrite inject_Z_plus, inject_Z_opp in Hhi'.
  change (inject_Z 1) with 1 in Hhi'.
  set (lo := Qfloor t) in *. set (hi := Qceiling t) in *.
  assert (0 ≤ lo)%Z as Hlo0.
  { apply Z_lt_of_Q. change (inject_Z 0) with 0. lra. }
  assert (1 ≤ hi)%Z as Hhi1.
  { destruct (Z_le_gt_dec 1 hi) as [|Hgt]; [done|].
    assert (hi ≤ 0)%Z as Hle by lia. rewrite Zle_Qle in Hle.
    change (inject_Z 0) with 0 in Hle. lra. }
  assert (lo ≤ hi)%Z as Hlh.
  { apply Z_lt_of_Q. lra. }
  assert (hi ≤ lo + 1)%Z as Hhl.
  { apply Z_lt_of_Q. rewrite inject_Z_succ. lra. }
  destruct (decide (lo = hi)) as [Heq|Hne].
  - assert (match Qcompare (key hi) (key lo) with Lt => hi | _ => lo end = hi) as ->
      by (rewrite Heq; by destruct (Qcompare _ _)).
    rewrite Z.max_l by lia. split; [lia|].
    apply Qabs_Qlt_condition. rewrite Heq in Hlo. lra.
  - assert (hi = lo + 1)%Z as Hhi_eq by lia.
    assert (inject_Z hi == inject_Z lo + 1) as Hhi_q by (rewrite Hhi_eq; apply inject_Z_succ).
    assert (inject_Z lo < t) as Hlt.
    { apply Qle_lteq in Hlo as [|Heq]; [done|].
      exfalso. apply Hne. unfold hi.
      rewrite <- (Qceiling_comp (inject_Z lo) t Heq). by rewrite Qceiling_Z. }
    destruct (decide (lo = 0%Z)) as [Hz|Hnz].
    + assert (Z.max (match Qcompare (key hi) (key lo) with Lt => hi | _ => lo end) 1 = 1)%Z
        as -> by (destruct (Qcompare _ _); lia).
      split; [lia|]. change (inject_Z 1) with 1.
      rewrite Hz in Hlo'. change (inject_Z 0) with 0 in Hlo'.
      apply Qabs_Qlt_condition. lra.
    + assert (1 ≤ lo)%Z as Hlo1 by lia.
      assert (v <= inject_Z lo → key lo <= key hi) as Hfloor'.
      { intros Hv1. rewrite Hhi_eq. by apply Hfloor. }
      assert (inject_Z hi <= v → key hi < key lo) as Hceil'.
      { intros Hv2. rewrite Hhi_eq. apply Hceil; [done..|]. by rewrite <- Hhi_q. }
      destruct (Qcompare_spec (key hi) (key lo)) as [Hc|Hc|Hc];
        rewrite Z.max_l by lia; (split; [lia|]); apply Qabs_Qlt_condition.
      * destruct (Qlt_le_dec v (inject_Z hi)) as [Hv2|Hv2]; [lra|].
        specialize (Hceil' Hv2). lra.
      * destruct (Qlt_le_dec (inject_Z lo) v) as [Hv1|Hv1]; [lra|].
        specialize (Hfloor' Hv1). lra.
      * destruct (Qlt_le_dec v (inject_Z hi)) as [Hv2|Hv2]; [lra|].
        specialize (Hceil' Hv2). lra.
Qed.

Lemma round_2000 : Float.round 2000 == 2000.
Proof. vm_compute. reflexivity. Qed.

Lemma round_small : Float.round (1 # 8192) == 1 # 8192.
Proof. vm_compute. reflexivity. Qed.

Lemma round_big : Float.round (1 # 4096) == 1 # 4096.
Proof. vm_compute. reflexivity. Qed.

(** A rounded value below [2^-13] is smaller than one above [2^-12]. *)
Lemma round_separated x y :
  x <= 1 # 8192 → 1 # 4096 <= y → Float.round x < Float.round y.
Proof.
  intros Hx Hy. pose proof (round_mono _ _ Hx) as H1. pose proof (round_mono _ _ Hy) as H2.
  rewrite round_small in H1. rewrite round_big in H2. lra.
Qed.

Lemma div_2000 n :
  2000 * (inject_Z n / 2000) == inject_Z n
  ∧ 2000 * (inject_Z (n + 1) / 2000) == inject_Z n + 1.
Proof. rewrite inject_Z_succ. split; field. Qed.

(** The width chosen for an image that is at least as high as wide. *)
Lemma thumbnail_width q :
  0 < q → Float.round q <= 1 →
  let aspect := Float.round q in
  let r := PIL.round_aspect (Float.mul (Float.of_int 2000) aspect)
             (λ n, Qabs (Float.sub aspect (Float.truediv n 2000))) in
  (1 ≤ r ≤ 2000)%Z ∧ Qabs (inject_Z r - 2000 * q) < 1.
Proof.
  intros Hq Ha1 aspect r.
  destruct (round_error q) as [Ha_lo Ha_hi]; [lra|]. fold aspect in Ha1, Ha_lo, Ha_hi.
  set (t := Float.mul (Float.of_int 2000) aspect) in *.
  assert (t == Float.round (2000 * aspect)) as Ht.
  { unfold t, Float.mul. apply round_comp.
    assert (Float.of_int 2000 == 2000) as -> by (vm_compute; reflexivity). reflexivity. }
  assert (0 < aspect) as Ha0 by (unfold unit_roundoff in *; lra).
  destruct (round_error (2000 * aspect)) as [Ht_lo Ht_hi]; [lra|].
  rewrite <- Ht in Ht_lo, Ht_hi.
  assert (t <= 2000) as Ht2000.
  { pose proof (round_mono (2000 * aspect) 2000 ltac:(lra)) as Hm.
    pose proof round_2000. lra. }
  destruct (round_aspect_spec t (λ n, Qabs (Float.sub aspect (Float.truediv n 2000)))
              (2000 * q)) as [[Hr1 Hr2] Hr3].
  - unfold unit_roundoff in *. lra.
  - lra.
  - apply Qabs_Qlt_condition. unfold unit_roundoff in *. lra.
  - intros n Hn Hnt Hvn. cbv beta. unfold Float.truediv.
    change (inject_Z 2000) with 2000.
    destruct (div_2000 n) as [Hu0 Hu1].
    set (u0 := inject_Z n / 2000) in *. set (u1 := inject_Z (n + 1) / 2000) in *.
    pose proof (round_mono q u0 ltac:(lra)) as H0. fold aspect in H0.
    pose proof (round_mono u0 u1 ltac:(lra)) as H1.
    rewrite !abs_round_sub_rev by lra. apply round_mono. lra.
  - intros n Hn Hnt Htn Hvn. cbv beta. unfold Float.truediv.
    change (inject_Z 2000) with 2000.
    assert (0 < inject_Z n) as Hn0.
    { rewrite Zle_Qle in Hn. change (inject_Z 1) with 1 in Hn. lra. }
    destruct (div_2000 n) as [Hu0 Hu1].
    set (u0 := inject_Z n / 2000) in *. set (u1 := inject_Z (n + 1) / 2000) in *.
    destruct (round_error u0) as [H0_lo H0_hi]; [lra|].
    destruct (round_error u1) as [H1_lo H1_hi]; [lra|].
    pose proof (round_mono u1 q ltac:(lra)) as H1. fold aspect in H1.
    pose proof (round_mono u0 u1 ltac:(lra)) as H0.
    rewrite !abs_round_sub by lra.
    unfold unit_roundoff in *. apply round_separated; lra.
  - split; [|done]. split; [done|].
    etrans; [exact Hr2|]. rewrite <- (Qceiling_Z 2000).
    by apply Qceiling_resp_le.
Qed.

Lemma quotient_2000 n :
  (1 ≤ n)%Z →
  let u0 := 2000 / inject_Z n in
  let u1 := 2000 / inject_Z (n + 1) in
  u0 * inject_Z n == 2000 ∧ u1 * (inject_Z n + 1) == 2000.
Proof.
  intros Hn. rewrite Zle_Qle in Hn. change (inject_Z 1) with 1 in Hn.
  cbv zeta. rewrite inject_Z_succ. split; field; lra.
Qed.

(** The height chosen for an image that is wider than high. *)
Lemma thumbnail_height q :
  0 < q → ¬ Float.round q <= 1 →
  let aspect := Float.round q in
  let r := PIL.round_aspect (Float.div (Float.of_int 2000) aspect)
             (λ n, if (n =? 0)%Z then 0
                   else Qabs (Float.sub aspect (Float.truediv 2000 n))) in
  (1 ≤ r ≤ 2000)%Z ∧ Qabs (inject_Z r - 2000 / q) < 1.
Proof.
  intros Hq Ha1 aspect r. apply Qnot_le_lt in Ha1.
  destruct (round_error q) as [Ha_lo Ha_hi]; [lra|]. fold aspect in Ha1, Ha_lo, Ha_hi.
  set (t := Float.div (Float.of_int 2000) aspect) in *.
  assert (t == Float.round (2000 / aspect)) as Ht.
  { unfold t, Float.div. apply round_comp.
    assert (Float.of_int 2000 == 2000) as -> by (vm_compute; reflexivity). reflexivity. }
  assert ((2000 / aspect) * aspect == 2000) as Hp by (field; lra).
  assert ((2000 / q) * q == 2000) as Hv by (field; lra).
  set (p := 2000 / aspect) in *. set (v := 2000 / q) in *.
  assert (0 < p) as Hp0 by (apply Qlt_shift_div_l; lra).
  assert (p <= 2000) as Hp2000 by (apply Qle_shift_div_r; lra).
  assert (0 < v) as Hv0 by (apply Qlt_shift_div_l; lra).
  unfold unit_roundoff in *.
  assert (v <= (1 + (1 # 9007199254740992)) * p) as Hvp_hi.
  { apply Qle_shift_div_r; [done|]. nra. }
  assert ((1 - (1 # 9007199254740992)) * p <= v) as Hvp_lo.
  { apply Qle_shift_div_l; [done|]. nra. }
  destruct (round_error p) as [Ht_lo Ht_hi]; [lra|].
  rewrite <- Ht in Ht_lo, Ht_hi. unfold unit_roundoff in *.
  assert (t <= 2000) as Ht2000.
  { pose proof (round_mono p 2000 ltac:(lra)) as Hm.
    pose proof round_2000. lra. }
  destruct (round_aspect_spec t
              (λ n, if (n =? 0)%Z then 0
                    else Qabs (Float.sub aspect (Float.truediv 2000 n))) v)
    as [[Hr1 Hr2] Hr3].
  - lra.
  - lra.
  - apply Qabs_Qlt_condition. lra.
  - intros n Hn Hnt Hvn. cbv beta.
    rewrite (proj2 (Z.eqb_neq n 0)), (proj2 (Z.eqb_neq (n + 1) 0)) by lia.
    unfold Float.truediv. change (inject_Z 2000) with 2000.
    assert (0 < inject_Z n) as Hn0.
    { rewrite Zle_Qle in Hn. change (inject_Z 1) with 1 in Hn. lra. }
    destruct (quotient_2000 n Hn) as [Hu0 Hu1].
    assert (2000 / inject_Z n <= q) as Hq0 by (apply Qle_shift_div_r; nra).
    assert (2000 / inject_Z (n + 1) <= 2000 / inject_Z n) as Hq1.
    { apply Qle_shift_div_l; [done|]. nra. }
    set (u0 := 2000 / inject_Z n) in *. set (u1 := 2000 / inject_Z (n + 1)) in *.
    pose proof (round_mono u0 q Hq0) as H0. fold aspect in H0.
    pose proof (round_mono u1 u0 Hq1) as H1.
    rewrite !abs_round_sub by lra. apply round_mono. lra.
  - intros n Hn Hnt Htn Hvn. cbv beta.
    rewrite (proj2 (Z.eqb_neq n 0)), (proj2 (Z.eqb_neq (n + 1) 0)) by lia.
    unfold Float.truediv. change (inject_Z 2000) with 2000.
    destruct (quotient_2000 n Hn) as [Hu0 Hu1].
    assert (1 <= inject_Z n) as Hn0.
    { rewrite Zle_Qle in Hn. by change (inject_Z 1) with 1 in Hn. }
    assert (q <= 2000 / inject_Z (n + 1)) as Hq1.
    { apply Qle_shift_div_l; [rewrite inject_Z_succ; lra|]. rewrite inject_Z_succ. nra. }
    assert (2000 / inject_Z (n + 1) <= 2000 / inject_Z n) as Hq0.
    { apply Qle_shift_div_l; [lra|]. nra. }
    assert (0 < 2000 / inject_Z (n + 1)) as Hu1_pos.
    { apply Qlt_shift_div_l; rewrite inject_Z_succ; lra. }
    set (u0 := 2000 / inject_Z n) in *. set (u1 := 2000 / inject_Z (n + 1)) in *.
    destruct (round_error u0) as [H0_lo H0_hi]; [lra|].
    destruct (round_error u1) as [H1_lo H1_hi]; [lra|].
    pose proof (round_mono q u1 Hq1) as H1. fold aspect in H1.
    pose proof (round_mono u1 u0 Hq0) as H0.
    rewrite !abs_round_sub_rev by lra.
    unfold unit_roundoff in *.
    assert (inject_Z n <= 1999) as Hn1999.
    { assert (n ≤ 1999)%Z as Hle.
      { apply Z_lt_of_Q. change (inject_Z 1999) with 1999. lra. }
      rewrite Zle_Qle in Hle. done. }
    assert (0 < u0) as Hu0_pos by lra.
    pose proof (Qmult_le_0_compat u1 (inject_Z n) ltac:(lra) ltac:(lra)) as M1.
    pose proof (Qmult_le_0_compat u0 (inject_Z n - 1) ltac:(lra) ltac:(lra)) as M2.
    pose proof (Qmult_le_0_compat (u0 - u1) (1999 - inject_Z n) ltac:(lra) ltac:(lra)) as M3.
    pose proof (Qmult_le_0_compat u1 (1999 - inject_Z n) ltac:(lra) ltac:(lra)) as M4.
    assert (1 <= u1) as Hu1_1 by lra.
    assert (u1 <= 2000) as Hu1_2000 by lra.
    assert (u0 <= 2000) as Hu0_2000 by lra.
    assert (u1 <= 1999 * (u0 - u1)) as Hgap by lra.
    assert ((1 - (1 # 9007199254740992)) * u1 <= aspect) as Ha_low.
    { destruct (Qlt_le_dec aspect ((1 - (1 # 9007199254740992)) * u1)) as [Hlt|]; [|done].
      pose proof (Qmult_lt_0_compat p ((1 - (1 # 9007199254740992)) * u1 - aspect)
                    ltac:(lra) ltac:(lra)) as M5.
      pose proof (Qmult_le_0_compat u1 (inject_Z n + 1 - (1 - (1 # 9007199254740992)) * p)
                    ltac:(lra) ltac:(lra)) as M6.
      lra. }
    apply round_separated; lra.
  - split; [|done]. split; [done|].
    etrans; [exact Hr2|]. rewrite <- (Qceiling_Z 2000).
    by apply Qceiling_resp_le.
Qed.

Lemma ratio_error (r c a b : Z) :
  (0 < b)%Z →
  Qabs (inject_Z r - inject_Z c * (inject_Z a / inject_Z b)) < 1 →
  (Z.abs (r * b - c * a) < b)%Z.
Proof.
  intros Hb Habs. apply Qabs_Qlt_condition in Habs as [Hlo Hhi].
  assert (0 < inject_Z b) as Hb' by (rewrite Zlt_Qlt in Hb; done).
  assert ((inject_Z a / inject_Z b) * inject_Z b == inject_Z a) as Hx by (field; lra).
  set (x := inject_Z a / inject_Z b) in *.
  assert (inject_Z c * x * inject_Z b == inject_Z c * inject_Z a) as Hcx
    by (rewrite <- Hx; ring).
  pose proof (Qmult_lt_0_compat _ _ Hb' (proj1 (Qlt_minus_iff _ _) Hlo)) as M1.
  pose proof (Qmult_lt_0_compat _ _ Hb' (proj1 (Qlt_minus_iff _ _) Hhi)) as M2.
  assert (inject_Z (r * b - c * a) < inject_Z b) as H1.
  { unfold Z.sub. rewrite inject_Z_plus, inject_Z_opp, !inject_Z_mult. lra. }
  assert (inject_Z (- b) < inject_Z (r * b - c * a)) as H2.
  { unfold Z.sub. rewrite inject_Z_plus, !inject_Z_opp, !inject_Z_mult. lra. }
  rewrite <- Zlt_Qlt in H1, H2. lia.
Qed.
(** The size Pillow gives an image that exceeds the 2000 px box: it
    fits the box, one side is exactly 2000, no side vanishes, and the
    sides keep their ratio up to the rounding of the shorter one
    (cross-multiplied, the error is below one pixel).  The float
    roundings on the way never push the result off the floor or the
    ceiling of the exact scaled side. *)
Lemma thumbnail_size_2000 (w h : Z) :
  (0 < w → 0 < h → w > 2000 ∨ h > 2000 →
  ∃ w' h', PIL.thumbnail_size w h 2000 2000 = Some (w', h')
    ∧ 1 ≤ w' ≤ 2000 ∧ 1 ≤ h' ≤ 2000
    ∧ Z.max w' h' = 2000
    ∧ Z.abs (w' * h - h' * w) < Z.max w h)%Z.
Proof.
  intros Hw Hh Hbig. unfold PIL.thumbnail_size.
  assert (((2000 >=? w) && (2000 >=? h))%Z = false) as ->.
  { apply andb_false_iff. rewrite !Z.geb_leb, !Z.leb_gt. lia. }
  assert (0 < inject_Z w) as Hw' by (rewrite Zlt_Qlt in Hw; done).
  assert (0 < inject_Z h) as Hh' by (rewrite Zlt_Qlt in Hh; done).
  assert (0 < inject_Z w / inject_Z h) as Hq by (apply Qlt_shift_div_l; lra).
  assert (Float.truediv 2000 2000 == 1) as Hone by (vm_compute; reflexivity).
  change (Float.truediv w h) with (Float.round (inject_Z w / inject_Z h)).
  destruct (Qle_bool _ (Float.truediv 2000 2000)) eqn:Hcmp.
  - apply Qle_bool_iff in Hcmp. rewrite Hone in Hcmp.
    destruct (thumbnail_width _ Hq Hcmp) as [Hr Herr]. cbv zeta in Hr, Herr.
    eexists _, _. split; [reflexivity|].
    apply (ratio_error _ 2000 w h Hh) in Herr.
    set (r := PIL.round_aspect _ _) in *. lia.
  - assert (¬ Float.round (inject_Z w / inject_Z h) <= 1) as Hgt.
    { rewrite <- Hone, <- Qle_bool_iff. congruence. }
    destruct (thumbnail_height _ Hq Hgt) as [Hr Herr]. cbv zeta in Hr, Herr.
    eexists _, _. split; [reflexivity|].
    assert (2000 / (inject_Z w / inject_Z h) == inject_Z 2000 * (inject_Z h / inject_Z w))
      as Hv by (change (inject_Z 2000) with 2000; field; lra).
    rewrite Hv in Herr.
    apply (ratio_error _ 2000 h w Hw) in Herr.
    set (r := PIL.round_aspect _ _) in *. lia.
Qed.

End FloatFacts.

Lemma Image_open_run env path s :
  Image_open env path s =
    match opens_as_image (fs s) path with
    | Some img => (inr img, s)
    | None => (inl (LibraryError (open_error env path)), s)
    end.
Proof.
  unfold Image_open, opens_as_image. msimpl.
  destruct (fs s !! path) as [[]|]; reflexivity.
Qed.

Lemma MergeImages_step_run env acc i path s :
  MergeImages_step env acc (i, path) s =
    (inr (acc ++ merged_images env (fs s) [path]),
     mkState (fs s) (trace s ++ [MergeImages_log env (fs s) (i, path)])).
Proof.
  unfold MergeImages_step, MergeImages_log, merged_images. msimpl.
  rewrite Image_open_run. cbn [snd fst flat_map].
  destruct (opens_as_image (fs s) path) as [img|]; cbn [fs trace].
  - by rewrite app_nil_r.
  - by rewrite !app_nil_r.
Qed.

Lemma MergeImages_loop_run env paths : ∀ k acc s,
  fold_each (enumerate_from k paths) acc (MergeImages_step env) s =
    (inr (acc ++ merged_images env (fs s) paths),
     mkState (fs s)
       (trace s ++ map (MergeImages_log env (fs s)) (enumerate_from k paths))).
Proof.
  induction paths as [|path rest IH]; intros k acc s.
  - cbn. rewrite !app_nil_r. by destruct s.
  - cbn [enumerate_from fold_each]. unfold bind at 1.
    rewrite MergeImages_step_run, IH. cbn [fs trace map].
    unfold merged_images. cbn [flat_map]. rewrite app_nil_r.
    by rewrite <- !app_assoc.
Qed.

Lemma to_rgb_mode img : mode (to_rgb img) = RGB.
Proof. unfold to_rgb. by case_decide. Qed.

Lemma to_rgb_size img :
  width (to_rgb img) = width img ∧ height (to_rgb img) = height img.
Proof. unfold to_rgb. by case_decide. Qed.

Lemma thumbnail_mode env img bx by_ : mode (thumbnail env img bx by_) = mode img.
Proof.
  unfold thumbnail. destruct (PIL.thumbnail_size _ _ _ _) as [[w h]|]; [|done].
  by case_decide.
Qed.

Lemma thumbnail_dims env img bx by_ w h :
  PIL.thumbnail_size (width img) (height img) bx by_ = Some (w, h) →
  width (thumbnail env img bx by_) = w ∧ height (thumbnail env img bx by_) = h.
Proof.
  intros H. unfold thumbnail. rewrite H.
  case_decide as Heq; [|done]. by injection Heq.
Qed.

Lemma MergeImages_prepare_mode env img : mode (MergeImages_prepare env img) = RGB.
Proof.
  unfold MergeImages_prepare.
  destruct (_ || _); [rewrite thumbnail_mode|]; apply to_rgb_mode.
Qed.

Lemma merged_images_modes env m paths :
  Forall (λ img, mode img = RGB) (merged_images env m paths).
Proof.
  unfold merged_images.
  induction paths as [|path rest IH]; cbn [flat_map]; [constructor|].
  apply Forall_app. split; [|exact IH].
  destruct (opens_as_image m path); repeat constructor.
  apply MergeImages_prepare_mode.
Qed.

(** The whole run of the image merge, in closed form. *)
Lemma MergeImages_convert_run (env : Env) (input_paths : list string) (output_dir : string)
    (s : State) :
  let images := merged_images env (fs s) input_paths in
  let logs := map (MergeImages_log env (fs s)) (enumerate input_paths) in
  let output_path := OsPath.join output_dir "merged_images.pdf" in
  MergeImages_convert env input_paths output_dir s =
    (if bool_decide (images = []) then
       (inl (Exception "Image merge failed: No valid images found to merge"),
        mkState (fs s)
          (trace s ++ logs
             ++ [EvLog ERROR "Image merge failed: No valid images found to merge"]))
     else
       (inr output_path,
        mkState (<[output_path := FPdf (ImagePage <$> images)]> (fs s))
          (trace s ++ logs
             ++ [EvLog INFO ("Successfully merged " +:+ Py.str_nat (length images)
                               +:+ " images into: " +:+ output_path)]))).
Proof.
  intros images logs output_path.
  unfold MergeImages_convert, enumerate. msimpl.
  rewrite MergeImages_loop_run. cbn [app fs trace].
  fold images. fold (enumerate input_paths). fold logs.
  pose proof (merged_images_modes env (fs s) input_paths) as Hmodes. fold images in Hmodes.
  destruct images as [|first others] eqn:Himages.
  - rewrite bool_decide_eq_true_2 by done. msimpl.
    unfold str_exn. by rewrite <- app_assoc.
  - rewrite bool_decide_eq_false_2 by done.
    apply Forall_cons in Hmodes as [Hfirst _].
    destruct others as [|second others].
    + unfold Image_save. rewrite Hfirst. cbn [PIL.can_write]. msimpl.
      fold output_path. by rewrite <- !app_assoc.
    + unfold Image_save_all. rewrite Hfirst. cbn [PIL.can_write]. msimpl.
      fold output_path. by rewrite <- !app_assoc.
Qed.

(** C3. Image merge.  The output document holds one page per image that
    opens, in input order; an image that does not open costs one error
    record.  The merge fails, writing nothing, exactly when no image is
    left.  An image with a side above 2000 px is resized so that it
    fits the 2000 px box with its longer side exactly 2000 px and its
    sides in the original ratio up to the rounding of the shorter one,
    whichever way Pillow's float arithmetic rounds; an image within the
    box keeps its size. *)
Theorem C3_merge_images (env : Env) (input_paths : list string) (output_dir : string)
    (s : State) :
  let images := merged_images env (fs s) input_paths in
  let logs := map (MergeImages_log env (fs s)) (enumerate input_paths) in
  let output_path := OsPath.join output_dir "merged_images.pdf" in
  MergeImages_convert env input_paths output_dir s =
    (if bool_decide (images = []) then
       (inl (Exception "Image merge failed: No valid images found to merge"),
        mkState (fs s)
          (trace s ++ logs
             ++ [EvLog ERROR "Image merge failed: No valid images found to merge"]))
     else
       (inr output_path,
        mkState (<[output_path := FPdf (ImagePage <$> images)]> (fs s))
          (trace s ++ logs
             ++ [EvLog INFO ("Successfully merged " +:+ Py.str_nat (length images)
                               +:+ " images into: " +:+ output_path)])))
  ∧ (∀ path, path ∈ input_paths → opens_as_image (fs s) path = None →
       EvLog ERROR ("Failed to process image " +:+ path +:+ ": " +:+ open_error env path)
         ∈ logs)
  ∧ (∀ img, 0 < width img → 0 < height img →
       let r := MergeImages_prepare env img in
       (width img > 2000 ∨ height img > 2000 →
          Z.max (width r) (height r) = 2000
          ∧ 1 ≤ Z.min (width r) (height r)
          ∧ Z.abs (width r * height img - height r * width img)
              < Z.max (width img) (height img))
       ∧ (width img ≤ 2000 ∧ height img ≤ 2000 →
            width r = width img ∧ height r = height img)).
Proof.
  intros images logs output_path. split; [|split].
  - apply MergeImages_convert_run.
  - intros path Hin Hnone. subst logs. unfold enumerate.
    generalize 0%nat.
    induction Hin as [path rest | path other rest Hin IH]; intros k; cbn [enumerate_from map].
    + assert (MergeImages_log env (fs s) (k, path) =
              EvLog ERROR ("Failed to process image " +:+ path +:+ ": "
                             +:+ open_error env path))
        as -> by (unfold MergeImages_log; cbn [snd]; by rewrite Hnone).
      left.
    + right. by apply IH.
  - intros img Hw Hh r.
    destruct (to_rgb_size img) as [Hrw Hrh].
    subst r. unfold MergeImages_prepare, max_size. split.
    + intros Hbig.
      assert ((width (to_rgb img) >? 2000) || (height (to_rgb img) >? 2000) = true) as ->.
      { rewrite Hrw, Hrh. apply orb_true_iff. rewrite !Z.gtb_ltb, !Z.ltb_lt. lia. }
      destruct (thumbnail_size_2000 (width img) (height img) Hw Hh Hbig)
        as (w' & h' & Hsize & Hwb & Hhb & Hlong & Hratio).
      rewrite <- Hrw, <- Hrh in Hsize.
      destruct (thumbnail_dims env _ _ _ _ _ Hsize) as [-> ->].
      lia.
    + intros [Hsw Hsh].
      assert ((width (to_rgb img) >? 2000) || (height (to_rgb img) >? 2000) = false) as ->.
      { rewrite Hrw, Hrh. apply orb_false_iff. rewrite !Z.gtb_ltb, !Z.ltb_ge. lia. }
      done.
Qed.

Lemma C3_merge_images_witness :
  (run (MergeImages_convert demo_env ["1.png"; "2.png"; "3.jpg"] "out") three_images).1
    = inr "out/merged_images.pdf"
  ∧ length (merged_images demo_env three_images ["1.png"; "2.png"; "3.jpg"]) = 3%nat
  ∧ Z.max (width (MergeImages_prepare demo_env large_image))
          (height (MergeImages_prepare demo_env large_image)) = 2000
  ∧ (width (MergeImages_prepare demo_env small_image),
     height (MergeImages_prepare demo_env small_image)) = (1, 1)
  ∧ (width (MergeImages_prepare demo_env slim_image),
     height (MergeImages_prepare demo_env slim_image)) = (13, 2000).
Proof.
  pose proof (C3_merge_images demo_env ["1.png"; "2.png"; "3.jpg"] "out"
                (mkState three_images [])) as [Hrun [_ Hsize]].
  split; [|split; [|split; [|split]]].
  - unfold run. rewrite Hrun. reflexivity.
  - reflexivity.
  - destruct (Hsize large_image) as [Hbig _]; [reflexivity | reflexivity |].
    apply Hbig. left. reflexivity.
  - destruct (Hsize small_image) as [_ Hsmall]; [reflexivity | reflexivity |].
    destruct Hsmall as [-> ->]; [split; discriminate | reflexivity].
  - vm_compute. reflexivity.
Defined.

(** ** Merging a single input *)

(** C10. The dispatch layer turns away a merge request with fewer than
    two uploads, yet the merge converters themselves accept a list of
    one.  A single image that opens becomes a one-page document
    (through the single-image save).  A single PDF that opens is
    written out as the merged document when it has at least one page;
    one that opens without a page is refused with the no-valid-pages
    error, and nothing is written. *)
Theorem C10_singleton_merge (env : Env) (path output_dir : string) (s : State) :
  (∀ pages, fs s !! path = Some (FPdf pages) → pages ≠ [] →
     let output_path := OsPath.join output_dir "merged_document.pdf" in
     ∃ tr, MergePDFs_convert env [path] output_dir s =
             (inr output_path, mkState (<[output_path := FPdf pages]> (fs s)) tr))
  ∧ (∀ fmt img, fs s !! path = Some (FImage fmt img) →
       let output_path := OsPath.join output_dir "merged_images.pdf" in
       ∃ tr, MergeImages_convert env [path] output_dir s =
               (inr output_path,
                mkState (<[output_path := FPdf [ImagePage (MergeImages_prepare env img)]]> (fs s))
                        tr))
  ∧ (∀ req, too_large req = false → (length (files_files req) < 2)%nat →
       handle_pdf_merge env req s =
         (inr (Redirect "index"),
          mkState (fs s)
            (trace s ++ [EvFlash "Please select at least 2 PDF files to merge" "error"]))
       ∧ handle_image_merge env req s =
           (inr (Redirect "index"),
            mkState (fs s)
              (trace s ++ [EvFlash "Please select at least 2 image files to merge" "error"])))
  ∧ (fs s !! path = Some (FPdf []) →
       ∃ tr, MergePDFs_convert env [path] output_dir s =
               (inl (Exception "PDF merge failed: No valid PDF pages found to merge"),
                mkState (fs s) tr)).
Proof.
  split; [|split; [|split]].
  - intros pages Hfile Hne output_path.
    rewrite MergePDFs_convert_run.
    unfold merged_pages, opens_as_pdf. cbn [flat_map]. rewrite Hfile.
    cbn [default]. rewrite app_nil_r.
    rewrite bool_decide_eq_false_2 by done. eauto.
  - intros fmt img Hfile output_path.
    rewrite MergeImages_convert_run.
    unfold merged_images, opens_as_image. cbn [flat_map]. rewrite Hfile.
    cbn [app]. rewrite bool_decide_eq_false_2 by done. eauto.
  - intros req Hsmall Hlen.
    assert (bool_decide (files_files req = []) || (length (files_files req) <? 2)%nat = true)
      as Hfew.
    { apply orb_true_iff. right. by apply Nat.ltb_lt. }
    split.
    + unfold handle_pdf_merge, request_read, flash, redirect_index.
      rewrite Hsmall. msimpl. by rewrite Hfew.
    + unfold handle_image_merge, request_read, flash, redirect_index.
      rewrite Hsmall. msimpl. by rewrite Hfew.
  - intros Hfile.
    rewrite MergePDFs_convert_run.
    unfold merged_pages, opens_as_pdf. cbn [flat_map]. rewrite Hfile.
    cbn [default app]. rewrite bool_decide_eq_true_2 by done. eauto.
Qed.

Lemma C10_singleton_merge_witness :
  (run (MergePDFs_convert demo_env ["c.pdf"] "out") three_pdfs).1
    = inr "out/merged_document.pdf"
  ∧ (run (MergeImages_convert demo_env ["2.png"] "out") three_images).1
    = inr "out/merged_images.pdf"
  ∧ (run (handle_pdf_merge demo_env
            (mkRequest false (Some "merge_pdfs") None
               [mkUpload "c.pdf" (FPdf [TextPage "c1"])])) ∅).1
    = inr (Redirect "index").
Proof.
  pose proof (C10_singleton_merge demo_env "c.pdf" "out" (mkState three_pdfs []))
    as [Hpdf _].
  pose proof (C10_singleton_merge demo_env "2.png" "out" (mkState three_images []))
    as [_ [Himg _]].
  pose proof (C10_singleton_merge demo_env "c.pdf" "out" (mkState ∅ []))
    as [_ [_ [Hreq _]]].
  split; [|split].
  - destruct (Hpdf (TextPage <$> ["c1"; "c2"])) as [tr Hrun];
      [reflexivity | discriminate |].
    unfold run. rewrite Hrun. reflexivity.
  - destruct (Himg PNG large_image) as [tr Hrun]; [reflexivity|].
    unfold run. rewrite Hrun. reflexivity.
  - destruct (Hreq (mkRequest false (Some "merge_pdfs") None
                      [mkUpload "c.pdf" (FPdf [TextPage "c1"])])) as [Hrun _];
      [reflexivity | cbn; lia |].
    unfold run. rewrite Hrun. reflexivity.
Defined.

(** C10 as stated fails on a PDF without pages: the file opens, so it
    is a readable input, and the merge of that single input fails
    instead of producing a document. *)
Lemma C10_zero_page_pdf :
  let m : FS := {[ "z.pdf" := FPdf [] ]} in
  (run (fitz_open demo_env "z.pdf") m).1 = inr []
  ∧ (run (MergePDFs_convert demo_env ["z.pdf"] "out") m).1
    = inl (Exception "PDF merge failed: No valid PDF pages found to merge")
  ∧ fs (run (MergePDFs_convert demo_env ["z.pdf"] "out") m).2 = m.
Proof. split; [|split]; vm_compute; reflexivity. Qed.

(** ** Transparency *)

(** What the JPEG converters do to an image with an alpha band or a
    palette: every pixel is blended with white through its opacity. *)
Lemma flatten_on_white_pixels img :
  mode img ∈ [RGBA; LA; P] →
  length (pixels img) = Z.to_nat (width img * height img) →
  pixels (flatten_on_white img)
    = map (λ p, PIL.paste_pixel PIL.white p (alpha p)) (pixels img).
Proof.
  intros Hmode Hlen. unfold flatten_on_white.
  rewrite bool_decide_eq_true_2 by done.
  assert (∀ (ps : list Pixel) bg,
            length bg = length ps →
            Forall (λ b, b = PIL.white) bg →
            zip_with (λ ds a, PIL.paste_pixel ds.1 ds.2 a) (zip bg ps) (map alpha ps)
              = map (λ p, PIL.paste_pixel PIL.white p (alpha p)) ps) as Hzip.
  { induction ps as [|p ps IH]; intros [|b bg] Hl Hall; try done.
    apply Forall_cons in Hall as [-> Hall]. cbn. f_equal. apply IH; [|done].
    by injection Hl. }
  assert (Forall (λ b, b = PIL.white) (repeat PIL.white (Z.to_nat (width img * height img))))
    as Hwhite by (apply Forall_forall; intros x Hx%list_elem_of_In; by apply repeat_spec in Hx).
  destruct (decide (mode img = P)) as [HP|HP].
  - unfold PIL.paste, PIL.new, PIL.convert, PIL.last_band. cbn.
    apply Hzip; [by rewrite repeat_length | done].
  - rewrite bool_decide_eq_true_2.
    + unfold PIL.paste, PIL.new, PIL.last_band. cbn.
      apply Hzip; [by rewrite repeat_length | done].
    + rewrite !elem_of_cons, elem_of_nil in Hmode. rewrite !elem_of_cons.
      destruct Hmode as [Hm|[Hm|[Hm|[]]]]; auto. contradiction.
Qed.

(** C4, on the code: the JPEG converters composite a transparent pixel
    onto white, while [image_to_pdf] and the image merge only drop the
    alpha band, so the same pixel reaches the PDF black. *)
Theorem C4_alpha_dropped_not_composited :
  let m : FS := {[ "in/logo.png" := FImage PNG transparent_pixel ]} in
  (run (PNGToJPG_convert demo_env "in/logo.png" "out") m).2.(fs) !! "out/logo.jpg"
    = Some (FImage JPEG (mkImage RGB 1 1 [mkPixel 255 255 255 255]))
  ∧ (run (JPGToPDF_convert demo_env "in/logo.png" "out") m).2.(fs) !! "out/logo.pdf"
    = Some (FPdf [ImagePage (mkImage RGB 1 1 [mkPixel 0 0 0 255])])
  ∧ (run (MergeImages_convert demo_env ["in/logo.png"; "in/logo.png"] "out") m).2.(fs)
      !! "out/merged_images.pdf"
    = Some (FPdf [ImagePage (mkImage RGB 1 1 [mkPixel 0 0 0 255]);
                  ImagePage (mkImage RGB 1 1 [mkPixel 0 0 0 255])]).
Proof. repeat split; vm_compute; reflexivity. Qed.

(** ** Converters that spawn a tool *)

Lemma subprocess_run_run env cmd t s :
  subprocess_run env cmd t s =
    (match (spawn env cmd t (fs s)).1 with
     | Exited rc so se => inr (mkCompleted rc so se)
     | TimedOut => inl (TimeoutExpired cmd t)
     | NoSuchTool =>
         inl (FileNotFoundError
                ("[Errno 2] No such file or directory: "
                   +:+ Py.repr (default EmptyString (head cmd))))
     end, after_spawn env cmd t s).
Proof.
  unfold subprocess_run, after_spawn. msimpl.
  destruct (spawn env cmd t (fs s)) as [[rc so se| |] m']; reflexivity.
Qed.

Lemma substring_of_prefix p b : Py.substring_of p (p +:+ b) = true.
Proof.
  destruct p as [|c p]; [by destruct b|].
  rewrite app_cons. cbn [Py.substring_of].
  change (String c (p +:+ b)) with (String c p +:+ b).
  by rewrite prefix_app_same.
Qed.

Lemma substring_of_app p a b : Py.substring_of p (a +:+ p +:+ b) = true.
Proof.
  induction a as [|c a IH].
  - exact (substring_of_prefix p b).
  - rewrite app_cons. cbn [Py.substring_of]. rewrite IH. apply orb_true_r.
Qed.

Lemma str_TimeoutExpired_mentions cmd t pre :
  Py.substring_of "timed out" (pre +:+ str_exn (TimeoutExpired cmd t)) = true.
Proof.
  unfold str_exn.
  replace (pre +:+ "Command '" +:+ Py.str_list cmd +:+ "' timed out after "
             +:+ Py.str_nat t +:+ " seconds")
    with ((pre +:+ "Command '" +:+ Py.str_list cmd +:+ "' ") +:+ "timed out"
            +:+ (" after " +:+ Py.str_nat t +:+ " seconds")).
  - apply substring_of_app.
  - by rewrite !app_assoc_s.
Qed.

(** The seven converters built on [ffmpeg_run]. *)
Lemma ffmpeg_convert_run env cmd t label what failed output_path s :
  ∃ r rest,
    try_except (ffmpeg_run env cmd t label output_path) (reraise what failed) s
      = (r, mkState (spawn env cmd t (fs s)).2 (trace s ++ EvRun cmd true t :: rest))
    ∧ ((spawn env cmd t (fs s)).1 = TimedOut →
         fails_with r (λ msg, Py.substring_of "timed out" msg = true))
    ∧ (∀ rc so se, (spawn env cmd t (fs s)).1 = Exited rc so se → rc ≠ 0 →
         fails_with r (λ msg, ∃ pre, msg = pre +:+ se)).
Proof.
  unfold ffmpeg_run. msimpl. rewrite subprocess_run_run. unfold after_spawn.
  destruct (spawn env cmd t (fs s)) as [[rc so se| |] m']; cbn [fst snd fs trace returncode stderr].
  - destruct (rc =? 0) eqn:Hrc; cbn [fs trace].
    + eexists _, _. split; [by rewrite <- !app_assoc|]. split; [done|].
      intros ??? [= -> _ _]. by apply Z.eqb_eq in Hrc.
    + eexists _, _. split; [by rewrite <- !app_assoc|]. split; [done|].
      intros ??? [= <- <- <-] _. eexists. split; [reflexivity|].
      exists (failed +:+ ": " +:+ "FFmpeg error: "). unfold str_exn.
      by rewrite !app_assoc_s.
  - eexists _, _. split; [by rewrite <- !app_assoc|]. split; [|done].
    intros _. eexists. split; [reflexivity|].
    rewrite <- app_assoc_s. apply str_TimeoutExpired_mentions.
  - eexists _, _. split; [by rewrite <- !app_assoc|]. split; done.
Qed.

Lemma MP4ToMP3_convert_run env input_path output_dir s :
  let output_path := OsPath.join output_dir (base_name_of input_path +:+ ".mp3") in
  let cmd := ["ffmpeg"; "-i"; input_path; "-vn"; "-acodec"; "mp3";
              "-ab"; "192k"; "-ar"; "44100"; "-y"; output_path] in
  ∃ r rest,
    MP4ToMP3_convert env input_path output_dir s
      = (r, mkState (spawn env cmd 300 (fs s)).2 (trace s ++ EvRun cmd true 300 :: rest))
    ∧ ((spawn env cmd 300 (fs s)).1 = TimedOut →
         fails_with r (λ msg, Py.substring_of "timed out" msg = true))
    ∧ (∀ rc so se, (spawn env cmd 300 (fs s)).1 = Exited rc so se → rc ≠ 0 →
         fails_with r (λ msg, ∃ pre, msg = pre +:+ se)).
Proof.
  intros output_path cmd. unfold MP4ToMP3_convert. fold output_path. fold cmd. msimpl.
  rewrite subprocess_run_run. unfold after_spawn.
  destruct (spawn env cmd 300 (fs s)) as [[rc so se| |] m'];
    cbn [fst snd fs trace returncode stderr is_TimeoutExpired].
  - destruct (rc =? 0) eqn:Hrc; cbn [fs trace is_TimeoutExpired].
    + destruct (bool_decide (is_Some (m' !! output_path))); cbn [fs trace is_TimeoutExpired].
      * eexists _, _. split; [by rewrite <- !app_assoc|]. split; [done|].
        intros ??? [= -> _ _]. by apply Z.eqb_eq in Hrc.
      * eexists _, _. split; [by rewrite <- !app_assoc|]. split; [done|].
        intros ??? [= -> _ _]. by apply Z.eqb_eq in Hrc.
    + eexists _, _. split; [by rewrite <- !app_assoc|]. split; [done|].
      intros ??? [= <- <- <-] _. eexists. split; [reflexivity|].
      exists ("Audio conversion failed: " +:+ "Audio conversion failed: ").
      unfold str_exn. by rewrite !app_assoc_s.
  - eexists _, _. split; [by rewrite <- !app_assoc|]. split; [|done].
    intros _. eexists. split; reflexivity.
  - eexists _, _. split; [by rewrite <- !app_assoc|]. split; done.
Qed.

Lemma PPTXToPDF_convert_run env input_path output_dir s :
  let cmd := libreoffice_cmd input_path output_dir in
  ∃ r rest,
    PPTXToPDF_convert env input_path output_dir s
      = (r, mkState (spawn env cmd 60 (fs s)).2 (trace s ++ EvRun cmd true 60 :: rest))
    ∧ ((spawn env cmd 60 (fs s)).1 = TimedOut →
         fails_with r (λ msg, Py.substring_of "timed out" msg = true))
    ∧ (∀ rc so se, (spawn env cmd 60 (fs s)).1 = Exited rc so se → rc ≠ 0 →
         fails_with r
           (λ msg, msg = "Presentation conversion failed: LibreOffice conversion failed")).
Proof.
  intros cmd. unfold PPTXToPDF_convert. fold cmd. msimpl.
  rewrite subprocess_run_run. unfold after_spawn.
  destruct (spawn env cmd 60 (fs s)) as [[rc so se| |] m'];
    cbn [fst snd fs trace returncode stderr].
  - destruct (rc =? 0) eqn:Hrc; cbn [fs trace orb].
    + destruct (bool_decide (is_Some (m' !! _))); cbn [fs trace].
      * eexists _, _. split; [by rewrite <- !app_assoc|]. split; [done|].
        intros ??? [= -> _ _]. by apply Z.eqb_eq in Hrc.
      * eexists _, _. split; [by rewrite <- !app_assoc|]. split; [done|].
        intros ??? [= -> _ _]. by apply Z.eqb_eq in Hrc.
    + eexists _, _. split; [by rewrite <- !app_assoc|]. split; [done|].
      intros ??? _ _. eexists. split; reflexivity.
  - eexists _, _. split; [by rewrite <- !app_assoc|]. split; [|done].
    intros _. eexists. split; [reflexivity|].
    apply (str_TimeoutExpired_mentions cmd 60 "Presentation conversion failed: ").
  - eexists _, _. split; [by rewrite <- !app_assoc|]. split; done.
Qed.

(** ** Traces only grow *)

Lemma extends_ret {A} (a : A) : extends (ret a).
Proof. intros s r s' [= <- <-]. exists []. by rewrite app_nil_r. Qed.

Lemma extends_raise {A} e : extends (@raise A e).
Proof. intros s r s' [= <- <-]. exists []. by rewrite app_nil_r. Qed.

Lemma extends_get_fs : extends get_fs.
Proof. intros s r s' [= <- <-]. exists []. by rewrite app_nil_r. Qed.

Lemma extends_put_fs m : extends (put_fs m).
Proof. intros s r s' [= <- <-]. exists []. by rewrite app_nil_r. Qed.

Lemma extends_emit ev : extends (emit ev).
Proof. intros s r s' [= <- <-]. by exists [ev]. Qed.

Lemma extends_bind {A B} (m : M A) (k : A → M B) :
  extends m → (∀ a, extends (k a)) → extends (bind m k).
Proof.
  intros Hm Hk s r s'. unfold bind.
  destruct (m s) as [[e|a] s1] eqn:Hms.
  - intros [= <- <-]. eauto.
  - intros Hka. destruct (Hm _ _ _ Hms) as [r1 Hr1].
    destruct (Hk a _ _ _ Hka) as [r2 Hr2].
    exists (r1 ++ r2). by rewrite Hr2, Hr1, app_assoc.
Qed.

Lemma extends_try_except {A} (m : M A) h :
  extends m →
  (∀ e, match h e with Some k => extends k | None => True end) →
  extends (try_except m h).
Proof.
  intros Hm Hh s r s'. unfold try_except.
  destruct (m s) as [[e|a] s1] eqn:Hms.
  - specialize (Hh e). destruct (Hm _ _ _ Hms) as [r1 Hr1].
    destruct (h e) as [k|].
    + intros Hk. destruct (Hh _ _ _ Hk) as [r2 Hr2].
      exists (r1 ++ r2). by rewrite Hr2, Hr1, app_assoc.
    + intros [= <- <-]. eauto.
  - intros [= <- <-]. eauto.
Qed.

Lemma extends_try_finally {A} (m : M A) c :
  extends m → extends c → extends (try_finally m c).
Proof.
  intros Hm Hc s r s'. unfold try_finally.
  destruct (m s) as [r1 s1] eqn:Hms. destruct (c s1) as [[e|[]] s2] eqn:Hcs.
  - intros [= <- <-]. destruct (Hm _ _ _ Hms) as [t1 Ht1].
    destruct (Hc _ _ _ Hcs) as [t2 Ht2].
    exists (t1 ++ t2). by rewrite Ht2, Ht1, app_assoc.
  - intros [= <- <-]. destruct (Hm _ _ _ Hms) as [t1 Ht1].
    destruct (Hc _ _ _ Hcs) as [t2 Ht2].
    exists (t1 ++ t2). by rewrite Ht2, Ht1, app_assoc.
Qed.

Lemma extends_fold_each {A B} (xs : list A) (body : B → A → M B) :
  (∀ acc x, extends (body acc x)) → ∀ acc, extends (fold_each xs acc body).
Proof.
  intros Hbody. induction xs as [|x xs IH]; intros acc; cbn [fold_each].
  - apply extends_ret.
  - apply extends_bind; [apply Hbody | intros a; apply IH].
Qed.

Lemma extends_subprocess_run env cmd t : extends (subprocess_run env cmd t).
Proof.
  intros s r s'. rewrite subprocess_run_run. intros [= <- <-].
  by exists [EvRun cmd true t].
Qed.

(** One step of a syntax-directed proof that a computation only extends
    the trace. *)
Ltac extends_step :=
  lazymatch goal with
  | |- extends (bind _ _) => apply extends_bind; [|intros ?]
  | |- extends (try_except _ _) =>
      apply extends_try_except;
      [|intros ?; unfold reraise, except_Exception, except_if; cbv beta]
  | |- extends (try_finally _ _) => apply extends_try_finally
  | |- extends (fold_each _ _ _) => apply extends_fold_each; intros ? ?
  | |- extends (ret _) => apply extends_ret
  | |- extends (raise _) => apply extends_raise
  | |- extends get_fs => apply extends_get_fs
  | |- extends (put_fs _) => apply extends_put_fs
  | |- extends (emit _) => apply extends_emit
  | |- extends (subprocess_run _ _ _) => apply extends_subprocess_run
  | |- extends (match ?x with _ => _ end) => destruct x
  | |- match (if ?b then _ else _) with _ => _ end => destruct b
  | |- match Some _ with _ => _ end => cbv beta iota
  | |- match None with _ => _ end => cbv beta iota
  | |- True => exact I
  | |- extends ?m =>
      let h := head_of m in unfold h
  end
with head_of m :=
  lazymatch m with
  | ?f _ => head_of f
  | _ => m
  end.
Ltac solve_extends := repeat extends_step.

Lemma extends_DOCToPDF_fallback env input_path output_path :
  extends (DOCToPDF_fallback env input_path output_path).
Proof. solve_extends. Qed.

Lemma starts_with_subprocess_run env cmd t :
  starts_with (EvRun cmd true t) (subprocess_run env cmd t).
Proof.
  intros s r s'. rewrite subprocess_run_run. intros [= <- <-]. by exists [].
Qed.

Lemma starts_with_bind {A B} ev (m : M A) (k : A → M B) :
  starts_with ev m → (∀ a, extends (k a)) → starts_with ev (bind m k).
Proof.
  intros Hm Hk s r s'. unfold bind.
  destruct (m s) as [[e|a] s1] eqn:Hms.
  - intros [= <- <-]. eauto.
  - intros Hka. destruct (Hm _ _ _ Hms) as [r1 Hr1].
    destruct (Hk a _ _ _ Hka) as [r2 Hr2].
    exists (r1 ++ r2). by rewrite Hr2, Hr1, <- app_assoc.
Qed.

Lemma starts_with_try_except {A} ev (m : M A) h :
  starts_with ev m →
  (∀ e, match h e with Some k => extends k | None => True end) →
  starts_with ev (try_except m h).
Proof.
  intros Hm Hh s r s'. unfold try_except.
  destruct (m s) as [[e|a] s1] eqn:Hms.
  - specialize (Hh e). destruct (Hm _ _ _ Hms) as [r1 Hr1].
    destruct (h e) as [k|].
    + intros Hk. destruct (Hh _ _ _ Hk) as [r2 Hr2].
      exists (r1 ++ r2). by rewrite Hr2, Hr1, <- app_assoc.
    + intros [= <- <-]. eauto.
  - intros [= <- <-]. eauto.
Qed.

Ltac starts_step :=
  lazymatch goal with
  | |- starts_with _ (bind _ _) => apply starts_with_bind; [|intros ?; solve_extends]
  | |- starts_with _ (try_except _ _) =>
      apply starts_with_try_except;
      [|intros ?; unfold reraise, except_Exception, except_if; cbv beta; solve_extends]
  | |- starts_with _ (subprocess_run _ _ _) => apply starts_with_subprocess_run
  | |- starts_with _ ?m => let h := head_of m in unfold h
  end.
Ltac solve_starts := repeat starts_step.

Lemma spawning_converter_starts env c input_path output_dir tool t :
  external_tool c = Some (tool, t) →
  head (command_line c input_path output_dir) = Some tool
  ∧ starts_with (EvRun (command_line c input_path output_dir) true t)
      (convert_body env c input_path output_dir).
Proof.
  intros Htool.
  destruct c; try discriminate Htool; injection Htool as <- <-;
    (split; [reflexivity|]); cbn [convert_body command_line]; solve_starts.
Qed.

Lemma DOCToPDF_libreoffice_fails env input_path output_dir output_path s :
  let cmd := libreoffice_cmd input_path output_dir in
  (spawn env cmd 60 (fs s)).1 = TimedOut
  ∨ (∃ rc so se, (spawn env cmd 60 (fs s)).1 = Exited rc so se ∧ rc ≠ 0) →
  ∃ e, DOCToPDF_libreoffice env input_path output_dir output_path s
         = (inl e, after_spawn env cmd 60 s).
Proof.
  intros cmd Hout. unfold DOCToPDF_libreoffice. fold cmd. msimpl.
  rewrite subprocess_run_run.
  destruct Hout as [->|(rc & so & se & -> & Hrc)]; [by eexists|].
  cbn [returncode]. apply Z.eqb_neq in Hrc. rewrite Hrc. cbn [andb]. by eexists.
Qed.

Lemma DOCToPDF_fallback_ok env input_path output_path s paragraphs pages :
  fs s !! input_path = Some (FDocx paragraphs) →
  Py.truthy (Py.strip (Py.join Py.nl paragraphs)) = true →
  has_reportlab env = true →
  reportlab_build env (lines_story (Py.join Py.nl paragraphs)) = inr pages →
  DOCToPDF_fallback env input_path output_path s
    = (inr None, mkState (<[output_path := FPdf pages]> (fs s)) (trace s)).
Proof.
  intros Hin Htext Hrl Hbuild.
  unfold DOCToPDF_fallback, Document_open, import, doc_build. msimpl.
  rewrite Hin. cbn [fs trace]. rewrite Htext, Hrl. cbn [fs trace].
  rewrite Hbuild. reflexivity.
Qed.

(** [doc_to_pdf] does not give up when LibreOffice does: it reads the
    input with python-docx and lays it out with reportlab. *)
Lemma DOCToPDF_falls_back env input_path output_dir s paragraphs pages :
  let output_path := OsPath.join output_dir (base_name_of input_path +:+ ".pdf") in
  let cmd := libreoffice_cmd input_path output_dir in
  (spawn env cmd 60 (fs s)).1 = TimedOut
  ∨ (∃ rc so se, (spawn env cmd 60 (fs s)).1 = Exited rc so se ∧ rc ≠ 0) →
  (spawn env cmd 60 (fs s)).2 !! input_path = Some (FDocx paragraphs) →
  Py.truthy (Py.strip (Py.join Py.nl paragraphs)) = true →
  has_reportlab env = true →
  reportlab_build env (lines_story (Py.join Py.nl paragraphs)) = inr pages →
  ∃ tr, DOCToPDF_convert env input_path output_dir s =
          (inr output_path,
           mkState (<[output_path := FPdf pages]> (spawn env cmd 60 (fs s)).2) tr).
Proof.
  intros output_path cmd Hout Hin Htext Hrl Hbuild.
  destruct (DOCToPDF_libreoffice_fails env input_path output_dir output_path s Hout)
    as [e He].
  unfold DOCToPDF_convert. fold output_path. msimpl.
  rewrite He. cbv beta iota. subst cmd.
  rewrite (DOCToPDF_fallback_ok env input_path output_path
             (after_spawn env (libreoffice_cmd input_path output_dir) 60 s)
             paragraphs pages Hin Htext Hrl Hbuild).
  unfold after_spawn. cbn [fs trace]. rewrite lookup_insert_eq.
  rewrite bool_decide_eq_true_2 by eauto. cbn [fs trace]. eauto.
Qed.

(** C5, as the code has it.  Every spawning converter starts its tool
    with captured output and a bounded time: 300 s for the audio
    conversions, 600 s for the video conversions, 60 s for LibreOffice.
    When the time runs out, every one of them but [doc_to_pdf] fails
    with an error that says so; when the tool exits with a non-zero
    code, every one of them but [doc_to_pdf] fails, the FFmpeg
    converters with an error that ends in the tool's stderr,
    [pptx_to_pdf] with a fixed message.  [doc_to_pdf] falls back to
    python-docx and reportlab in both cases and succeeds when they do. *)
Theorem C5_spawning_converters (env : Env) (c : Converter) (input_path output_dir : string)
    (s : State) (tool : string) (t : nat) :
  external_tool c = Some (tool, t) →
  let cmd := command_line c input_path output_dir in
  let outcome := (spawn env cmd t (fs s)).1 in
  let r := (convert_body env c input_path output_dir s).1 in
  head cmd = Some tool
  ∧ starts_with (EvRun cmd true t) (convert_body env c input_path output_dir)
  ∧ (c ≠ DOCToPDFConverter →
       (outcome = TimedOut →
          fails_with r (λ msg, Py.substring_of "timed out" msg = true))
       ∧ (∀ rc so se, outcome = Exited rc so se → rc ≠ 0 →
            fails_with r (λ msg,
              if decide (c = PPTXToPDFConverter)
              then msg = "Presentation conversion failed: LibreOffice conversion failed"
              else ∃ pre, msg = pre +:+ se)))
  ∧ (c = DOCToPDFConverter →
       outcome = TimedOut ∨ (∃ rc so se, outcome = Exited rc so se ∧ rc ≠ 0) →
       ∀ paragraphs pages,
         (spawn env cmd t (fs s)).2 !! input_path = Some (FDocx paragraphs) →
         Py.truthy (Py.strip (Py.join Py.nl paragraphs)) = true →
         has_reportlab env = true →
         reportlab_build env (lines_story (Py.join Py.nl paragraphs)) = inr pages →
         r = inr (OsPath.join output_dir (base_name_of input_path +:+ ".pdf"))).
Proof.
  intros Htool cmd outcome r.
  destruct (spawning_converter_starts env c input_path output_dir tool t Htool)
    as [Hhead Hstarts].
  split; [exact Hhead|]. split; [exact Hstarts|]. split.
  - intros Hdoc. subst r outcome cmd.
    destruct c; try discriminate Htool; try contradiction;
      injection Htool as <- <-; cbn [convert_body command_line];
      rewrite ?decide_True by reflexivity; rewrite ?decide_False by discriminate.
    + destruct (MP4ToMP3_convert_run env input_path output_dir s)
        as (r & rest & -> & Hto & Hrc). by split.
    + destruct (PPTXToPDF_convert_run env input_path output_dir s)
        as (r & rest & -> & Hto & Hrc). by split.
    + unfold MP3ToWAV_convert. cbv zeta.
      edestruct ffmpeg_convert_run as (r & rest & -> & Hto & Hrc). by split.
    + unfold WAVToMP3_convert. cbv zeta.
      edestruct ffmpeg_convert_run as (r & rest & -> & Hto & Hrc). by split.
    + unfold MP4ToAVI_convert. cbv zeta.
      edestruct ffmpeg_convert_run as (r & rest & -> & Hto & Hrc). by split.
    + unfold AVIToMP4_convert. cbv zeta.
      edestruct ffmpeg_convert_run as (r & rest & -> & Hto & Hrc). by split.
    + unfold MKVToMP4_convert. cbv zeta.
      edestruct ffmpeg_convert_run as (r & rest & -> & Hto & Hrc). by split.
    + unfold MP4ToWEBM_convert. cbv zeta.
      edestruct ffmpeg_convert_run as (r & rest & -> & Hto & Hrc). by split.
    + unfold OGGToMP3_convert. cbv zeta.
      edestruct ffmpeg_convert_run as (r & rest & -> & Hto & Hrc). by split.
  - intros -> Hout paragraphs pages Hin Htext Hrl Hbuild.
    injection Htool as <- <-. subst r outcome cmd.
    cbn [convert_body command_line] in *.
    destruct (DOCToPDF_falls_back env input_path output_dir s paragraphs pages
                Hout Hin Htext Hrl Hbuild) as [tr ->].
    reflexivity.
Qed.

Lemma C5_spawning_converters_witness :
  external_tool MP3ToWAVConverter = Some ("ffmpeg", 300%nat)
  ∧ head (command_line MP3ToWAVConverter "in/a.mp3" "out") = Some "ffmpeg"
  ∧ fails_with (convert_body failing_env MP3ToWAVConverter "in/a.mp3" "out" (mkState ∅ [])).1
      (λ msg, ∃ pre, msg = pre +:+ "boom")
  ∧ fails_with (convert_body timeout_env MP3ToWAVConverter "in/a.mp3" "out" (mkState ∅ [])).1
      (λ msg, Py.substring_of "timed out" msg = true).
Proof.
  split; [reflexivity|].
  destruct (C5_spawning_converters failing_env MP3ToWAVConverter "in/a.mp3" "out"
              (mkState ∅ []) "ffmpeg" 300 eq_refl) as (Hhead & _ & Hfail & _).
  destruct (C5_spawning_converters timeout_env MP3ToWAVConverter "in/a.mp3" "out"
              (mkState ∅ []) "ffmpeg" 300 eq_refl) as (_ & _ & Hslow & _).
  split; [exact Hhead|]. split.
  - destruct Hfail as [_ Hrc]; [discriminate|].
    exact (Hrc 1 EmptyString "boom" eq_refl ltac:(discriminate)).
  - destruct Hslow as [Hto _]; [discriminate|]. exact (Hto eq_refl).
Defined.

(** C5 as stated fails on [doc_to_pdf]: LibreOffice runs out of time
    and the conversion succeeds all the same, through the fallback. *)
Lemma C5_doc_to_pdf_survives_timeout :
  let m : FS := {[ "in/letter.doc" := FDocx ["Dear reader,"; "all is well."] ]} in
  (spawn timeout_env (libreoffice_cmd "in/letter.doc" "out") 60 m).1 = TimedOut
  ∧ (run (convert timeout_env DOCToPDFConverter "in/letter.doc" "out") m).1
    = inr "out/letter.pdf".
Proof. split; vm_compute; reflexivity. Qed.

(** ** Paths *)

Lemma contains_app c a b : Py.contains c (a +:+ b) = Py.contains c a || Py.contains c b.
Proof.
  induction a as [|x a IH]; [done|]. rewrite app_cons. cbn [Py.contains].
  by case_decide.
Qed.

Lemma rsplit1_Some c s b e :
  Py.rsplit1 c s = Some (b, e) → s = b +:+ String c e ∧ Py.contains c e = false.
Proof.
  revert b. induction s as [|a r IH]; intros b; cbn [Py.rsplit1]; [done|].
  destruct (Py.rsplit1 c r) as [[b0 e0]|] eqn:Hr.
  - intros [= <- <-]. destruct (IH b0 eq_refl) as [-> He]. by rewrite app_cons.
  - case_decide as Hac; [|done]. intros [= <- <-]. subst a.
    split; [done|]. by apply rsplit1_None.
Qed.

Lemma rsplit1_app c b e :
  Py.contains c e = false → Py.rsplit1 c (b +:+ String c e) = Some (b, e).
Proof.
  intros He. induction b as [|a b IH].
  - rewrite app_nil_l_s. cbn [Py.rsplit1].
    apply rsplit1_None in He. rewrite He. by rewrite decide_True.
  - rewrite app_cons. cbn [Py.rsplit1]. by rewrite IH.
Qed.

Lemma endswith_spec s p : Py.endswith s p = true ↔ ∃ a, s = a +:+ p.
Proof.
  induction s as [|c s IH]; cbn [Py.endswith].
  - rewrite orb_false_r, bool_decide_eq_true. split.
    + intros <-. by exists EmptyString.
    + intros [a Ha]. destruct a; [done|]. by rewrite app_cons in Ha.
  - rewrite orb_true_iff, bool_decide_eq_true, IH. split.
    + intros [<-|[a ->]]; [by exists EmptyString|]. by exists (String c a).
    + intros [[|x a] Ha]; [by left|]. rewrite app_cons in Ha.
      injection Ha as -> ->. right. by exists a.
Qed.

Lemma startswith_no_sep f :
  Py.contains "/" f = false → Py.startswith f "/" = false.
Proof.
  destruct f as [|c f]; [reflexivity|]. cbn [Py.contains].
  case_decide as Hc; [discriminate|].
  intros _. unfold Py.startswith. by apply prefix_cons_ne.
Qed.

Lemma basename_no_sep f : Py.contains "/" f = false → OsPath.basename f = f.
Proof.
  intros Hf. unfold OsPath.basename, OsPath.sep.
  apply rsplit1_None in Hf. by rewrite Hf.
Qed.

Lemma basename_no_slash p : Py.contains "/" (OsPath.basename p) = false.
Proof.
  unfold OsPath.basename, OsPath.sep.
  destruct (Py.rsplit1 "/" p) as [[h t]|] eqn:Hp.
  - by destruct (rsplit1_Some _ _ _ _ Hp).
  - by apply rsplit1_None.
Qed.

(** The last component of [os.path.join(d, f)] is [f] when [f] holds no
    slash. *)
Lemma basename_join d f :
  Py.contains "/" f = false → OsPath.basename (OsPath.join d f) = f.
Proof.
  intros Hf. unfold OsPath.join. rewrite (startswith_no_sep _ Hf).
  destruct (negb (Py.truthy d) || Py.endswith d "/") eqn:Hd.
  - apply orb_true_iff in Hd as [Hd|Hd].
    + destruct d; [|done]. rewrite app_nil_l_s. by apply basename_no_sep.
    + apply endswith_spec in Hd as [a ->]. rewrite app_assoc_s.
      change ("/" +:+ f) with (String "/" f).
      unfold OsPath.basename, OsPath.sep. by rewrite rsplit1_app.
  - change ("/" +:+ f) with (String "/" f).
    unfold OsPath.basename, OsPath.sep. by rewrite rsplit1_app.
Qed.

Lemma base_name_no_slash p : Py.contains "/" (base_name_of p) = false.
Proof.
  unfold base_name_of, OsPath.splitext, OsPath.sep, OsPath.extsep.
  pose proof (basename_no_slash p) as Hq. set (q := OsPath.basename p) in *.
  pose proof Hq as Hnone. apply rsplit1_None in Hnone. rewrite Hnone.
  destruct (Py.rsplit1 "." q) as [[stem e]|] eqn:Hdot; [|done].
  destruct (OsPath.all_dots stem); [done|]. cbn [fst]. rewrite app_nil_l_s.
  destruct (rsplit1_Some _ _ _ _ Hdot) as [Heq _].
  rewrite Heq, contains_app in Hq. by apply orb_false_iff in Hq as [? _].
Qed.

(** The name a converter gives its output lands, joined to the output
    directory, as the last component of the returned path. *)
Lemma basename_output output_dir base suffix :
  Py.contains "/" base = false → Py.contains "/" suffix = false →
  OsPath.basename (OsPath.join output_dir (base +:+ suffix)) = base +:+ suffix.
Proof.
  intros Hb Hs. apply basename_join. rewrite contains_app, Hb, Hs. done.
Qed.

(** ** What a converter returns *)

Ltac returns_step :=
  lazymatch goal with
  | |- returns_in _ (bind _ _) => apply returns_in_seq; intros ?
  | |- returns_in _ (try_except _ _) =>
      apply returns_in_try_except;
      [|intros ?; unfold reraise, except_Exception, except_if; cbv beta]
  | |- returns_in _ (ret _) => apply returns_in_ret; reflexivity
  | |- returns_in _ (raise _) => apply returns_in_raise
  | |- returns_in _ (match ?x with _ => _ end) => destruct x
  | |- match (if ?b then _ else _) with _ => _ end => destruct b
  | |- match Some _ with _ => _ end => cbv beta iota
  | |- match None with _ => _ end => cbv beta iota
  | |- True => exact I
  | |- returns_in _ ?m => let h := head_of m in unfold h
  end.
Ltac solve_returns := repeat returns_step.

Lemma DOCToPDF_returns env input_path output_dir :
  returns_in (λ out, out = OsPath.join output_dir (base_name_of input_path +:+ ".pdf"))
    (DOCToPDF_convert env input_path output_dir).
Proof.
  unfold DOCToPDF_convert. cbv zeta.
  apply returns_in_try_except; [|intros e; unfold reraise, except_Exception; solve_returns].
  set (output_path := OsPath.join output_dir (base_name_of input_path +:+ ".pdf")).
  apply (returns_in_bind (λ early, early = None ∨ early = Some output_path)).
  - apply returns_in_try_except.
    + unfold DOCToPDF_libreoffice. cbv zeta.
      repeat (apply returns_in_seq; intros ?).
      destruct (_ && _); [|apply returns_in_raise].
      apply returns_in_seq; intros _. apply returns_in_ret. by right.
    + intros e. unfold except_Exception, DOCToPDF_fallback.
      apply returns_in_try_except.
      * repeat (apply returns_in_seq; intros ?). apply returns_in_ret. by left.
      * intros e'. unfold except_if. destruct (is_ImportError e'); [|done].
        apply returns_in_raise.
  - intros early [->| ->]; solve_returns.
Qed.

Lemma convert_body_returns env c input_path output_dir suffix :
  class_suffix c = Some suffix →
  returns_in (λ out, out = OsPath.join output_dir (base_name_of input_path +:+ suffix))
    (convert_body env c input_path output_dir).
Proof.
  intros Hc.
  destruct c; try discriminate Hc; injection Hc as <-; cbn [convert_body];
    try apply DOCToPDF_returns; solve_returns.
Qed.

Lemma registry_suffixes t c :
  (t, c) ∈ converters_items → t ≠ "merge_pdfs" → t ≠ "merge_images" →
  class_suffix c = Some (expected_suffix t)
  ∧ Py.contains "/" (expected_suffix t) = false.
Proof.
  assert (Forall (λ tc : string * Converter,
                    tc.1 = "merge_pdfs" ∨ tc.1 = "merge_images"
                    ∨ (class_suffix tc.2 = Some (expected_suffix tc.1)
                       ∧ Py.contains "/" (expected_suffix tc.1) = false))
                 converters_items) as H
    by (apply (bool_decide_unpack _); vm_compute; exact I).
  rewrite Forall_forall in H. intros Hin H1 H2.
  destruct (H _ Hin) as [?|[?|?]]; done.
Qed.

Lemma convert_returns env c input_path output_dir s out s' :
  convert env c input_path output_dir s = (inr out, s') →
  ∃ s1, convert_body env c input_path output_dir s1 = (inr out, s').
Proof. unfold convert. msimpl. eauto. Qed.

(** C7, as the code has it.  A single-input conversion that succeeds
    returns the output directory joined with the base name of the
    input followed by a dot and the target extension of the conversion
    type; this is also the file name of the returned path.  The
    exceptions are [pdf_to_png], which appends [_pages.zip],
    [compress_pdf], which appends [_compressed.pdf], and the two
    merges, whose outputs are named [merged_document.pdf] and
    [merged_images.pdf]. *)
Theorem C7_output_names (env : Env) :
  (∀ t c input_path output_dir s out s',
     converters !! t = Some c → t ≠ "merge_pdfs" → t ≠ "merge_images" →
     convert env c input_path output_dir s = (inr out, s') →
     out = OsPath.join output_dir (base_name_of input_path +:+ expected_suffix t)
     ∧ OsPath.basename out = base_name_of input_path +:+ expected_suffix t)
  ∧ (∀ input_paths output_dir s out s',
       merge_pdfs env input_paths output_dir s = (inr out, s') →
       out = OsPath.join output_dir "merged_document.pdf")
  ∧ (∀ input_paths output_dir s out s',
       merge_images env input_paths output_dir s = (inr out, s') →
       out = OsPath.join output_dir "merged_images.pdf").
Proof.
  split; [|split].
  - intros t c input_path output_dir s out s' Hc Hp Hi Hrun.
    apply converters_lookup in Hc.
    destruct (registry_suffixes t c Hc Hp Hi) as [Hsuffix Hslash].
    apply convert_returns in Hrun as [s1 Hrun].
    pose proof (convert_body_returns env c input_path output_dir _ Hsuffix _ _ _ Hrun)
      as ->.
    split; [done|].
    apply basename_output; [apply base_name_no_slash | done].
  - intros input_paths output_dir s out s'. unfold merge_pdfs. msimpl.
    assert (returns_in (λ out, out = OsPath.join output_dir "merged_document.pdf")
              (MergePDFs_convert env input_paths output_dir)) as H
      by solve_returns.
    apply H.
  - intros input_paths output_dir s out s'. unfold merge_images. msimpl.
    assert (returns_in (λ out, out = OsPath.join output_dir "merged_images.pdf")
              (MergeImages_convert env input_paths output_dir)) as H
      by solve_returns.
    apply H.
Qed.

Lemma C7_output_names_witness :
  converters !! "png_to_jpg" = Some PNGToJPGConverter
  ∧ convert demo_env PNGToJPGConverter "up/logo.v2.png" "out"
      (mkState {[ "up/logo.v2.png" := FImage PNG transparent_pixel ]} [])
    = (inr "out/logo.v2.jpg",
       mkState {[ "up/logo.v2.png" := FImage PNG transparent_pixel;
                  "out/logo.v2.jpg" := FImage JPEG (mkImage RGB 1 1 [PIL.white]) ]}
         [EvConvert "PNGToJPGConverter" ["up/logo.v2.png"] "out";
          EvLog INFO "Successfully converted PNG to JPG: out/logo.v2.jpg"])
  ∧ "out/logo.v2.jpg"
    = OsPath.join "out" (base_name_of "up/logo.v2.png" +:+ expected_suffix "png_to_jpg")
  ∧ OsPath.basename "out/logo.v2.jpg"
    = base_name_of "up/logo.v2.png" +:+ expected_suffix "png_to_jpg".
Proof.
  assert (convert demo_env PNGToJPGConverter "up/logo.v2.png" "out"
            (mkState {[ "up/logo.v2.png" := FImage PNG transparent_pixel ]} [])
          = (inr "out/logo.v2.jpg",
             mkState {[ "up/logo.v2.png" := FImage PNG transparent_pixel;
                        "out/logo.v2.jpg" := FImage JPEG (mkImage RGB 1 1 [PIL.white]) ]}
               [EvConvert "PNGToJPGConverter" ["up/logo.v2.png"] "out";
                EvLog INFO "Successfully converted PNG to JPG: out/logo.v2.jpg"])) as Hrun
    by (vm_compute; reflexivity).
  split; [reflexivity|]. split; [exact Hrun|].
  eapply (proj1 (C7_output_names demo_env) "png_to_jpg" PNGToJPGConverter);
    [reflexivity | discriminate | discriminate | exact Hrun].
Defined.

(** C7 as stated fails on [compress_pdf]: the output is not the base
    name with the target extension appended, and [compress_pdf] is
    neither a merge nor the raster export. *)
Lemma C7_compress_pdf_name :
  let m : FS := {[ "up/doc.pdf" := FPdf [TextPage "one"] ]} in
  converters !! "compress_pdf" = Some CompressPDFConverter
  ∧ (run (convert demo_env CompressPDFConverter "up/doc.pdf" "out") m).1
    = inr "out/doc_compressed.pdf"
  ∧ OsPath.basename "out/doc_compressed.pdf"
    ≠ base_name_of "up/doc.pdf" +:+ "." +:+ target_extension "compress_pdf".
Proof. split; [|split]; vm_compute; [reflexivity | reflexivity | discriminate]. Qed.

(** ** Page numbers in file names *)

Lemma length_app_s a b : String.length (a +:+ b) = (String.length a + String.length b)%nat.
Proof. induction a as [|c a IH]; [done|]. rewrite app_cons. cbn. by rewrite IH. Qed.

Lemma app_inj_r a b c : a +:+ c = b +:+ c → a = b.
Proof.
  revert b. induction a as [|x a IH]; intros [|y b] H.
  - done.
  - apply (f_equal String.length) in H. rewrite app_nil_l_s, length_app_s in H.
    cbn in H. lia.
  - apply (f_equal String.length) in H. rewrite app_nil_l_s, length_app_s in H.
    cbn in H. lia.
  - rewrite !app_cons in H. injection H as -> H. f_equal. by apply IH.
Qed.

Lemma zeros_as_digits k d :
  Py.zeros k +:+ NilEmpty.string_of_uint d
    = NilEmpty.string_of_uint (Nat.iter k Decimal.D0 d).
Proof.
  induction k as [|k IH]; [done|]. cbn [Py.zeros Nat.iter NilEmpty.string_of_uint].
  by rewrite app_cons, IH.
Qed.

Lemma string_of_uint_inj d d' :
  NilEmpty.string_of_uint d = NilEmpty.string_of_uint d' → d = d'.
Proof.
  intros H. apply (f_equal NilEmpty.uint_of_string) in H.
  rewrite !NilEmpty.usu in H. by injection H.
Qed.

Lemma of_uint_leading_zeros k d :
  Nat.of_uint (Nat.iter k Decimal.D0 d) = Nat.of_uint d.
Proof.
  induction k as [|k IH]; [done|]. cbn [Nat.iter].
  rewrite <- DecimalNat.Unsigned.of_uint_norm. cbn [Decimal.unorm].
  by rewrite DecimalNat.Unsigned.of_uint_norm.
Qed.

(** Zero-padded numbers are told apart by the number. *)
Lemma zfill_inj w a b : Py.zfill w a = Py.zfill w b → a = b.
Proof.
  unfold Py.zfill, Py.str_nat. rewrite !zeros_as_digits.
  intros H%string_of_uint_inj. apply (f_equal Nat.of_uint) in H.
  by rewrite !of_uint_leading_zeros, !DecimalNat.Unsigned.of_to in H.
Qed.

Lemma digits_no_slash d : Py.contains "/" (NilEmpty.string_of_uint d) = false.
Proof. induction d; cbn [NilEmpty.string_of_uint Py.contains]; by try case_decide. Qed.

Lemma zfill_no_slash w n : Py.contains "/" (Py.zfill w n) = false.
Proof.
  unfold Py.zfill, Py.str_nat. rewrite zeros_as_digits. apply digits_no_slash.
Qed.

Lemma page_filename_no_slash base i :
  Py.contains "/" base = false →
  Py.contains "/" (PDFToPNG_page_filename base i) = false.
Proof.
  intros Hb. unfold PDFToPNG_page_filename.
  by rewrite !contains_app, Hb, zfill_no_slash.
Qed.

Lemma page_filename_inj base i j :
  PDFToPNG_page_filename base i = PDFToPNG_page_filename base j → i = j.
Proof.
  unfold PDFToPNG_page_filename. intros H.
  apply (inj (String.app base)) in H. apply (inj (String.app "_page_")) in H.
  apply app_inj_r, zfill_inj in H. lia.
Qed.

(** ** Where the raster export puts its files *)

Section RasterPaths.

Variables (output_dir base : string).
Hypothesis base_no_slash : Py.contains "/" base = false.

Let png_dir := OsPath.join output_dir (base +:+ "_pages").
Let zip_output_path := OsPath.join output_dir (base +:+ "_pages.zip").
Let page_path (i : nat) := OsPath.join png_dir (PDFToPNG_page_filename base i).

Lemma join_app d x y :
  Py.contains "/" x = false → x ≠ EmptyString →
  OsPath.join d (x +:+ y) = OsPath.join d x +:+ y.
Proof.
  intros Hx Hne. unfold OsPath.join.
  assert (Py.startswith (x +:+ y) "/" = false) as ->.
  { destruct x as [|c x]; [done|]. rewrite app_cons.
    cbn [Py.contains] in Hx. case_decide; [done|].
    unfold Py.startswith. by apply prefix_cons_ne. }
  rewrite (startswith_no_sep _ Hx).
  destruct (negb (Py.truthy d) || Py.endswith d "/"); by rewrite !app_assoc_s.
Qed.

Lemma app_last_inj a b c d :
  a +:+ String c EmptyString = b +:+ String d EmptyString → c = d.
Proof.
  revert b. induction a as [|x a IH]; intros [|y b] H.
  - by injection H.
  - rewrite app_nil_l_s, app_cons in H. injection H as _ H. by destruct b.
  - rewrite app_nil_l_s, app_cons in H. injection H as _ H. by destruct a.
  - rewrite !app_cons in H. injection H as _ H. by apply (IH b).
Qed.

Lemma png_dir_shape : ∃ z, png_dir = z +:+ "s".
Proof.
  exists (OsPath.join output_dir (base +:+ "_page")). unfold png_dir.
  change "_pages" with ("_page" +:+ "s"). rewrite <- app_assoc_s.
  apply join_app.
  - by rewrite contains_app, base_no_slash.
  - by destruct base.
Qed.

Lemma png_dir_not_dir : negb (Py.truthy png_dir) || Py.endswith png_dir "/" = false.
Proof.
  destruct png_dir_shape as [z ->]. apply orb_false_iff. split.
  - by destruct z.
  - apply not_true_is_false. intros [a Ha]%endswith_spec.
    by apply app_last_inj in Ha.
Qed.

Lemma dir_prefix_png_dir : dir_prefix png_dir = png_dir +:+ "/".
Proof.
  unfold dir_prefix. pose proof png_dir_not_dir as H.
  apply orb_false_iff in H as [_ ->]. done.
Qed.

Lemma zip_path_shape : zip_output_path = png_dir +:+ ".zip".
Proof.
  unfold zip_output_path, png_dir.
  change "_pages.zip" with ("_pages" +:+ ".zip"). rewrite <- app_assoc_s.
  apply join_app.
  - by rewrite contains_app, base_no_slash.
  - by destruct base.
Qed.

Lemma page_path_shape i :
  page_path i = png_dir +:+ "/" +:+ PDFToPNG_page_filename base i.
Proof.
  unfold page_path, OsPath.join.
  rewrite (startswith_no_sep _ (page_filename_no_slash base i base_no_slash)).
  by rewrite png_dir_not_dir.
Qed.

Lemma page_path_under i : under png_dir (page_path i) = true.
Proof.
  unfold under, Py.startswith. rewrite dir_prefix_png_dir, page_path_shape.
  rewrite <- app_assoc_s. apply prefix_app_same.
Qed.

Lemma zip_path_not_under : under png_dir zip_output_path = false.
Proof.
  unfold under, Py.startswith. rewrite dir_prefix_png_dir, zip_path_shape.
  by rewrite prefix_app.
Qed.

Lemma page_path_inj i j : page_path i = page_path j → i = j.
Proof.
  rewrite !page_path_shape. intros H.
  apply (inj (String.app png_dir)) in H. apply (inj (String.app "/")) in H.
  by apply page_filename_inj in H.
Qed.

Lemma page_path_basename i :
  OsPath.basename (page_path i) = PDFToPNG_page_filename base i.
Proof.
  unfold page_path. apply basename_join.
  by apply page_filename_no_slash.
Qed.

Lemma page_path_not_zip i : page_path i ≠ zip_output_path.
Proof.
  intros H. pose proof (page_path_under i) as Hu.
  rewrite H, zip_path_not_under in Hu. done.
Qed.

End RasterPaths.

(** ** PDF to PNG *)

Lemma write_all_lookup_other files : ∀ m p,
  p ∉ files.*1 → write_all files m !! p = m !! p.
Proof.
  induction files as [|e files IH]; intros m p Hp; [done|].
  cbn [write_all foldl]. fold (write_all files (<[e.1 := e.2]> m)).
  rewrite fmap_cons, not_elem_of_cons in Hp. destruct Hp as [Hne Hp].
  rewrite IH by done. by rewrite lookup_insert_ne.
Qed.

Lemma write_all_lookup files : ∀ m p f,
  NoDup (files.*1) → (p, f) ∈ files → write_all files m !! p = Some f.
Proof.
  induction files as [|e files IH]; intros m p f Hnd Hin.
  - by apply elem_of_nil in Hin.
  - cbn [write_all foldl]. fold (write_all files (<[e.1 := e.2]> m)).
    rewrite fmap_cons in Hnd. apply NoDup_cons in Hnd as [Hfresh Hnd].
    apply elem_of_cons in Hin as [<-|Hin].
    + rewrite write_all_lookup_other by done. apply lookup_insert_eq.
    + by apply IH.
Qed.

(** Removing a directory forgets every file written below it. *)
Lemma filter_write_all dir files : ∀ m,
  Forall (λ e, under dir e.1 = true) files →
  filter (λ kv : string * File, under dir kv.1 = false) (write_all files m)
    = filter (λ kv : string * File, under dir kv.1 = false) m.
Proof.
  induction files as [|e files IH]; intros m Hall; [done|].
  apply Forall_cons in Hall as [He Hall].
  cbn [write_all foldl]. fold (write_all files (<[e.1 := e.2]> m)).
  rewrite IH by done.
  apply map_eq. intros k. rewrite !map_lookup_filter.
  destruct (decide (k = e.1)) as [->|Hne].
  - rewrite lookup_insert_eq.
    assert (¬ (under dir (e.1, e.2).1 = false)) as Hn1 by (cbn [fst]; congruence).
    cbn [mbind option_bind]. rewrite (option_guard_False _ Hn1).
    destruct (m !! e.1) as [x|]; [|done].
    assert (¬ (under dir (e.1, x).1 = false)) as Hn2 by (cbn [fst]; congruence).
    cbn [mbind option_bind]. by rewrite (option_guard_False _ Hn2).
  - by rewrite lookup_insert_ne.
Qed.

Section RasterExport.

Variables (env : Env) (output_dir base : string).
Hypothesis base_no_slash : Py.contains "/" base = false.

Let png_dir := OsPath.join output_dir (base +:+ "_pages").
Let zip_output_path := OsPath.join output_dir (base +:+ "_pages.zip").

Lemma page_files_keys k rest :
  (page_files env output_dir base k rest).*1
    = map (λ i, OsPath.join png_dir (PDFToPNG_page_filename base i)) (seq k (length rest)).
Proof.
  revert k. induction rest as [|pg rest IH]; intros k; [done|].
  cbn. f_equal. apply IH.
Qed.

Lemma page_files_NoDup k rest : NoDup ((page_files env output_dir base k rest).*1).
Proof.
  rewrite page_files_keys. apply NoDup_fmap_2_strong; [|apply NoDup_seq].
  intros i j _ _. by apply page_path_inj.
Qed.

Lemma page_files_under k rest :
  Forall (λ e, under png_dir e.1 = true) (page_files env output_dir base k rest).
Proof.
  unfold page_files. apply Forall_fmap, Forall_forall. intros [i pg] _. cbn.
  by apply page_path_under.
Qed.

Lemma save_pages_run : ∀ rest done acc s,
  ∃ tr,
    fold_each (seq (length done) (length rest)) acc
      (PDFToPNG_save_page env (done ++ rest) base png_dir) s
    = (inr (acc ++ (page_files env output_dir base (length done) rest).*1),
       mkState (write_all (page_files env output_dir base (length done) rest) (fs s)) tr).
Proof.
  induction rest as [|pg rest IH]; intros done acc s.
  - exists (trace s). cbn. rewrite app_nil_r. by destruct s.
  - cbn [length seq fold_each]. unfold bind at 1.
    unfold PDFToPNG_save_page at 1. rewrite list_lookup_middle by done.
    msimpl.
    specialize (IH (done ++ [pg])). rewrite length_app in IH. cbn [length] in IH.
    rewrite Nat.add_1_r in IH. rewrite <- app_assoc in IH. cbn [app] in IH.
    edestruct IH as [tr ->]. exists tr. cbn [fs trace].
    cbn [page_files enumerate_from map fmap list_fmap fst snd write_all foldl].
    by rewrite <- app_assoc.
Qed.

Lemma zip_write_run : ∀ files acc m tr,
  (∀ p f, (p, f) ∈ files → m !! p = Some f ∧ p ≠ zip_output_path) →
  fold_each (files.*1) acc (PDFToPNG_zip_write zip_output_path)
    (mkState (<[zip_output_path := FZip acc]> m) tr)
  = (inr (acc ++ map (λ e, (OsPath.basename e.1, e.2)) files),
     mkState (<[zip_output_path := FZip (acc ++ map (λ e, (OsPath.basename e.1, e.2)) files)]> m)
             tr).
Proof.
  induction files as [|[p f] files IH]; intros acc m tr Hfiles.
  - cbn. by rewrite app_nil_r.
  - cbn [fmap list_fmap fst fold_each]. unfold bind at 1.
    unfold PDFToPNG_zip_write at 1. msimpl.
    destruct (Hfiles p f) as [Hp Hne]; [left|].
    rewrite lookup_insert_ne by done. rewrite Hp. cbn [fs trace].
    rewrite insert_insert_eq.
    rewrite IH by (intros p' f' Hin; apply Hfiles; by right).
    cbn [map fst snd]. by rewrite <- !app_assoc.
Qed.

Lemma page_entries k rest :
  map (λ e : string * File, (OsPath.basename e.1, e.2)) (page_files env output_dir base k rest)
    = map (λ ip, (PDFToPNG_page_filename base ip.1, FImage PNG (get_pixmap env ip.2)))
          (enumerate_from k rest).
Proof.
  unfold page_files. rewrite map_map. apply map_ext. intros [i pg]. cbn.
  f_equal. by apply page_path_basename.
Qed.

End RasterExport.

Lemma length_enumerate_from {A} k (xs : list A) :
  length (enumerate_from k xs) = length xs.
Proof. revert k. induction xs as [|x xs IH]; intros k; [done|]. cbn. by rewrite IH. Qed.

(** C6. From a PDF of N pages the raster export returns the path of one
    ZIP archive holding N entries, the i-th one the rendering of page i
    under the name [<base>_page_<i, three digits>.png]; the names are
    pairwise distinct.  Afterwards nothing is left below the directory
    of the per-page files, and the archive is the only file that was
    not there before. *)
Theorem C6_pdf_to_png (env : Env) (input_path output_dir : string) (s : State)
    (pages : list Page) :
  fs s !! input_path = Some (FPdf pages) →
  let base := base_name_of input_path in
  let png_dir := OsPath.join output_dir (base +:+ "_pages") in
  let zip_output_path := OsPath.join output_dir (base +:+ "_pages.zip") in
  let entries :=
    map (λ ip, (PDFToPNG_page_filename base ip.1, FImage PNG (get_pixmap env ip.2)))
        (enumerate pages) in
  let remaining :=
    <[zip_output_path := FZip entries]>
      (filter (λ kv : string * File, under png_dir kv.1 = false) (fs s)) in
  (∃ tr, PDFToPNG_convert env input_path output_dir s
           = (inr zip_output_path, mkState remaining tr))
  ∧ length entries = length pages
  ∧ NoDup (entries.*1)
  ∧ (∀ p, under png_dir p = true → remaining !! p = None)
  ∧ (∀ p, p ≠ zip_output_path → is_Some (remaining !! p) → remaining !! p = fs s !! p).
Proof.
  intros Hfile base png_dir zip_output_path entries remaining.
  pose proof (base_name_no_slash input_path) as Hbase. fold base in Hbase.
  assert (under png_dir zip_output_path = false) as Hzip
    by (by apply zip_path_not_under).
  split; [|split; [|split; [|split]]].
  - unfold PDFToPNG_convert. msimpl. rewrite fitz_open_run.
    unfold opens_as_pdf. rewrite Hfile. cbv beta iota.
    fold base. fold png_dir. fold zip_output_path.
    destruct (save_pages_run env output_dir base pages [] [] s) as [tr Hsave].
    cbn [length app] in Hsave. fold png_dir in Hsave. rewrite Hsave.
    cbn [fs trace].
    rewrite (zip_write_run output_dir base).
    + cbn [fs trace app].
      rewrite map_filter_insert_True by done.
      rewrite filter_write_all by apply page_files_under, Hbase.
      rewrite page_entries by done. eauto.
    + intros p f Hin. split.
      * apply write_all_lookup; [by apply page_files_NoDup | done].
      * pose proof (page_files_under env output_dir base Hbase 0 pages) as Hall.
        rewrite Forall_forall in Hall. specialize (Hall _ Hin). cbn [fst] in Hall.
        fold png_dir in Hall. fold zip_output_path. intros ->. congruence.
  - subst entries. rewrite length_map. apply length_enumerate_from.
  - subst entries. unfold enumerate.
    assert (∀ k (rest : list Page),
              (map (λ ip : nat * Page,
                      (PDFToPNG_page_filename base ip.1, FImage PNG (get_pixmap env ip.2)))
                   (enumerate_from k rest)).*1
              = map (PDFToPNG_page_filename base) (seq k (length rest))) as ->.
    { intros k rest. revert k. induction rest as [|pg rest IH]; intros k; [done|].
      cbn. f_equal. apply IH. }
    apply NoDup_fmap_2_strong; [|apply NoDup_seq].
    intros i j _ _. apply page_filename_inj.
  - intros p Hp. subst remaining.
    rewrite lookup_insert_ne by (intros <-; congruence).
    apply map_lookup_filter_None. right. intros x _. cbn [fst]. congruence.
  - intros p Hne [x Hx]. subst remaining.
    rewrite lookup_insert_ne in Hx |- * by done.
    rewrite Hx. apply map_lookup_filter_Some in Hx as [Hx _]. done.
Qed.

Lemma C6_pdf_to_png_witness :
  let m : FS := {[ "up/doc.pdf" := FPdf [TextPage "one"; TextPage "two"];
                   "out/doc_pages/stale.png" := FOther "left over" ]} in
  ∃ tr,
    PDFToPNG_convert demo_env "up/doc.pdf" "out" (mkState m [])
    = (inr "out/doc_pages.zip",
       mkState
         {[ "up/doc.pdf" := FPdf [TextPage "one"; TextPage "two"];
            "out/doc_pages.zip" :=
              FZip [("doc_page_001.png", FImage PNG (mkImage RGB 1 1 [PIL.white]));
                    ("doc_page_002.png", FImage PNG (mkImage RGB 1 1 [PIL.white]))] ]}
         tr).
Proof.
  intros m.
  destruct (C6_pdf_to_png demo_env "up/doc.pdf" "out" (mkState m [])
              [TextPage "one"; TextPage "two"] eq_refl) as [[tr Hrun] _].
  exists tr. rewrite Hrun. vm_compute. reflexivity.
Defined.

(** * The handlers and the converters at large *)

(** ** Relations every step keeps *)

Section Preserves.

Context (R : State → State → Prop) `{!PreOrder R}.

Lemma preserves_ret {A} (a : A) : preserves R (ret a).
Proof. by intros s r s' [= <- <-]. Qed.

Lemma preserves_raise {A} e : preserves R (@raise A e).
Proof. by intros s r s' [= <- <-]. Qed.

Lemma preserves_get_fs : preserves R get_fs.
Proof. by intros s r s' [= <- <-]. Qed.

Lemma preserves_bind {A B} (m : M A) (k : A → M B) :
  preserves R m → (∀ a, preserves R (k a)) → preserves R (bind m k).
Proof.
  intros Hm Hk s r s'. unfold bind.
  destruct (m s) as [[e|a] s1] eqn:Hms.
  - intros [= <- <-]. eauto.
  - intros Hka. etrans; [exact (Hm _ _ _ Hms) | exact (Hk _ _ _ _ Hka)].
Qed.

Lemma preserves_try_except {A} (m : M A) h :
  preserves R m →
  (∀ e, match h e with Some k => preserves R k | None => True end) →
  preserves R (try_except m h).
Proof.
  intros Hm Hh s r s'. unfold try_except.
  destruct (m s) as [[e|a] s1] eqn:Hms.
  - specialize (Hh e). pose proof (Hm _ _ _ Hms) as H1.
    destruct (h e) as [k|].
    + intros Hk. etrans; [exact H1 | exact (Hh _ _ _ Hk)].
    + by intros [= <- <-].
  - intros [= <- <-]. eauto.
Qed.

Lemma preserves_try_finally {A} (m : M A) c :
  preserves R m → preserves R c → preserves R (try_finally m c).
Proof.
  intros Hm Hc s r s'. unfold try_finally.
  destruct (m s) as [r1 s1] eqn:Hms. destruct (c s1) as [[e|[]] s2] eqn:Hcs;
    intros [= <- <-]; (etrans; [exact (Hm _ _ _ Hms) | exact (Hc _ _ _ Hcs)]).
Qed.

Lemma preserves_fold_each {A B} (xs : list A) (body : B → A → M B) :
  (∀ acc x, preserves R (body acc x)) → ∀ acc, preserves R (fold_each xs acc body).
Proof.
  intros Hbody. induction xs as [|x xs IH]; intros acc; cbn [fold_each].
  - apply preserves_ret.
  - apply preserves_bind; [apply Hbody | intros a; apply IH].
Qed.

End Preserves.

Global Instance same_flashes_preorder : PreOrder same_flashes.
Proof.
  split; [done|]. intros s1 s2 s3 H1 H2. unfold same_flashes in *. congruence.
Qed.

Global Instance same_outside_preorder dir : PreOrder (same_outside dir).
Proof.
  split; [done|]. intros s1 s2 s3 H1 H2 p Hp. by rewrite H2, H1.
Qed.

(** One step of a syntax-directed proof that a computation keeps a
    relation; [prim] closes the goals about the primitive steps. *)
Ltac preserves_step prim :=
  lazymatch goal with
  | |- preserves _ (bind _ _) => apply preserves_bind; [tc_solve| |intros ?]
  | |- preserves _ (try_except _ _) =>
      apply preserves_try_except;
      [tc_solve| |intros ?; unfold reraise, except_Exception, except_if; cbv beta]
  | |- preserves _ (try_finally _ _) => apply preserves_try_finally; [tc_solve| |]
  | |- preserves _ (fold_each _ _ _) =>
      apply preserves_fold_each; [tc_solve|intros ? ?]
  | |- preserves _ (ret _) => apply preserves_ret; tc_solve
  | |- preserves _ (raise _) => apply preserves_raise; tc_solve
  | |- preserves _ get_fs => apply preserves_get_fs; tc_solve
  | |- preserves _ (let _ := _ in _) => cbv zeta
  | |- preserves _ (match ?x with _ => _ end) => first [prim | destruct x]
  | |- match (if ?b then _ else _) with _ => _ end => destruct b
  | |- match Some _ with _ => _ end => cbv beta iota
  | |- match None with _ => _ end => cbv beta iota
  | |- True => exact I
  | |- preserves _ ?m => first [prim | let h := head_of m in progress unfold h]
  end.

(** ** Converters flash nothing *)

Lemma quiet_emit ev :
  (∀ msg cat, ev ≠ EvFlash msg cat) → preserves same_flashes (emit ev).
Proof.
  intros Hev s r s' [= <- <-]. unfold same_flashes, flashes. cbn [trace].
  rewrite flat_map_app. cbn. destruct ev; rewrite ?app_nil_r; try done.
  by edestruct Hev.
Qed.

Lemma quiet_put_fs m : preserves same_flashes (put_fs m).
Proof. by intros s r s' [= <- <-]. Qed.

Ltac quiet_prim :=
  first [ apply quiet_put_fs
        | apply quiet_emit; discriminate ].
Ltac solve_quiet := repeat preserves_step ltac:(idtac; quiet_prim).

Lemma quiet_convert_body env c input_path output_dir :
  preserves same_flashes (convert_body env c input_path output_dir).
Proof. destruct c; cbn [convert_body]; solve_quiet. Qed.

(** ** Converters write below the output directory only *)

Lemma prefix_spec a b : String.prefix a b = true ↔ ∃ c, b = a +:+ c.
Proof.
  revert b. induction a as [|x a IH]; intros b.
  - rewrite prefix_nil. split; [by exists b | done].
  - destruct b as [|y b]; [split; [done | by intros [c Hc]]|].
    destruct (decide (x = y)) as [->|Hne].
    + rewrite prefix_cons, IH. split; intros [c Hc]; exists c.
      * by rewrite app_cons, Hc.
      * rewrite app_cons in Hc. by injection Hc.
    + rewrite prefix_cons_ne by done. split; [done|].
      intros [c Hc]. rewrite app_cons in Hc. by injection Hc.
Qed.

Lemma dir_prefix_spec d : ∃ z, dir_prefix d = d +:+ z.
Proof.
  unfold dir_prefix. destruct (Py.endswith d "/").
  - exists EmptyString. by rewrite app_nil_r_s.
  - by exists "/".
Qed.

(** A path below a directory below [d] is below [d]. *)
Lemma under_trans d q p : under d q = true → under q p = true → under d p = true.
Proof.
  unfold under, Py.startswith. rewrite !prefix_spec.
  intros [a ->] [b ->]. destruct (dir_prefix_spec (dir_prefix d +:+ a)) as [z ->].
  exists (a +:+ z +:+ b). by rewrite !app_assoc_s.
Qed.

Lemma under_join d name :
  d ≠ EmptyString → Py.startswith name "/" = false →
  under d (OsPath.join d name) = true.
Proof.
  intros Hd Hname. unfold under, OsPath.join, dir_prefix. rewrite Hname.
  unfold Py.startswith.
  destruct d as [|c d]; [done|]. cbn [Py.truthy negb orb].
  destruct (Py.endswith (String c d) "/").
  - apply prefix_app_same.
  - rewrite <- app_assoc_s. apply prefix_app_same.
Qed.

Lemma under_join_under d q name :
  under d q = true → Py.startswith name "/" = false →
  under d (OsPath.join q name) = true.
Proof.
  intros Hq Hname. unfold under, OsPath.join in *. rewrite Hname.
  unfold Py.startswith in *. apply prefix_spec in Hq as [a ->].
  apply prefix_spec.
  destruct (negb _ || _); eexists; rewrite !app_assoc_s; reflexivity.
Qed.

Lemma startswith_base_name input_path suffix :
  Py.contains "/" suffix = false →
  Py.startswith (base_name_of input_path +:+ suffix) "/" = false.
Proof.
  intros Hs. apply startswith_no_sep.
  by rewrite contains_app, base_name_no_slash, Hs.
Qed.

Lemma startswith_page_filename base i :
  Py.contains "/" base = false →
  Py.startswith (PDFToPNG_page_filename base i) "/" = false.
Proof. intros Hb. by apply startswith_no_sep, page_filename_no_slash. Qed.

Lemma confined_emit d ev : preserves (same_outside d) (emit ev).
Proof. by intros s r s' [= <- <-]. Qed.

Lemma confined_write_file d path f :
  under d path = true → preserves (same_outside d) (write_file path f).
Proof.
  intros Hpath s r s' [= <- <-] p Hp. cbn [fs].
  apply lookup_insert_ne. intros ->. congruence.
Qed.

Lemma confined_rmtree d d' :
  under d d' = true → preserves (same_outside d) (rmtree d').
Proof.
  intros Hd s r s' [= <- <-] p Hp. cbn [fs].
  destruct (fs s !! p) as [f|] eqn:Hf.
  - apply map_lookup_filter_Some. split; [done|]. cbn [fst].
    destruct (under d' p) eqn:Hu; [|done].
    by rewrite (under_trans _ _ _ Hd Hu) in Hp.
  - apply map_lookup_filter_None. by left.
Qed.

Lemma confined_subprocess_run env d cmd t :
  tool_confined env d → preserves (same_outside d) (subprocess_run env cmd t).
Proof.
  intros Htool s r s'. rewrite subprocess_run_run. intros [= <- <-] p Hp.
  unfold after_spawn. cbn [fs]. by apply Htool.
Qed.

Ltac under_side :=
  first [ assumption
        | apply under_join;
            [assumption | first [apply startswith_base_name | idtac]; reflexivity]
        | apply under_join_under;
            [apply under_join;
               [assumption | first [apply startswith_base_name | idtac]; reflexivity]
            | apply startswith_page_filename, base_name_no_slash ] ].

Ltac confined_prim :=
  first [ apply confined_emit
        | apply confined_write_file; under_side
        | apply confined_rmtree; under_side
        | apply confined_subprocess_run; assumption ].
Ltac solve_confined := repeat preserves_step ltac:(idtac; confined_prim).

Lemma confined_convert_body env c input_path output_dir :
  output_dir ≠ EmptyString → tool_confined env output_dir →
  preserves (same_outside output_dir) (convert_body env c input_path output_dir).
Proof. intros Hd Htool. destruct c; cbn [convert_body]; solve_confined. Qed.



(** ** The handlers *)

Lemma cleanup_run temp_dir s :
  cleanup temp_dir s
    = (inr tt, mkState (filter (λ kv, under temp_dir kv.1 = false) (fs s)) (trace s)).
Proof. reflexivity. Qed.

Lemma quiet_convert env c input_path output_dir :
  preserves same_flashes (convert env c input_path output_dir).
Proof.
  unfold convert.
  apply preserves_bind; [tc_solve | solve_quiet | intros; apply quiet_convert_body].
Qed.

Lemma answers_reject msg : answers (flash msg "error" ;; redirect_index).
Proof.
  intros s r s' [= <- <-]. split; [done|]. exists msg.
  unfold flashes. cbn [trace]. by rewrite flat_map_app.
Qed.

Lemma answers_bind {A} (m : M A) (k : A → M Response) :
  preserves same_flashes m → (∀ a, answers (k a)) → answers (bind m k).
Proof.
  intros Hm Hk s r s'. unfold bind.
  destruct (m s) as [[e|a] s1] eqn:Hms.
  - intros [= <- <-]. exact (Hm _ _ _ Hms).
  - intros Hka. pose proof (Hm _ _ _ Hms) as H1. pose proof (Hk _ _ _ _ Hka) as H2.
    unfold answered, same_flashes in *. rewrite <- H1. exact H2.
Qed.

Lemma answers_try_except (m : M Response) h :
  answers m →
  (∀ e, match h e with Some k => answers k | None => True end) →
  answers (try_except m h).
Proof.
  intros Hm Hh s r s'. unfold try_except.
  destruct (m s) as [[e|a] s1] eqn:Hms.
  - specialize (Hh e). pose proof (Hm _ _ _ Hms) as H1. cbn in H1.
    destruct (h e) as [k|].
    + intros Hk. pose proof (Hh _ _ _ Hk) as H2.
      unfold answered in *. rewrite <- H1. exact H2.
    + by intros [= <- <-].
  - intros [= <- <-]. exact (Hm _ _ _ Hms).
Qed.

Lemma answers_try_finally (m : M Response) temp_dir :
  answers m → answers (try_finally m (cleanup temp_dir)).
Proof.
  intros Hm s r s'. unfold try_finally.
  destruct (m s) as [r1 s1] eqn:Hms. rewrite cleanup_run.
  intros [= <- <-]. exact (Hm _ _ _ Hms).
Qed.

Lemma answers_send_file path download_name mimetype :
  answers (send_file path download_name mimetype).
Proof.
  intros s r s'. unfold send_file. msimpl.
  destruct (fs s !! path); by intros [= <- <-].
Qed.

Ltac answers_step :=
  lazymatch goal with
  | |- answers (bind (flash _ "error") (λ _, redirect_index)) => apply answers_reject
  | |- answers (send_file _ _ _) => apply answers_send_file
  | |- answers (bind _ _) => apply answers_bind; [solve_quiet|intros ?]
  | |- answers (try_except _ _) =>
      apply answers_try_except; [|intros ?; unfold except_Exception; cbv beta]
  | |- answers (try_finally _ (cleanup _)) => apply answers_try_finally
  | |- answers (let _ := _ in _) => cbv zeta
  | |- answers (if ?b then _ else _) => destruct b
  | |- answers (match ?x with _ => _ end) => destruct x
  | |- match ?e with RequestEntityTooLarge => _ | _ => _ end => destruct e
  | |- preserves same_flashes (convert _ _ _ _) => apply quiet_convert
  end.

Lemma answers_handle_pdf_merge env req : answers (handle_pdf_merge env req).
Proof. unfold handle_pdf_merge. repeat answers_step. Qed.

Lemma answers_handle_image_merge env req : answers (handle_image_merge env req).
Proof. unfold handle_image_merge. repeat answers_step. Qed.

Lemma answers_convert_file env req : answers (convert_file env req).
Proof.
  unfold convert_file. apply answers_try_except.
  - apply answers_bind; [solve_quiet|]. intros t.
    destruct (bool_decide _); [apply answers_handle_pdf_merge|].
    destruct (bool_decide _); [apply answers_handle_image_merge|].
    repeat answers_step.
  - intros e. destruct e; repeat answers_step.
Qed.

Lemma try_except_returns {A} (m : M A) h s :
  (∀ e s1, ∃ k a s2, h e = Some k ∧ k s1 = (inr a, s2)) →
  ∃ a s', try_except m h s = (inr a, s').
Proof.
  intros Hh. unfold try_except. destruct (m s) as [[e|a] s1]; [|eauto].
  destruct (Hh e s1) as (k & a & s2 & -> & ->). eauto.
Qed.

(** X1. No exception leaves [convert_file]: every request, of any
    type, is answered.  An answer that redirects goes to the index
    page and comes with exactly one flashed message, of category
    [error]; a delivered file comes with none.  The two error handlers
    of the application answer in the same way. *)
Theorem convert_file_always_answers (env : Env) (req : Request) (s : State) :
  (∃ resp s',
     convert_file env req s = (inr resp, s')
     ∧ match resp with
       | Redirect endpoint =>
           endpoint = "index"
           ∧ ∃ msg, flashes (trace s') = flashes (trace s) ++ [(msg, "error")]
       | SendFile _ _ _ _ => flashes (trace s') = flashes (trace s)
       end)
  ∧ (∀ e, too_large_handler e s
            = turned_away s "File too large. Maximum size is 50MB.")
  ∧ (∀ e, internal_error e s
            = turned_away s "An internal error occurred. Please try again.").
Proof.
  split; [|by split].
  assert (∃ resp s', convert_file env req s = (inr resp, s')) as (resp & s' & Hrun).
  { unfold convert_file. apply try_except_returns.
    intros e s1. destruct e; eexists _, _, _; split; reflexivity. }
  exists resp, s'. split; [done|].
  pose proof (answers_convert_file env req _ _ _ Hrun) as H.
  by destruct resp.
Qed.

(** ** Nothing is left on disk *)

Global Instance restored_preorder env : PreOrder (restored env).
Proof.
  split; [by intros s ? ?|].
  intros s1 s2 s3 H1 H2 Hfresh Htool. pose proof (H1 Hfresh Htool) as H12.
  unfold restored in H2. rewrite H12 in H2. exact (H2 Hfresh Htool).
Qed.

Lemma restored_emit env ev : preserves (restored env) (emit ev).
Proof. by intros s r s' [= <- <-] ? ?. Qed.

Lemma confined_FileStorage_save d file path :
  under d path = true → preserves (same_outside d) (FileStorage_save file path).
Proof. intros Hp. solve_confined. Qed.

Lemma confined_convert env c input_path output_dir :
  output_dir ≠ EmptyString → tool_confined env output_dir →
  preserves (same_outside output_dir) (convert env c input_path output_dir).
Proof.
  intros Hd Htool. unfold convert.
  apply preserves_bind; [tc_solve | solve_confined | intros; by apply confined_convert_body].
Qed.

Lemma confined_merge_pdfs env input_paths output_dir :
  output_dir ≠ EmptyString →
  preserves (same_outside output_dir) (merge_pdfs env input_paths output_dir).
Proof. intros Hd. solve_confined. Qed.

Lemma confined_merge_images env input_paths output_dir :
  output_dir ≠ EmptyString →
  preserves (same_outside output_dir) (merge_images env input_paths output_dir).
Proof. intros Hd. solve_confined. Qed.

Lemma confined_save_uploads env prefix temp_dir files :
  temp_dir ≠ EmptyString → plain_names env →
  preserves (same_outside temp_dir) (save_uploads env prefix temp_dir files).
Proof.
  intros Hd Hsec. unfold save_uploads.
  apply preserves_fold_each; [tc_solve|]. intros acc [i file].
  apply preserves_bind; [tc_solve| |intros; apply preserves_ret; tc_solve].
  apply confined_FileStorage_save, under_join;
    [done | apply startswith_no_sep, (proj1 (Hsec _))].
Qed.

(** A job: make the directory, work below it, remove it. *)
Lemma restored_job env {A} (body : string → M A) :
  (∀ d, d ≠ EmptyString → tool_confined env d → preserves (same_outside d) (body d)) →
  preserves (restored env)
    (let* temp_dir := new_temp_dir env in try_finally (body temp_dir) (cleanup temp_dir)).
Proof.
  intros Hbody s r s'. unfold new_temp_dir, try_finally. msimpl.
  destruct (body _ s) as [r1 s1] eqn:Hrun. intros [= <- <-] [Hd Hfresh] Htool.
  cbn [fs]. pose proof (Hbody _ Hd Htool _ _ _ Hrun) as Hout.
  apply map_eq. intros p. destruct (under (mkdtemp env (fs s)) p) eqn:Hp.
  - rewrite (Hfresh p Hp). apply map_lookup_filter_None. right.
    intros f _. cbn [fst]. by rewrite Hp.
  - rewrite <- (Hout p Hp). destruct (fs s1 !! p) as [f|] eqn:Hf.
    + apply map_lookup_filter_Some. by split.
    + apply map_lookup_filter_None. by left.
Qed.

Ltac restored_step :=
  lazymatch goal with
  | |- preserves (restored _) (bind (new_temp_dir _) _) =>
      apply (restored_job _ (λ temp_dir, _)); intros ? ? ?
  | |- preserves (restored _) (if ?b then _ else _) => destruct b
  | |- preserves (restored _) _ => preserves_step ltac:(idtac; apply restored_emit)
  | |- preserves (same_outside _) (save_uploads _ _ _ _) =>
      apply confined_save_uploads; assumption
  | |- preserves (same_outside _) (merge_pdfs _ _ _) =>
      apply confined_merge_pdfs; assumption
  | |- preserves (same_outside _) (merge_images _ _ _) =>
      apply confined_merge_images; assumption
  | |- preserves (same_outside _) (convert _ _ _ _) =>
      apply confined_convert; assumption
  | |- preserves (same_outside _) (FileStorage_save _ _) =>
      apply confined_FileStorage_save, under_join;
      [assumption
      | match goal with
        | H : plain_names _ |- _ => apply startswith_no_sep, (proj1 (H _))
        end]
  | |- preserves (same_outside _) (if ?b then _ else _) => destruct b
  | |- preserves (same_outside _) _ => preserves_step ltac:(idtac; confined_prim)
  | |- _ => preserves_step ltac:(idtac; fail)
  end.

Lemma restored_handle_pdf_merge env req :
  plain_names env → preserves (restored env) (handle_pdf_merge env req).
Proof. intros Hsec. unfold handle_pdf_merge. repeat restored_step. Qed.

Lemma restored_handle_image_merge env req :
  plain_names env → preserves (restored env) (handle_image_merge env req).
Proof. intros Hsec. unfold handle_image_merge. repeat restored_step. Qed.

Lemma restored_convert_file env req :
  plain_names env → preserves (restored env) (convert_file env req).
Proof.
  intros Hsec. unfold convert_file.
  apply preserves_try_except; [tc_solve| |intros []; repeat restored_step].
  apply preserves_bind; [tc_solve|repeat restored_step|]. intros t.
  destruct (bool_decide _); [by apply restored_handle_pdf_merge|].
  destruct (bool_decide _); [by apply restored_handle_image_merge|].
  repeat restored_step.
Qed.

Lemma tool_inside_confined env dir : tool_inside env dir → tool_confined env dir.
Proof.
  intros Htool cmd t m p Hp. apply Htool. unfold inside. by rewrite Hp.
Qed.

Lemma replace_no_slash s : Py.contains "/" (Py.replace "/" "_" s) = false.
Proof.
  induction s as [|c s IH]; [done|]. cbn [Py.replace].
  case_decide as Hc; [by rewrite app_cons, app_nil_l_s|].
  cbn [Py.contains]. by rewrite decide_False.
Qed.

Lemma lstrip_dots_no_slash s :
  Py.contains "/" s = false → Py.contains "/" (lstrip_dots s) = false.
Proof.
  induction s as [|c s IH]; [done|]. intros Hs. cbn [lstrip_dots].
  case_bool_decide; [|done]. apply IH.
  cbn [Py.contains] in Hs. by case_decide.
Qed.

Lemma lstrip_dots_no_dot s : Py.startswith (lstrip_dots s) "." = false.
Proof.
  induction s as [|c s IH]; [done|]. cbn [lstrip_dots].
  case_bool_decide as Hc; [done|].
  unfold Py.startswith. apply prefix_cons_ne. intros Heq. apply Hc. by left.
Qed.

Lemma tidy_env_plain_names : plain_names tidy_env.
Proof.
  intros name. split.
  - apply lstrip_dots_no_slash, replace_no_slash.
  - apply lstrip_dots_no_dot.
Qed.

(** X2. A request leaves no file behind.  When the job directory is
    new, the sanitised names are plain file names and the spawned tools
    write inside the job directory only, the files after
    [convert_file] are the files before it, whatever the request and
    however it ends. *)
Theorem convert_file_leaves_no_files (env : Env) (req : Request) (s : State)
    (r : exn + Response) (s' : State) :
  plain_names env →
  fresh_dir (mkdtemp env (fs s)) (fs s) →
  tool_inside env (mkdtemp env (fs s)) →
  convert_file env req s = (r, s') →
  fs s' = fs s.
Proof.
  intros Hsec Hfresh Htool Hrun.
  exact (restored_convert_file env req Hsec _ _ _ Hrun Hfresh
           (tool_inside_confined _ _ Htool)).
Qed.

Lemma convert_file_leaves_no_files_witness :
  secure_filename tidy_env "../../etc/passwd" = "etc_passwd"
  ∧ fs (convert_file tidy_env photo_request (mkState ∅ [])).2 = ∅.
Proof.
  split; [reflexivity|].
  apply (convert_file_leaves_no_files tidy_env photo_request (mkState ∅ [])
           (convert_file tidy_env photo_request (mkState ∅ [])).1).
  - apply tidy_env_plain_names.
  - split; [discriminate|]. intros p _. apply lookup_empty.
  - intros cmd t m p _. reflexivity.
  - apply surjective_pairing.
Defined.

(** ** A request that passes the checks *)

Lemma registered_truthy t c : converters !! t = Some c → Py.truthy t = true.
Proof. intros Hc. destruct t; [|done]. vm_compute in Hc. discriminate. Qed.

Lemma class_suffix_truthy c suffix : class_suffix c = Some suffix → Py.truthy suffix = true.
Proof. destruct c; intros [= <-]; reflexivity. Qed.

Lemma truthy_app_r a b : Py.truthy b = true → Py.truthy (a +:+ b) = true.
Proof. by destruct a, b. Qed.

Lemma truthy_join d name : Py.truthy name = true → Py.truthy (OsPath.join d name) = true.
Proof.
  intros Hn. unfold OsPath.join. destruct (Py.startswith name "/"); [done|].
  destruct (_ || _); [by apply truthy_app_r|]. by apply truthy_app_r, truthy_app_r.
Qed.

(** The name under which a converted file is offered for download. *)
Lemma download_name_of t c d input_path :
  (t, c) ∈ converters_items → t ≠ "merge_pdfs" → t ≠ "merge_images" →
  let out := OsPath.join d (base_name_of input_path +:+ expected_suffix t) in
  (if bool_decide (t = "pdf_to_png") && Py.endswith out ".zip"
   then base_name_of input_path +:+ "_all_pages.zip"
   else OsPath.basename out)
  = base_name_of input_path +:+ download_suffix t.
Proof.
  intros Hin Hpdf Himg out. unfold download_suffix.
  destruct (registry_suffixes t c Hin Hpdf Himg) as [_ Hslash].
  case_bool_decide as Ht; [rewrite decide_True by done|rewrite decide_False by done].
  - subst t out. cbn [andb].
    assert (Py.endswith (OsPath.join d (base_name_of input_path +:+ expected_suffix "pdf_to_png"))
              ".zip" = true) as ->; [|done].
    apply endswith_spec. exists (OsPath.join d (base_name_of input_path +:+ "_pages")).
    change (expected_suffix "pdf_to_png") with ("_pages" +:+ ".zip").
    rewrite <- app_assoc_s. apply join_app.
    + by rewrite contains_app, base_name_no_slash.
    + by destruct (base_name_of input_path).
  - cbn [andb]. apply basename_output; [apply base_name_no_slash | done].
Qed.

(** X3. Dispatch and converter composed.  For a single-file request
    that passes every check, the upload is saved in the job directory
    and the registered converter is run on it; the answer is the file
    the converter returned, offered as the base name of the saved
    upload plus the suffix of the type ([_all_pages.zip] for
    [pdf_to_png]) and with the MIME type of the class; a converter
    that raises, or returns a path where no file is, gives a redirect
    with the matching message.  The job directory is removed in every
    case. *)
Theorem convert_file_delivers (env : Env) (req : Request) (t : string) (c : Converter)
    (file : FileStorage) (s : State) (r : exn + string) (s2 : State) :
  valid_request req t c file →
  let input_path := saved_upload env file s in
  Py.endswith input_path "/" = false →
  convert env c input_path (job_dir env s) (upload_saved env file s) = (r, s2) →
  convert_file env req s =
    match r with
    | inl e =>
        (inr (Redirect "index"),
         job_done env s s2
           [EvLog ERROR ("Conversion error: " +:+ str_exn e);
            EvFlash ("Conversion failed: " +:+ str_exn e) "error"])
    | inr out =>
        match fs s2 !! out with
        | Some body =>
            (inr (SendFile out (base_name_of input_path +:+ download_suffix t)
                    (output_mimetype c) body),
             job_done env s s2 [])
        | None =>
            (inr (Redirect "index"),
             job_done env s s2 [EvFlash "Conversion failed. Please try again." "error"])
        end
    end.
Proof.
  intros (Hlarge & Ht & Hpdf & Himg & Hc & Hfile & Hname & Hallowed) input_path Hsave Hrun.
  subst input_path.
  unfold convert_file, request_read, flash, redirect_index.
  rewrite Hlarge. msimpl. rewrite Ht, Hfile.
  rewrite (bool_decide_eq_false_2 (Some t = Some "merge_pdfs")) by congruence.
  rewrite (bool_decide_eq_false_2 (Some t = Some "merge_images")) by congruence.
  rewrite (bool_decide_eq_false_2 _ Hname).
  rewrite (registered_truthy _ _ Hc), Hc, Hallowed. cbn [negb].
  unfold new_temp_dir, FileStorage_save, send_file, cleanup. msimpl.
  fold (job_dir env s). fold (saved_upload env file s).
  rewrite Hsave. fold (upload_saved env file s). rewrite Hrun.
  unfold job_done. destruct r as [e|out]; cbn [fs trace].
  - by rewrite <- app_assoc.
  - apply converters_lookup in Hc.
    destruct (registry_suffixes t c Hc Hpdf Himg) as [Hsuffix Hslash].
    pose proof Hrun as Hbody. apply convert_returns in Hbody as [s1 Hbody].
    pose proof (convert_body_returns env c _ (job_dir env s) _ Hsuffix _ _ _ Hbody)
      as ->.
    rewrite truthy_join
      by (apply truthy_app_r; by apply (class_suffix_truthy c)).
    destruct (fs s2 !! _) as [body|] eqn:Hout.
    + rewrite bool_decide_eq_true_2 by eauto. cbn [orb]. rewrite Hout.
      rewrite (download_name_of t c) by done. by rewrite app_nil_r.
    + rewrite bool_decide_eq_false_2 by (by intros [? ?]). reflexivity.
Qed.

Lemma convert_file_delivers_witness :
  (convert_file sample_env photo_request (mkState ∅ [])).1
    = inr (SendFile "/tmp/job/holiday.jpg" "holiday.jpg" "image/jpeg"
             (FImage JPEG (mkImage RGB 1 1 [PIL.white]))).
Proof.
  pose (job := convert sample_env PNGToJPGConverter
                 (saved_upload sample_env photo_upload (mkState ∅ []))
                 (job_dir sample_env (mkState ∅ []))
                 (upload_saved sample_env photo_upload (mkState ∅ []))).
  rewrite (convert_file_delivers sample_env photo_request "png_to_jpg" PNGToJPGConverter
             photo_upload (mkState ∅ []) job.1 job.2).
  - vm_compute. reflexivity.
  - repeat split; try reflexivity; discriminate.
  - reflexivity.
  - apply surjective_pairing.
Defined.

(** ** Merge requests *)

Lemma collect_pdf_files_named uploads : ∀ acc,
  Forall (λ f, Py.endswith (Py.lower (filename f)) ".pdf" = true) (named uploads) →
  collect_pdf_files uploads acc = inr (acc ++ named uploads).
Proof.
  unfold named. induction uploads as [|f rest IH]; intros acc Hall; cbn [collect_pdf_files].
  - by rewrite app_nil_r.
  - case_bool_decide as Hname.
    + rewrite filter_cons_False in Hall |- * by (by intros ?). by apply IH.
    + rewrite filter_cons_True in Hall |- * by done.
      apply Forall_cons in Hall as [Hf Hall]. rewrite Hf. cbn [negb].
      rewrite IH by done. by rewrite <- app_assoc.
Qed.

Lemma collect_image_files_named uploads : ∀ acc,
  Forall (λ f, (OsPath.splitext (Py.lower (filename f))).2 ∈ image_extensions)
         (named uploads) →
  collect_image_files uploads acc = inr (acc ++ named uploads).
Proof.
  unfold named. induction uploads as [|f rest IH]; intros acc Hall; cbn [collect_image_files].
  - by rewrite app_nil_r.
  - case_bool_decide as Hname.
    + rewrite filter_cons_False in Hall |- * by (by intros ?). by apply IH.
    + rewrite filter_cons_True in Hall |- * by done.
      apply Forall_cons in Hall as [Hf Hall].
      rewrite bool_decide_eq_false_2 by (by intros ?).
      rewrite IH by done. by rewrite <- app_assoc.
Qed.

(** Saving the uploads writes each under its own name, in order. *)
Lemma save_uploads_loop env prefix temp_dir files : ∀ k acc s,
  Forall (λ p, Py.endswith p "/" = false)
         (map (upload_path env prefix temp_dir) (enumerate_from k files)) →
  fold_each (enumerate_from k files) acc
    (λ input_paths item,
       let '(i, file) := item in
       let name := secure_filename env
                     (prefix +:+ Py.zfill 2 (i + 1) +:+ "_" +:+ filename file) in
       let input_path := OsPath.join temp_dir name in
       FileStorage_save file input_path ;;
       ret (input_paths ++ [input_path])) s
  = (inr (acc ++ map (upload_path env prefix temp_dir) (enumerate_from k files)),
     mkState (write_all (map (λ item, (upload_path env prefix temp_dir item, payload item.2))
                             (enumerate_from k files)) (fs s))
             (trace s)).
Proof.
  induction files as [|f rest IH]; intros k acc s Hall.
  - cbn. rewrite app_nil_r. by destruct s.
  - cbn [enumerate_from map fold_each] in *. apply Forall_cons in Hall as [Hf Hall].
    unfold bind at 1. unfold FileStorage_save.
    unfold upload_path in Hf at 1. cbn [fst snd] in Hf. rewrite Hf. msimpl.
    rewrite IH by done. cbn [fs trace write_all foldl].
    by rewrite <- app_assoc.
Qed.

Lemma save_uploads_run env prefix temp_dir files s :
  Forall (λ p, Py.endswith p "/" = false) (upload_paths env prefix temp_dir files) →
  save_uploads env prefix temp_dir files s
  = (inr (upload_paths env prefix temp_dir files),
     mkState (write_all (map (λ item, (upload_path env prefix temp_dir item, payload item.2))
                             (enumerate files)) (fs s))
             (trace s)).
Proof. intros Hall. unfold save_uploads, enumerate. by rewrite save_uploads_loop. Qed.

Lemma saved_lookup env prefix temp_dir files m item :
  NoDup (upload_paths env prefix temp_dir files) →
  item ∈ enumerate files →
  write_all (map (λ item, (upload_path env prefix temp_dir item, payload item.2))
                 (enumerate files)) m
    !! upload_path env prefix temp_dir item = Some (payload item.2).
Proof.
  intros Hnd Hin. apply write_all_lookup.
  - rewrite <- list_fmap_compose. exact Hnd.
  - apply list_elem_of_fmap. by exists item.
Qed.

Lemma flat_map_enumerate {A B} (h : A → list B) (xs : list A) : ∀ k,
  flat_map (λ item, h item.2) (enumerate_from k xs) = flat_map h xs.
Proof. induction xs as [|x xs IH]; intros k; [done|]. cbn. by rewrite IH. Qed.

Lemma merged_pages_saved (g : nat * FileStorage → string) m items :
  (∀ item, item ∈ items → m !! g item = Some (payload item.2)) →
  merged_pages m (map g items) = flat_map (λ item, pdf_pages (payload item.2)) items.
Proof.
  induction items as [|item items IH]; intros Hm; [done|].
  cbn [map flat_map merged_pages]. fold (merged_pages m (map g items)).
  rewrite IH by (intros ? ?; apply Hm; by right).
  unfold opens_as_pdf. rewrite (Hm item) by left.
  by destruct (payload item.2).
Qed.

Lemma merged_images_saved env (g : nat * FileStorage → string) m items :
  (∀ item, item ∈ items → m !! g item = Some (payload item.2)) →
  merged_images env m (map g items)
    = flat_map (λ item, album_image env (payload item.2)) items.
Proof.
  induction items as [|item items IH]; intros Hm; [done|].
  cbn [map flat_map merged_images]. fold (merged_images env m (map g items)).
  rewrite IH by (intros ? ?; apply Hm; by right).
  unfold opens_as_image. rewrite (Hm item) by left.
  by destruct (payload item.2).
Qed.

Lemma flashes_app a b : flashes (a ++ b) = flashes a ++ flashes b.
Proof. apply flat_map_app. Qed.

Lemma flashes_MergePDFs_logs env m items :
  flashes (map (MergePDFs_log env m) items) = [].
Proof.
  induction items as [|item items IH]; [done|]. cbn [map].
  change (?x :: ?l) with ([x] ++ l). rewrite flashes_app, IH.
  unfold MergePDFs_log. by destruct (opens_as_pdf m item.2).
Qed.

Lemma flashes_MergeImages_logs env m items :
  flashes (map (MergeImages_log env m) items) = [].
Proof.
  induction items as [|item items IH]; [done|]. cbn [map].
  change (?x :: ?l) with ([x] ++ l). rewrite flashes_app, IH.
  unfold MergeImages_log. by destruct (opens_as_image m item.2).
Qed.

(** X5. A PDF merge request end to end.  With at least two named
    uploads, all named [*.pdf] in any case, saved under pairwise
    distinct paths, the answer is the document made of the pages of
    the uploads that are PDFs, in upload order, offered as
    [merged_<number of named uploads>_pdfs.pdf]; when none of them
    holds a page the answer is a redirect with the no-valid-pages
    message. *)
Theorem merge_pdfs_request_delivers (env : Env) (req : Request) (s : State) :
  too_large req = false →
  form_conversion_type req = Some "merge_pdfs" →
  let pdf_files := named (files_files req) in
  let temp_dir := job_dir env s in
  let paths := upload_paths env "input_" temp_dir pdf_files in
  let pages := flat_map (λ f, pdf_pages (payload f)) pdf_files in
  (2 ≤ length pdf_files)%nat →
  Forall (λ f, Py.endswith (Py.lower (filename f)) ".pdf" = true) pdf_files →
  NoDup paths →
  Forall (λ p, Py.endswith p "/" = false) paths →
  ∃ s',
    convert_file env req s =
      (inr (if bool_decide (pages = []) then Redirect "index"
            else SendFile (OsPath.join temp_dir "merged_document.pdf")
                   ("merged_" +:+ Py.str_nat (length pdf_files) +:+ "_pdfs.pdf")
                   "application/pdf" (FPdf pages)),
       s')
    ∧ flashes (trace s') =
        flashes (trace s)
          ++ (if bool_decide (pages = [])
              then [("PDF merge failed: PDF merge failed: No valid PDF pages found to merge",
                     "error")]
              else []).
Proof.
  intros Hlarge Ht pdf_files temp_dir paths pages Hlen Hpdf Hnd Hsave.
  assert (2 ≤ length (files_files req))%nat as Hlen'.
  { etrans; [exact Hlen|]. apply length_filter. }
  unfold convert_file, request_read. rewrite Hlarge. msimpl. rewrite Ht.
  rewrite bool_decide_eq_true_2 by done.
  unfold handle_pdf_merge, request_read. rewrite Hlarge. msimpl.
  rewrite bool_decide_eq_false_2 by (intros H; rewrite H in Hlen'; cbn in Hlen'; lia).
  rewrite (proj2 (Nat.ltb_ge _ _) Hlen'). cbn [orb].
  rewrite (collect_pdf_files_named _ [] Hpdf). cbn [app]. fold pdf_files.
  rewrite (proj2 (Nat.ltb_ge _ _) Hlen).
  unfold new_temp_dir. msimpl. fold (job_dir env s). fold temp_dir.
  rewrite save_uploads_run by done. fold paths.
  set (m1 := write_all _ (fs s)).
  assert (merged_pages m1 paths = pages) as Hmerged.
  { unfold paths, upload_paths, m1.
    rewrite merged_pages_saved by (intros item Hin; by apply saved_lookup).
    unfold enumerate. apply (flat_map_enumerate (λ f, pdf_pages (payload f))). }
  unfold merge_pdfs. msimpl. rewrite MergePDFs_convert_run. cbn [fs trace].
  rewrite !Hmerged.
  destruct (bool_decide (pages = [])) eqn:Hpages.
  - unfold flash, redirect_index, cleanup. msimpl.
    eexists. split; [reflexivity|]. cbn [trace].
    rewrite !flashes_app, flashes_MergePDFs_logs. cbn. by rewrite !app_nil_r.
  - cbn [fs trace]. rewrite lookup_insert_eq.
    rewrite bool_decide_eq_true_2 by eauto. rewrite truthy_join by done. cbn [orb].
    unfold send_file. msimpl. rewrite lookup_insert_eq. unfold cleanup. msimpl.
    eexists. split; [reflexivity|]. cbn [trace].
    rewrite !flashes_app, flashes_MergePDFs_logs. cbn. by rewrite !app_nil_r.
Qed.

Lemma merge_pdfs_request_delivers_witness :
  ∃ s',
    convert_file sample_env merge_pdfs_request (mkState ∅ []) =
      (inr (SendFile "/tmp/job/merged_document.pdf" "merged_2_pdfs.pdf" "application/pdf"
              (FPdf [TextPage "a1"; TextPage "b1"; TextPage "b2"])), s')
    ∧ flashes (trace s') = [].
Proof.
  destruct (merge_pdfs_request_delivers sample_env merge_pdfs_request (mkState ∅ []))
    as (s' & Hrun & Hflash).
  - reflexivity.
  - reflexivity.
  - vm_compute. lia.
  - apply (bool_decide_unpack _). vm_compute. exact I.
  - apply (bool_decide_unpack _). vm_compute. exact I.
  - apply (bool_decide_unpack _). vm_compute. exact I.
  - exists s'. split; [exact Hrun | exact Hflash].
Defined.

(** X7. An image merge request end to end: as X5, with one page per
    upload that is an image, each prepared as the image merge
    prepares it, offered as [merged_<number of named uploads>_images.pdf]. *)
Theorem merge_images_request_delivers (env : Env) (req : Request) (s : State) :
  too_large req = false →
  form_conversion_type req = Some "merge_images" →
  let image_files := named (files_files req) in
  let temp_dir := job_dir env s in
  let paths := upload_paths env "image_" temp_dir image_files in
  let images := flat_map (λ f, album_image env (payload f)) image_files in
  (2 ≤ length image_files)%nat →
  Forall (λ f, (OsPath.splitext (Py.lower (filename f))).2 ∈ image_extensions)
         image_files →
  NoDup paths →
  Forall (λ p, Py.endswith p "/" = false) paths →
  ∃ s',
    convert_file env req s =
      (inr (if bool_decide (images = []) then Redirect "index"
            else SendFile (OsPath.join temp_dir "merged_images.pdf")
                   ("merged_" +:+ Py.str_nat (length image_files) +:+ "_images.pdf")
                   "application/pdf" (FPdf (ImagePage <$> images))),
       s')
    ∧ flashes (trace s') =
        flashes (trace s)
          ++ (if bool_decide (images = [])
              then [("Image merge failed: Image merge failed: No valid images found to merge",
                     "error")]
              else []).
Proof.
  intros Hlarge Ht image_files temp_dir paths images Hlen Himg Hnd Hsave.
  assert (2 ≤ length (files_files req))%nat as Hlen'.
  { etrans; [exact Hlen|]. apply length_filter. }
  unfold convert_file, request_read. rewrite Hlarge. msimpl. rewrite Ht.
  rewrite bool_decide_eq_false_2 by discriminate.
  rewrite bool_decide_eq_true_2 by done.
  unfold handle_image_merge, request_read. rewrite Hlarge. msimpl.
  rewrite bool_decide_eq_false_2 by (intros H; rewrite H in Hlen'; cbn in Hlen'; lia).
  rewrite (proj2 (Nat.ltb_ge _ _) Hlen'). cbn [orb].
  rewrite (collect_image_files_named _ [] Himg). cbn [app]. fold image_files.
  rewrite (proj2 (Nat.ltb_ge _ _) Hlen).
  unfold new_temp_dir. msimpl. fold (job_dir env s). fold temp_dir.
  rewrite save_uploads_run by done. fold paths.
  set (m1 := write_all _ (fs s)).
  assert (merged_images env m1 paths = images) as Hmerged.
  { unfold paths, upload_paths, m1.
    rewrite merged_images_saved by (intros item Hin; by apply saved_lookup).
    unfold enumerate. apply (flat_map_enumerate (λ f, album_image env (payload f))). }
  unfold merge_images. msimpl. rewrite MergeImages_convert_run. cbn [fs trace].
  rewrite !Hmerged.
  destruct (bool_decide (images = [])) eqn:Himages.
  - unfold flash, redirect_index, cleanup. msimpl.
    eexists. split; [reflexivity|]. cbn [trace].
    rewrite !flashes_app, flashes_MergeImages_logs. cbn. by rewrite !app_nil_r.
  - cbn [fs trace]. rewrite lookup_insert_eq.
    rewrite bool_decide_eq_true_2 by eauto. rewrite truthy_join by done. cbn [orb].
    unfold send_file. msimpl. rewrite lookup_insert_eq. unfold cleanup. msimpl.
    eexists. split; [reflexivity|]. cbn [trace].
    rewrite !flashes_app, flashes_MergeImages_logs. cbn. by rewrite !app_nil_r.
Qed.

Lemma merge_images_request_delivers_witness :
  ∃ s',
    convert_file sample_env merge_images_request (mkState ∅ []) =
      (inr (SendFile "/tmp/job/merged_images.pdf" "merged_2_images.pdf" "application/pdf"
              (FPdf [ImagePage small_image; ImagePage (mkImage RGB 13 2000 [])])), s')
    ∧ flashes (trace s') = [].
Proof.
  destruct (merge_images_request_delivers sample_env merge_images_request (mkState ∅ []))
    as (s' & Hrun & Hflash).
  - reflexivity.
  - reflexivity.
  - vm_compute. lia.
  - apply (bool_decide_unpack _). vm_compute. exact I.
  - apply (bool_decide_unpack _). vm_compute. exact I.
  - apply (bool_decide_unpack _). vm_compute. exact I.
  - exists s'. split; [exact Hrun | exact Hflash].
Defined.

(** ** Merge requests that are turned away *)

Lemma collect_pdf_files_bad pre bad post : ∀ acc,
  Forall pdf_or_unnamed pre →
  filename bad ≠ EmptyString →
  Py.endswith (Py.lower (filename bad)) ".pdf" = false →
  collect_pdf_files (pre ++ bad :: post) acc = inl (filename bad).
Proof.
  induction pre as [|f pre IH]; intros acc Hpre Hname Hbad; cbn [app collect_pdf_files].
  - rewrite bool_decide_eq_false_2 by done. by rewrite Hbad.
  - apply Forall_cons in Hpre as [Hf Hpre].
    case_bool_decide; [by apply IH|].
    destruct Hf as [?|Hf]; [done|]. rewrite Hf. cbn [negb]. by apply IH.
Qed.

Lemma collect_image_files_bad pre bad post : ∀ acc,
  Forall image_or_unnamed pre →
  filename bad ≠ EmptyString →
  (OsPath.splitext (Py.lower (filename bad))).2 ∉ image_extensions →
  collect_image_files (pre ++ bad :: post) acc = inl (filename bad).
Proof.
  induction pre as [|f pre IH]; intros acc Hpre Hname Hbad; cbn [app collect_image_files].
  - rewrite bool_decide_eq_false_2 by done. by rewrite bool_decide_eq_true_2.
  - apply Forall_cons in Hpre as [Hf Hpre].
    case_bool_decide; [by apply IH|].
    destruct Hf as [?|Hf]; [done|].
    rewrite bool_decide_eq_false_2 by (by intros ?). by apply IH.
Qed.

Lemma named_all_pdf uploads :
  Forall pdf_or_unnamed uploads →
  Forall (λ f, Py.endswith (Py.lower (filename f)) ".pdf" = true) (named uploads).
Proof.
  intros Hall. unfold named. apply Forall_forall. intros f [Hname Hin]%list_elem_of_filter.
  rewrite Forall_forall in Hall. by destruct (Hall f Hin).
Qed.

Lemma named_all_images uploads :
  Forall image_or_unnamed uploads →
  Forall (λ f, (OsPath.splitext (Py.lower (filename f))).2 ∈ image_extensions)
         (named uploads).
Proof.
  intros Hall. unfold named. apply Forall_forall. intros f [Hname Hin]%list_elem_of_filter.
  rewrite Forall_forall in Hall. by destruct (Hall f Hin).
Qed.

(** X6. A PDF merge request with two or more uploads is turned away
    with the name of the first named upload that does not end in
    [.pdf], and, when every name passes, for having fewer than two
    named uploads; unnamed uploads are skipped.  Nothing is saved or
    converted. *)
Theorem merge_pdfs_request_turned_away (env : Env) (req : Request) (s : State) :
  too_large req = false →
  form_conversion_type req = Some "merge_pdfs" →
  (2 ≤ length (files_files req))%nat →
  (∀ pre bad post,
     files_files req = pre ++ bad :: post →
     Forall pdf_or_unnamed pre →
     filename bad ≠ EmptyString →
     Py.endswith (Py.lower (filename bad)) ".pdf" = false →
     convert_file env req s =
       turned_away s ("All files must be PDF format. Invalid file: " +:+ filename bad))
  ∧ (Forall pdf_or_unnamed (files_files req) →
     (length (named (files_files req)) < 2)%nat →
     convert_file env req s =
       turned_away s "Please select at least 2 valid PDF files to merge").
Proof.
  intros Hlarge Ht Hlen.
  assert (convert_file env req s =
          match collect_pdf_files (files_files req) [] with
          | inl bad => turned_away s ("All files must be PDF format. Invalid file: " +:+ bad)
          | inr pdf_files =>
              if (length pdf_files <? 2)%nat
              then turned_away s "Please select at least 2 valid PDF files to merge"
              else convert_file env req s
          end) as Hrun.
  { unfold convert_file at 1, request_read. rewrite Hlarge. msimpl. rewrite Ht.
    rewrite bool_decide_eq_true_2 by done.
    unfold handle_pdf_merge, request_read. rewrite Hlarge. msimpl.
    rewrite bool_decide_eq_false_2 by (intros H; rewrite H in Hlen; cbn in Hlen; lia).
    rewrite (proj2 (Nat.ltb_ge _ _) Hlen). cbn [orb].
    destruct (collect_pdf_files _ _) as [bad|pdf_files] eqn:Hcollect; [reflexivity|].
    destruct (length pdf_files <? 2)%nat eqn:Hfew; [reflexivity|].
    unfold convert_file, request_read. rewrite Hlarge. msimpl. rewrite Ht.
    rewrite bool_decide_eq_true_2 by done.
    unfold handle_pdf_merge, request_read. rewrite Hlarge. msimpl.
    rewrite bool_decide_eq_false_2 by (intros H; rewrite H in Hlen; cbn in Hlen; lia).
    rewrite (proj2 (Nat.ltb_ge _ _) Hlen). cbn [orb].
    by rewrite Hcollect, Hfew. }
  split.
  - intros pre bad post Hfiles Hpre Hname Hbad. rewrite Hrun, Hfiles.
    by rewrite collect_pdf_files_bad.
  - intros Hall Hfew. rewrite Hrun.
    rewrite (collect_pdf_files_named _ [] (named_all_pdf _ Hall)). cbn [app].
    by rewrite (proj2 (Nat.ltb_lt _ _) Hfew).
Qed.

Lemma merge_pdfs_request_turned_away_witness :
  convert_file sample_env (mkRequest false (Some "merge_pdfs") None mixed_uploads)
    (mkState ∅ [])
  = turned_away (mkState ∅ []) "All files must be PDF format. Invalid file: notes.txt".
Proof.
  destruct (merge_pdfs_request_turned_away sample_env
              (mkRequest false (Some "merge_pdfs") None mixed_uploads) (mkState ∅ []))
    as [Hbad _].
  - reflexivity.
  - reflexivity.
  - vm_compute. lia.
  - apply (Hbad [mkUpload "a.pdf" (FPdf [TextPage "a1"])]
                (mkUpload "notes.txt" (FText "n"))
                [mkUpload "b.pdf" (FPdf [TextPage "b1"])]).
    + reflexivity.
    + constructor; [right; reflexivity | constructor].
    + discriminate.
    + reflexivity.
Defined.

(** X8. An image merge request with two or more uploads is turned away
    with the name of the first named upload whose extension
    ([os.path.splitext] of the lower-cased name) is not one of the
    five, and, when every name passes, for having fewer than two named
    uploads. *)
Theorem merge_images_request_turned_away (env : Env) (req : Request) (s : State) :
  too_large req = false →
  form_conversion_type req = Some "merge_images" →
  (2 ≤ length (files_files req))%nat →
  (∀ pre bad post,
     files_files req = pre ++ bad :: post →
     Forall image_or_unnamed pre →
     filename bad ≠ EmptyString →
     (OsPath.splitext (Py.lower (filename bad))).2 ∉ image_extensions →
     convert_file env req s =
       turned_away s ("Invalid file type: " +:+ filename bad
                        +:+ ". Only JPG, PNG, WEBP, BMP images are supported."))
  ∧ (Forall image_or_unnamed (files_files req) →
     (length (named (files_files req)) < 2)%nat →
     convert_file env req s =
       turned_away s "Please select at least 2 valid image files to merge").
Proof.
  intros Hlarge Ht Hlen.
  assert (convert_file env req s =
          match collect_image_files (files_files req) [] with
          | inl bad =>
              turned_away s ("Invalid file type: " +:+ bad
                               +:+ ". Only JPG, PNG, WEBP, BMP images are supported.")
          | inr image_files =>
              if (length image_files <? 2)%nat
              then turned_away s "Please select at least 2 valid image files to merge"
              else convert_file env req s
          end) as Hrun.
  { unfold convert_file at 1, request_read. rewrite Hlarge. msimpl. rewrite Ht.
    rewrite bool_decide_eq_false_2 by discriminate.
    rewrite bool_decide_eq_true_2 by done.
    unfold handle_image_merge, request_read. rewrite Hlarge. msimpl.
    rewrite bool_decide_eq_false_2 by (intros H; rewrite H in Hlen; cbn in Hlen; lia).
    rewrite (proj2 (Nat.ltb_ge _ _) Hlen). cbn [orb].
    destruct (collect_image_files _ _) as [bad|image_files] eqn:Hcollect; [reflexivity|].
    destruct (length image_files <? 2)%nat eqn:Hfew; [reflexivity|].
    unfold convert_file, request_read. rewrite Hlarge. msimpl. rewrite Ht.
    rewrite bool_decide_eq_false_2 by discriminate.
    rewrite bool_decide_eq_true_2 by done.
    unfold handle_image_merge, request_read. rewrite Hlarge. msimpl.
    rewrite bool_decide_eq_false_2 by (intros H; rewrite H in Hlen; cbn in Hlen; lia).
    rewrite (proj2 (Nat.ltb_ge _ _) Hlen). cbn [orb].
    by rewrite Hcollect, Hfew. }
  split.
  - intros pre bad post Hfiles Hpre Hname Hbad. rewrite Hrun, Hfiles.
    by rewrite collect_image_files_bad.
  - intros Hall Hfew. rewrite Hrun.
    rewrite (collect_image_files_named _ [] (named_all_images _ Hall)). cbn [app].
    by rewrite (proj2 (Nat.ltb_lt _ _) Hfew).
Qed.

Lemma merge_images_request_turned_away_witness :
  convert_file sample_env (mkRequest false (Some "merge_images") None mixed_uploads)
    (mkState ∅ [])
  = turned_away (mkState ∅ [])
      "Invalid file type: a.pdf. Only JPG, PNG, WEBP, BMP images are supported.".
Proof.
  destruct (merge_images_request_turned_away sample_env
              (mkRequest false (Some "merge_images") None mixed_uploads) (mkState ∅ []))
    as [Hbad _].
  - reflexivity.
  - reflexivity.
  - vm_compute. lia.
  - apply (Hbad [] (mkUpload "a.pdf" (FPdf [TextPage "a1"]))
                [mkUpload "notes.txt" (FText "n"); mkUpload "b.pdf" (FPdf [TextPage "b1"])]).
    + reflexivity.
    + constructor.
    + discriminate.
    + apply (bool_decide_unpack _). vm_compute. exact I.
Defined.

(** ** When a spawning converter reports success *)

(** X13. When a spawning converter other than [doc_to_pdf] reports
    success: exactly when the tool exits with code 0 and, for
    [mp4_to_mp3] and [pptx_to_pdf] only, the output file exists.  The
    other seven FFmpeg converters do not look for the output file.
    The files afterwards are those the tool left. *)
Theorem spawning_converter_succeeds (env : Env) (c : Converter)
    (input_path output_dir : string) (s : State) (tool : string) (t : nat)
    (suffix : string) :
  external_tool c = Some (tool, t) →
  c ≠ DOCToPDFConverter →
  class_suffix c = Some suffix →
  let cmd := command_line c input_path output_dir in
  let output_path := OsPath.join output_dir (base_name_of input_path +:+ suffix) in
  let outcome := (spawn env cmd t (fs s)).1 in
  let m' := (spawn env cmd t (fs s)).2 in
  let result := convert_body env c input_path output_dir s in
  fs result.2 = m'
  ∧ (result.1 = inr output_path ↔
       (∃ so se, outcome = Exited 0 so se)
       ∧ (c = MP4ToMP3Converter ∨ c = PPTXToPDFConverter → is_Some (m' !! output_path))).
Proof.
  intros Htool Hdoc Hsuffix cmd output_path outcome m' result.
  subst result outcome m' cmd output_path.
  destruct c; try discriminate Htool; try contradiction;
    injection Htool as <- <-; injection Hsuffix as <-;
    cbn [convert_body command_line];
    unfold MP4ToMP3_convert, PPTXToPDF_convert, MP3ToWAV_convert, WAVToMP3_convert,
      OGGToMP3_convert, MP4ToAVI_convert, AVIToMP4_convert, MKVToMP4_convert,
      MP4ToWEBM_convert, ffmpeg_run, libreoffice_cmd;
    msimpl; rewrite subprocess_run_run; unfold after_spawn;
    destruct (spawn env _ _ (fs s)) as [[rc so se| |] m1];
    cbn [fst snd fs trace returncode stderr is_TimeoutExpired].
  all: try (split; [reflexivity|]; split; [discriminate|]; by intros [(? & ? & [=]) _]).
  all: destruct (rc =? 0) eqn:Hrc; cbn [fs trace orb is_TimeoutExpired].
  all: try (apply Z.eqb_neq in Hrc; split; [reflexivity|]; split; [discriminate|];
            intros [(? & ? & [= ? ? ?]) _]; congruence).
  all: apply Z.eqb_eq in Hrc; subst rc.
  all: try (split; [reflexivity|]; split; [|reflexivity]; intros _;
            split; [eauto|]; intros [?|?]; discriminate).
  all: destruct (m1 !! _) as [f|] eqn:Hout;
    [rewrite bool_decide_eq_true_2 by eauto
    |rewrite bool_decide_eq_false_2 by (by intros [? ?])];
    cbn [fs trace is_TimeoutExpired];
    (split; [reflexivity|]).
  all: try (split; [intros _; split; eauto|reflexivity]).
  all: split; [discriminate|]; intros [_ Hex]; destruct Hex as [? ?]; [auto|discriminate].
Qed.

Lemma spawning_converter_succeeds_witness :
  (convert_body idle_env MP3ToWAVConverter "in/a.mp3" "out" (mkState ∅ [])).1
    = inr "out/a.wav"
  ∧ fs (convert_body idle_env MP3ToWAVConverter "in/a.mp3" "out" (mkState ∅ [])).2
      !! "out/a.wav" = None.
Proof.
  destruct (spawning_converter_succeeds idle_env MP3ToWAVConverter "in/a.mp3" "out"
              (mkState ∅ []) "ffmpeg" 300 ".wav") as [Hfs Hiff].
  - reflexivity.
  - discriminate.
  - reflexivity.
  - split.
    + apply (proj2 Hiff). split; [by eexists _, _|]. intros [H|H]; discriminate H.
    + rewrite Hfs. reflexivity.
Defined.

(** ** The JPEG converters *)

Lemma div255_exact x : 0 ≤ x ≤ 255 → PIL.div255 (x * 255) = x.
Proof.
  intros Hx.
  assert (Forall (λ v, PIL.div255 (v * 255) = v) (seqZ 0 256)) as Hall
    by (apply (bool_decide_unpack _); vm_compute; exact I).
  rewrite Forall_forall in Hall. apply Hall, elem_of_seqZ. lia.
Qed.

Lemma paste_pixel_flattened p : flattened p (PIL.paste_pixel PIL.white p (alpha p)).
Proof.
  split; [done|]. split.
  - intros -> (Hr & Hg & Hb). unfold PIL.paste_pixel, PIL.blend, PIL.opaque.
    cbn [red green blue PIL.white]. rewrite !Z.sub_diag, !Z.mul_0_r, !Z.add_0_l.
    by rewrite !div255_exact.
  - intros ->. unfold PIL.paste_pixel, PIL.blend.
    cbn [red green blue PIL.white]. by rewrite !Z.mul_0_r.
Qed.

Lemma flatten_on_white_mode img : mode (flatten_on_white img) = RGB.
Proof.
  unfold flatten_on_white. case_bool_decide; [done|].
  case_decide as Hm; first [done | by apply dec_stable in Hm].
Qed.

Lemma flatten_on_white_size img :
  width (flatten_on_white img) = width img ∧ height (flatten_on_white img) = height img.
Proof. unfold flatten_on_white. case_bool_decide; [done|]. by case_decide. Qed.

(** X15. [png_to_jpg] and [webp_to_jpg] accept an image of any mode:
    the JPEG they write is RGB and has the size of the source.  For a
    source with an alpha band or a palette every pixel is composited
    on white: the result is opaque, an opaque pixel keeps its colours,
    a fully transparent one becomes white. *)
Theorem jpeg_converters_flatten (env : Env) (c : Converter)
    (input_path output_dir : string) (s : State) (fmt : ImgFormat) (img : Image) :
  c = PNGToJPGConverter ∨ c = WEBPToJPGConverter →
  fs s !! input_path = Some (FImage fmt img) →
  let output_path := OsPath.join output_dir (base_name_of input_path +:+ ".jpg") in
  let out := flatten_on_white img in
  (∃ tr, convert_body env c input_path output_dir s =
           (inr output_path, mkState (<[output_path := FImage JPEG out]> (fs s)) tr))
  ∧ mode out = RGB
  ∧ width out = width img ∧ height out = height img
  ∧ (mode img ∈ [RGBA; LA; P] →
     length (pixels img) = Z.to_nat (width img * height img) →
     Forall2 flattened (pixels img) (pixels out)).
Proof.
  intros Hc Hin output_path out.
  pose proof (flatten_on_white_mode img) as Hmode. fold out in Hmode.
  split; [|split; [done|]].
  - destruct Hc as [-> | ->]; cbn [convert_body];
      unfold PNGToJPG_convert, WEBPToJPG_convert; msimpl;
      rewrite Image_open_run; unfold opens_as_image; rewrite Hin;
      fold out; fold output_path; unfold Image_save; rewrite Hmode;
      cbn [PIL.can_write]; msimpl; eauto.
  - destruct (flatten_on_white_size img) as [Hw Hh]. split; [done|]. split; [done|].
    intros Halpha Hlen. subst out. rewrite flatten_on_white_pixels by done.
    apply Forall2_fmap_r, Forall_Forall2_diag, Forall_forall.
    intros p _. apply paste_pixel_flattened.
Qed.

Lemma jpeg_converters_flatten_witness :
  Forall2 flattened (pixels transparent_pixel) (pixels (flatten_on_white transparent_pixel)).
Proof.
  destruct (jpeg_converters_flatten demo_env PNGToJPGConverter "in/logo.png" "out"
              (mkState {[ "in/logo.png" := FImage PNG transparent_pixel ]} [])
              PNG transparent_pixel) as (_ & _ & _ & _ & Hpixels).
  - by left.
  - reflexivity.
  - apply Hpixels; [|reflexivity]. apply (bool_decide_unpack _). vm_compute. exact I.
Defined.

(** ** The tables of a spreadsheet *)

Lemma foldl_max_le (l : list (list string)) : ∀ acc,
  (acc ≤ foldl (λ acc row, Nat.max acc (length row)) acc l)%nat
  ∧ Forall (λ row, (length row ≤ foldl (λ acc row, Nat.max acc (length row)) acc l)%nat) l.
Proof.
  induction l as [|row l IH]; intros acc; cbn [foldl]; [by split|].
  destruct (IH (Nat.max acc (length row))) as [Hacc Hall]. split; [lia|].
  constructor; [lia|done].
Qed.

(** X17. The table [xlsx_to_pdf] builds for a sheet is rectangular:
    one row per row of the sheet that has a cell, all of the same
    length, each the cells of its row (empty for [None]) followed by
    padding.  A sheet without such a row gets its heading and no
    table. *)
Theorem XLSX_sheet_story_tables (sheet_name : string) (ws : list (list (option string))) :
  ∃ n data,
    XLSX_sheet_story (sheet_name, ws) =
      [Paragraph ("Sheet: " +:+ sheet_name) "Heading1"; Spacer 1 12]
        ++ (if bool_decide (kept_rows ws = []) then [] else [Table data; Spacer 1 20])
    ∧ Forall2 (λ row cells,
                 length cells = n
                 ∧ ∃ pad, cells = row_strings row ++ repeat EmptyString pad)
              (kept_rows ws) data.
Proof.
  unfold XLSX_sheet_story. fold (kept_rows ws).
  set (data := map row_strings (kept_rows ws)).
  set (max_col := foldl _ 0%nat data).
  exists max_col, (map (λ row, row ++ repeat EmptyString (max_col - length row)) data).
  split.
  - subst data. destruct (kept_rows ws); [done|]. by rewrite bool_decide_eq_false_2.
  - destruct (foldl_max_le data 0) as [_ Hall]. fold max_col in Hall.
    subst data. rewrite <- list_fmap_compose.
    apply Forall2_fmap_r, Forall_Forall2_diag.
    rewrite Forall_fmap in Hall. eapply Forall_impl; [exact Hall|].
    intros row Hrow. cbn in *. split; [|eauto].
    rewrite length_app, repeat_length. lia.
Qed.

(** ** Sources without content *)

Lemma pages_text_blank env pages :
  Forall (λ p, Py.all_space (get_text env p) = true) pages → pages_text env pages = [].
Proof.
  unfold pages_text. induction 1 as [|p pages Hp _ IH]; [done|]. cbn [map List.filter].
  by rewrite (strip_all_space _ Hp), IH.
Qed.

Lemma PDFToHTML_blank env pages : ∀ k,
  Forall (λ p, Py.all_space (get_text env p) = true) pages →
  flat_map (λ ip, PDFToHTML_page env ip.1 ip.2) (enumerate_from k pages) = [].
Proof.
  intros k Hall. revert k. induction Hall as [|p pages Hp _ IH]; intros k; [done|].
  cbn [enumerate_from flat_map fst snd]. rewrite IH.
  unfold PDFToHTML_page. by rewrite (strip_all_space _ Hp).
Qed.

Lemma filter_names_nil (f : string → bool) (entries : list (string * File)) :
  Forall (λ e, f e.1 = false) entries → List.filter f (map fst entries) = [].
Proof.
  induction 1 as [|e entries He _ IH]; [done|]. cbn [map List.filter]. by rewrite He, IH.
Qed.

(** X16. Sources without content.  A PDF whose pages have no text but
    white space is refused by [pdf_to_txt], and by the fallback of
    [pdf_to_docx] when pdf2docx is missing, while [pdf_to_html] turns
    it into a page with an empty body; a CSV file without rows is
    refused by [csv_to_pdf]; an archive without a manifest and without
    an [.xhtml] or [.html] member is refused by [epub_to_pdf].  A
    refusal writes nothing. *)
Theorem sources_without_content (env : Env) (input_path output_dir : string) (s : State) :
  (∀ pages,
     fs s !! input_path = Some (FPdf pages) →
     Forall (λ p, Py.all_space (get_text env p) = true) pages →
     PDFToTXT_convert env input_path output_dir s =
       (inl (Exception "PDF text extraction failed: No text content found in PDF"),
        mkState (fs s)
          (trace s ++ [EvLog ERROR "PDF to TXT conversion failed: No text content found in PDF"]))
     ∧ (has_pdf2docx env = false →
        PDFToDOCX_convert env input_path output_dir s =
          (inl (Exception "PDF conversion failed: No text content found in PDF"),
           mkState (fs s)
             (trace s
                ++ [EvLog ERROR "PDF to DOCX conversion failed: No text content found in PDF"])))
     ∧ (let output_path := OsPath.join output_dir (base_name_of input_path +:+ ".html") in
        PDFToHTML_convert env input_path output_dir s =
          (inr output_path,
           mkState
             (<[output_path :=
                  FText ("<!DOCTYPE html><html><head><title>Converted PDF</title></head><body>"
                           +:+ Py.nl +:+ "</body></html>")]> (fs s))
             (trace s ++ [EvLog INFO ("Successfully converted PDF to HTML: "
                                        +:+ output_path)]))))
  ∧ (∀ text,
       fs s !! input_path = Some (FText text) →
       has_reportlab env = true →
       csv_reader env text = [] →
       CSVToPDF_convert env input_path output_dir s =
         (inl (Exception "CSV conversion failed: CSV file is empty"),
          mkState (fs s)
            (trace s ++ [EvLog ERROR "CSV to PDF conversion failed: CSV file is empty"])))
  ∧ (∀ entries,
       fs s !! input_path = Some (FZip entries) →
       Forall (λ e, Py.endswith e.1 ".opf" = false
                    ∧ Py.endswith e.1 ".xhtml" = false
                    ∧ Py.endswith e.1 ".html" = false) entries →
       EPUBToPDF_convert env input_path output_dir s =
         (inl (Exception "EPUB conversion failed: No readable content found in EPUB file"),
          mkState (fs s)
            (trace s ++ [EvLog ERROR
               "EPUB to PDF conversion failed: No readable content found in EPUB file"]))).
Proof.
  split; [|split].
  - intros pages Hin Hblank. pose proof (pages_text_blank env pages Hblank) as Htext.
    split; [|split].
    + unfold PDFToTXT_convert. msimpl. rewrite fitz_open_run. unfold opens_as_pdf.
      rewrite Hin, Htext. reflexivity.
    + intros Hlib. unfold PDFToDOCX_convert, import. rewrite Hlib. msimpl.
      cbn [is_ImportError]. msimpl. rewrite fitz_open_run. unfold opens_as_pdf.
      rewrite Hin, Htext. reflexivity.
    + intros output_path. unfold PDFToHTML_convert. msimpl. rewrite fitz_open_run.
      unfold opens_as_pdf. rewrite Hin. cbv beta iota. unfold enumerate.
      rewrite (PDFToHTML_blank env pages 0 Hblank). reflexivity.
  - intros text Hin Hlib Hrows. unfold CSVToPDF_convert, import, read_text.
    rewrite Hlib. msimpl. rewrite Hin, Hrows. reflexivity.
  - intros entries Hin Hnames. unfold EPUBToPDF_convert, ZipFile_open. msimpl.
    rewrite Hin. cbv beta iota.
    rewrite (filter_names_nil (λ f, Py.endswith f ".opf")), filter_names_nil.
    + reflexivity.
    + eapply Forall_impl; [exact Hnames|]. intros e (_ & -> & ->). done.
    + eapply Forall_impl; [exact Hnames|]. by intros e (-> & _).
Qed.

Lemma sources_without_content_witness :
  let m : FS := {[ "in/scan.pdf" := FPdf [ImagePage small_image] ]} in
  PDFToTXT_convert demo_env "in/scan.pdf" "out" (mkState m []) =
    (inl (Exception "PDF text extraction failed: No text content found in PDF"),
     mkState m [EvLog ERROR "PDF to TXT conversion failed: No text content found in PDF"]).
Proof.
  intros m.
  apply (proj1 (sources_without_content demo_env "in/scan.pdf" "out" (mkState m []))
           [ImagePage small_image]).
  - reflexivity.
  - repeat constructor.
Defined.

(** ** How a converter fails *)

Lemma reraise_fails {A} (m : M A) what failed s e s' :
  try_except m (reraise what failed) s = (inl e, s') →
  ∃ cause tr,
    e = Exception (failed +:+ ": " +:+ cause)
    ∧ trace s' = tr ++ [EvLog ERROR (what +:+ ": " +:+ cause)].
Proof.
  unfold try_except, reraise. destruct (m s) as [[e0|a] s1]; [|done]. msimpl.
  intros [= <- <-]. by exists (str_exn e0), (trace s1).
Qed.

(** X12. A converter fails with an [Exception] only, whose message is
    the label of its class, a colon and the cause ([mp4_to_mp3] has a
    message of its own for a timeout), and the failure is the last
    thing it logs, at level ERROR. *)
Theorem converter_failures_are_labelled (env : Env) (c : Converter)
    (input_path output_dir : string) (s : State) (e : exn) (s' : State) :
  convert_body env c input_path output_dir s = (inl e, s') →
  ∃ msg tr logged,
    e = Exception msg
    ∧ trace s' = tr ++ [EvLog ERROR logged]
    ∧ ((∃ cause, msg = failure_label c +:+ ": " +:+ cause)
       ∨ (c = MP4ToMP3Converter ∧ msg = "Conversion timed out. File may be too large.")).
Proof.
  intros Hrun.
  destruct (decide (c = MP4ToMP3Converter)) as [->|Hc].
  - revert Hrun. cbn [convert_body]. unfold MP4ToMP3_convert. cbv zeta.
    lazymatch goal with |- try_except ?m _ _ = _ → _ => generalize m end.
    intros body. unfold try_except. destruct (body s) as [[e0|a] s1]; [|done].
    destruct (is_TimeoutExpired e0); msimpl; intros [= <- <-].
    + eexists _, _, _. split; [reflexivity|]. split; [reflexivity|]. by right.
    + eexists _, _, _. split; [reflexivity|]. split; [reflexivity|]. left. by eexists.
  - destruct c; try done; cbn [convert_body] in Hrun;
      apply reraise_fails in Hrun as (cause & tr & -> & ->);
      (eexists _, _, _; split; [reflexivity|]; split; [reflexivity|]; left; by eexists).
Qed.

Lemma converter_failures_are_labelled_witness :
  ∃ msg tr logged,
    Exception "Image conversion failed: cannot open in/x.png" = Exception msg
    ∧ [EvLog ERROR "PNG to JPG conversion failed: cannot open in/x.png"]
      = tr ++ [EvLog ERROR logged]
    ∧ ((∃ cause, msg = failure_label PNGToJPGConverter +:+ ": " +:+ cause)
       ∨ (PNGToJPGConverter = MP4ToMP3Converter
          ∧ msg = "Conversion timed out. File may be too large.")).
Proof.
  apply (converter_failures_are_labelled demo_env PNGToJPGConverter "in/x.png" "out"
           (mkState ∅ [])
           (Exception "Image conversion failed: cannot open in/x.png")
           (mkState ∅ [EvLog ERROR "PNG to JPG conversion failed: cannot open in/x.png"])).
  vm_compute. reflexivity.
Defined.

(** ** Single-file requests that are turned away *)

(** X4. The messages of a single-file request that is turned away, in
    the order of the checks: a request over the size limit (merges
    included), no file part, an empty file name, a missing or
    unregistered type, an extension the type does not accept.  Nothing
    but the message is added to the state. *)
Theorem single_request_turned_away (env : Env) (req : Request) (s : State) :
  (too_large req = true →
     convert_file env req s = turned_away s "File too large. Maximum size is 50MB.")
  ∧ (too_large req = false →
     form_conversion_type req ≠ Some "merge_pdfs" →
     form_conversion_type req ≠ Some "merge_images" →
     (files_file req = None →
        convert_file env req s = turned_away s "No file selected")
     ∧ (∀ file, files_file req = Some file →
          (filename file = EmptyString →
             convert_file env req s = turned_away s "No file selected")
          ∧ (filename file ≠ EmptyString →
             (form_conversion_type req = None
              ∨ (∃ t, form_conversion_type req = Some t ∧ converters !! t = None) →
                convert_file env req s = turned_away s "Invalid conversion type selected")
             ∧ (∀ t c, form_conversion_type req = Some t → converters !! t = Some c →
                  allowed_file (filename file) t = false →
                  convert_file env req s =
                    turned_away s ("Invalid file type for "
                                     +:+ Py.title (Py.replace "_" " " t)
                                     +:+ " conversion"))))).
Proof.
  split.
  - intros Hlarge. unfold convert_file, request_read. rewrite Hlarge. reflexivity.
  - intros Hlarge Hpdf Himg.
    assert (convert_file env req s =
            match files_file req with
            | None => turned_away s "No file selected"
            | Some file =>
                if bool_decide (filename file = EmptyString)
                then turned_away s "No file selected"
                else match form_conversion_type req with
                     | None => turned_away s "Invalid conversion type selected"
                     | Some t =>
                         match (if Py.truthy t then converters !! t else None) with
                         | None => turned_away s "Invalid conversion type selected"
                         | Some c =>
                             if allowed_file (filename file) t
                             then convert_file env req s
                             else turned_away s ("Invalid file type for "
                                                   +:+ Py.title (Py.replace "_" " " t)
                                                   +:+ " conversion")
                         end
                     end
            end) as Hrun.
    { unfold convert_file at 1, request_read, flash, redirect_index.
      rewrite Hlarge. msimpl.
      rewrite (bool_decide_eq_false_2 _ Hpdf), (bool_decide_eq_false_2 _ Himg).
      destruct (files_file req) as [file|] eqn:Hfile; [|reflexivity].
      case_bool_decide as Hname; [reflexivity|].
      destruct (form_conversion_type req) as [t|] eqn:Ht; [|reflexivity].
      destruct (if Py.truthy t then converters !! t else None) as [c|] eqn:Hc;
        [|reflexivity].
      destruct (allowed_file (filename file) t) eqn:Hallowed; [|reflexivity].
      unfold convert_file, request_read, flash, redirect_index.
      rewrite Hlarge. msimpl. rewrite Ht, Hfile.
      rewrite (bool_decide_eq_false_2 _ Hpdf), (bool_decide_eq_false_2 _ Himg).
      rewrite (bool_decide_eq_false_2 _ Hname), Hc, Hallowed. reflexivity. }
    split.
    + intros Hfile. by rewrite Hrun, Hfile.
    + intros file Hfile. rewrite Hfile in Hrun. split.
      * intros Hname. by rewrite Hrun, bool_decide_eq_true_2.
      * intros Hname. rewrite bool_decide_eq_false_2 in Hrun by done. split.
        -- intros [Hnone | (t & Ht & Hc)]; rewrite Hrun.
           ++ by rewrite Hnone.
           ++ rewrite Ht, Hc. by destruct (Py.truthy t).
        -- intros t c Ht Hc Hallowed. rewrite Hrun, Ht.
           by rewrite (registered_truthy _ _ Hc), Hc, Hallowed.
Qed.

Lemma single_request_turned_away_witness :
  convert_file demo_env (mkRequest true (Some "merge_pdfs") None pdf_uploads) (mkState ∅ [])
  = turned_away (mkState ∅ []) "File too large. Maximum size is 50MB.".
Proof.
  apply (proj1 (single_request_turned_away demo_env
                  (mkRequest true (Some "merge_pdfs") None pdf_uploads) (mkState ∅ []))).
  reflexivity.
Defined.

(** ** A conversion that fails writes nothing *)

Ltac no_head_match x :=
  lazymatch x with
  | match _ with _ => _ end => fail
  | (match _ with _ => _ end) _ => fail
  | _ => idtac
  end.

(** Case analysis on every test of an unfolded run, innermost first. *)
Ltac run_step :=
  first
    [ rewrite lookup_insert_eq
    | match goal with
      | |- context [bool_decide ?P] => destruct (bool_decide_reflect P)
      | |- context [match ?x with _ => _ end] => no_head_match x; destruct x eqn:?
      end ];
  msimpl; cbn [fst snd is_ImportError is_OSError is_TimeoutExpired].

Ltac run_failed :=
  intros Hrun; first
    [ discriminate Hrun
    | injection Hrun as <- <-; cbn [fs]; first [reflexivity | exfalso; eauto] ].

(** X11. A converter that writes last leaves the files as it found
    them when it fails: every failure in its own code comes before its
    one write.  (Library writes are all-or-nothing in this model.) *)
Theorem failed_conversion_writes_nothing (env : Env) (c : Converter)
    (input_path output_dir : string) (s : State) (e : exn) (s' : State) :
  writes_last c = true →
  convert_body env c input_path output_dir s = (inl e, s') →
  fs s' = fs s.
Proof.
  intros Hlast.
  destruct c; try discriminate Hlast; cbn [convert_body].
  all: try (unfold JPGToPDF_convert, JPGToWEBP_convert, BMPToPNG_convert, JPGToPNG_convert,
      WEBPToJPG_convert, PNGToJPG_convert, TXTToPDF_convert,
      EPUBToPDF_convert, PDFToDOCX_convert, PDFToTXT_convert, PDFToHTML_convert,
      CompressPDF_convert, XLSXToPDF_convert, CSVToXLSX_convert, CSVToPDF_convert,
      fitz_open, fitz_save, Image_open, Image_save, Document_open, read_text,
      load_workbook, ZipFile_open, import, doc_build;
    msimpl; repeat run_step; run_failed).
  - rewrite MergePDFs_convert_run. case_bool_decide; [|discriminate]. by intros [= <- <-].
  - rewrite MergeImages_convert_run. case_bool_decide; [|discriminate]. by intros [= <- <-].
Qed.

Lemma failed_conversion_writes_nothing_witness :
  let m : FS := {[ "in/scan.pdf" := FPdf [ImagePage small_image] ]} in
  (PDFToTXT_convert demo_env "in/scan.pdf" "out" (mkState m [])).1
    = inl (Exception "PDF text extraction failed: No text content found in PDF")
  ∧ fs (PDFToTXT_convert demo_env "in/scan.pdf" "out" (mkState m [])).2 = m.
Proof.
  intros m. split; [vm_compute; reflexivity|].
  apply (failed_conversion_writes_nothing demo_env PDFToTXTConverter "in/scan.pdf" "out"
           (mkState m [])
           (Exception "PDF text extraction failed: No text content found in PDF")).
  - reflexivity.
  - vm_compute. reflexivity.
Defined.

(** ** The strategies of [doc_to_pdf] *)

Lemma DOCToPDF_libreoffice_not_delivered env input_path output_dir output_path s :
  let cmd := libreoffice_cmd input_path output_dir in
  libreoffice_delivered (spawn env cmd 60 (fs s)).1 (spawn env cmd 60 (fs s)).2 output_path
    = false →
  ∃ e, DOCToPDF_libreoffice env input_path output_dir output_path s
         = (inl e, after_spawn env cmd 60 s).
Proof.
  intros cmd Hno. unfold DOCToPDF_libreoffice. fold cmd. msimpl.
  rewrite subprocess_run_run. unfold libreoffice_delivered, after_spawn in *.
  destruct (spawn env cmd 60 (fs s)) as [[rc so se| |] m']; cbn [fst snd fs trace] in *;
    [|by eexists..].
  cbn [returncode]. rewrite Hno. by eexists.
Qed.

(** X14. The strategies of [doc_to_pdf].  When LibreOffice exits with
    code 0 and the output is there, that is the result.  In every other
    case (non-zero exit, timeout, no LibreOffice, no output) the input
    is read with python-docx and laid out with reportlab: an input
    that python-docx cannot open, a blank document and a missing
    reportlab each fail with their message and write nothing more;
    otherwise the conversion succeeds with the pages reportlab built. *)
Theorem DOCToPDF_strategies (env : Env) (input_path output_dir : string) (s : State) :
  let output_path := OsPath.join output_dir (base_name_of input_path +:+ ".pdf") in
  let cmd := libreoffice_cmd input_path output_dir in
  let outcome := (spawn env cmd 60 (fs s)).1 in
  let m' := (spawn env cmd 60 (fs s)).2 in
  let r := (DOCToPDF_convert env input_path output_dir s).1 in
  let m'' := fs (DOCToPDF_convert env input_path output_dir s).2 in
  (libreoffice_delivered outcome m' output_path = true →
     r = inr output_path ∧ m'' = m')
  ∧ (libreoffice_delivered outcome m' output_path = false →
     (opens_as_docx m' input_path = None →
        r = inl (Exception ("Document conversion failed: " +:+ open_error env input_path))
        ∧ m'' = m')
     ∧ (∀ paragraphs,
          opens_as_docx m' input_path = Some paragraphs →
          let content := Py.join Py.nl paragraphs in
          (Py.truthy (Py.strip content) = false →
             r = inl (Exception "Document conversion failed: Document appears to be empty")
             ∧ m'' = m')
          ∧ (Py.truthy (Py.strip content) = true →
             (has_reportlab env = false →
                r = inl (Exception
                  "Document conversion failed: Neither LibreOffice nor required Python libraries available for DOC conversion.")
                ∧ m'' = m')
             ∧ (has_reportlab env = true →
                ∀ pages, reportlab_build env (lines_story content) = inr pages →
                r = inr output_path ∧ m'' = <[output_path := FPdf pages]> m')))).
Proof.
  intros output_path cmd outcome m' r m''. split.
  - intros Hok. subst r m'' outcome m'.
    unfold DOCToPDF_convert, DOCToPDF_libreoffice, libreoffice_delivered in *.
    fold output_path. fold cmd. msimpl. rewrite subprocess_run_run. unfold after_spawn.
    destruct (spawn env cmd 60 (fs s)) as [outcome m']. cbn [fst snd fs trace] in *.
    destruct outcome as [rc so se| |]; try discriminate Hok.
    cbn [returncode]. rewrite Hok. done.
  - intros Hno.
    destruct (DOCToPDF_libreoffice_not_delivered env input_path output_dir output_path s Hno)
      as [e0 He0].
    assert (DOCToPDF_convert env input_path output_dir s =
            try_except
              (let* early := DOCToPDF_fallback env input_path output_path in
               match early with
               | Some path => ret path
               | None =>
                   let* created := path_exists output_path in
                   when (negb created) (raise (Exception "PDF file was not created")) ;;
                   log_info ("Successfully converted DOC to PDF: " +:+ output_path) ;;
                   ret output_path
               end)
              (reraise "DOC to PDF conversion failed" "Document conversion failed")
              (after_spawn env cmd 60 s)) as Hrun.
    { unfold DOCToPDF_convert. fold output_path. msimpl. rewrite He0. reflexivity. }
    subst r m''. rewrite Hrun. clear Hrun He0.
    unfold DOCToPDF_fallback, Document_open, import, doc_build, opens_as_docx, after_spawn.
    msimpl. fold m'.
    split.
    + intros Hopen. destruct (m' !! input_path) as [[]|]; try discriminate Hopen; done.
    + intros paragraphs Hopen.
      destruct (m' !! input_path) as [[]|]; try discriminate Hopen.
      injection Hopen as ->. msimpl. split.
      * intros ->. done.
      * intros ->. msimpl. split.
        -- intros ->. done.
        -- intros -> pages ->. msimpl. rewrite lookup_insert_eq.
           rewrite bool_decide_eq_true_2 by eauto. done.
Qed.

Lemma DOCToPDF_strategies_witness :
  let m : FS := {[ "in/letter.doc" := FDocx ["Dear reader,"; "all is well."] ]} in
  (spawn demo_env (libreoffice_cmd "in/letter.doc" "out") 60 m).1 = NoSuchTool
  ∧ (DOCToPDF_convert demo_env "in/letter.doc" "out" (mkState m [])).1
    = inr "out/letter.pdf".
Proof.
  intros m. split; [reflexivity|].
  destruct (DOCToPDF_strategies demo_env "in/letter.doc" "out" (mkState m []))
    as [_ Hfallback].
  destruct Hfallback as [_ Hdocx]; [reflexivity|].
  destruct (Hdocx ["Dear reader,"; "all is well."]) as [_ Htext]; [reflexivity|].
  destruct Htext as [_ Hbuild]; [reflexivity|].
  destruct (Hbuild eq_refl [TextPage "laid out"]) as [Hr _]; [reflexivity|].
  exact Hr.
Defined.

(** ** The case of a file name *)

Lemma lower_char_dot c : bool_decide (Py.lower_char c = "."%char) = bool_decide (c = "."%char).
Proof. destruct c as [[] [] [] [] [] [] [] []]; reflexivity. Qed.

Lemma lower_char_idem c : Py.lower_char (Py.lower_char c) = Py.lower_char c.
Proof. destruct c as [[] [] [] [] [] [] [] []]; reflexivity. Qed.

Lemma lower_idem s : Py.lower (Py.lower s) = Py.lower s.
Proof. induction s as [|c s IH]; [done|]. cbn. by rewrite lower_char_idem, IH. Qed.

Lemma rsplit1_lower name :
  Py.rsplit1 "." (Py.lower name)
    = (λ be, (Py.lower be.1, Py.lower be.2)) <$> Py.rsplit1 "." name.
Proof.
  induction name as [|c name IH]; [done|]. cbn [Py.lower Py.rsplit1]. rewrite IH.
  destruct (Py.rsplit1 "." name) as [[b e]|]; [done|]. cbn.
  pose proof (lower_char_dot c) as Hc.
  destruct (decide (Py.lower_char c = "."%char)) as [H1|H1], (decide (c = "."%char)) as [H2|H2];
    try done.
  - rewrite bool_decide_eq_true_2, bool_decide_eq_false_2 in Hc by done. done.
  - rewrite bool_decide_eq_false_2, bool_decide_eq_true_2 in Hc by done. done.
Qed.

Lemma contains_lower name : Py.contains "." (Py.lower name) = Py.contains "." name.
Proof.
  pose proof (rsplit1_lower name) as H.
  destruct (Py.contains "." name) eqn:Hc.
  - apply not_false_iff_true. intros Hl%rsplit1_None. rewrite Hl in H.
    destruct (Py.rsplit1 "." name) eqn:Hr; [done|]. apply rsplit1_None in Hr. congruence.
  - apply rsplit1_None in Hc. rewrite Hc in H. by apply rsplit1_None.
Qed.

(** X9. [allowed_file] does not depend on the case of the file name:
    the name in lower case gets the same verdict. *)
Theorem allowed_file_ignores_case (name t : string) :
  allowed_file (Py.lower name) t = allowed_file name t.
Proof.
  unfold allowed_file. rewrite contains_lower, rsplit1_lower.
  destruct (Py.contains "." name); cbn [negb]; [|done].
  destruct (Py.rsplit1 "." name) as [[b e]|]; [|done]. cbn.
  by rewrite lower_idem.
Qed.

(** ** The strategies of [docx_to_pdf] and [html_to_pdf] *)

(** X18. The strategies of [docx_to_pdf] on a document with text.
    With reportlab the result is what reportlab builds and pdfkit is
    not consulted; without it the HTML rendering goes to pdfkit, and
    an [OSError] that mentions wkhtmltopdf is reported as neither
    library being available. *)
Theorem DOCXToPDF_strategies (env : Env) (input_path output_dir : string) (s : State)
    (paragraphs : list string) :
  fs s !! input_path = Some (FDocx paragraphs) →
  let content := Py.join Py.nl paragraphs in
  Py.truthy (Py.strip content) = true →
  let output_path := OsPath.join output_dir (base_name_of input_path +:+ ".pdf") in
  let html :=
    DOCX_html_content ("<p>" +:+ Py.replace (Py.chr 10) "</p><p>" content +:+ "</p>") in
  let r := (DOCXToPDF_convert env input_path output_dir s).1 in
  let m' := fs (DOCXToPDF_convert env input_path output_dir s).2 in
  (has_reportlab env = true →
     (∀ pages, reportlab_build env (lines_story content) = inr pages →
        r = inr output_path ∧ m' = <[output_path := FPdf pages]> (fs s))
     ∧ (∀ e, reportlab_build env (lines_story content) = inl e →
          is_ImportError e = false →
          r = inl (Exception ("Document conversion failed: " +:+ str_exn e))
          ∧ m' = fs s))
  ∧ (has_reportlab env = false →
     (∀ pages, pdfkit_from_string env html = inr pages →
        r = inr output_path ∧ m' = <[output_path := FPdf pages]> (fs s))
     ∧ (∀ e, pdfkit_from_string env html = inl e →
          r = inl (Exception
                     ("Document conversion failed: "
                        +:+ (if is_OSError e && Py.substring_of "wkhtmltopdf" (str_exn e)
                             then "Neither reportlab nor wkhtmltopdf available for PDF conversion. Please install one of them."
                             else str_exn e)))
          ∧ m' = fs s)).
Proof.
  intros Hin content Htext output_path html r m'. subst r m'.
  unfold DOCXToPDF_convert, Document_open, import, doc_build. msimpl.
  rewrite Hin. msimpl. fold content. rewrite Htext. msimpl.
  fold output_path. fold html. split.
  - intros ->. msimpl. split.
    + intros pages ->. msimpl. rewrite lookup_insert_eq.
      by rewrite bool_decide_eq_true_2 by eauto.
    + intros e -> He. msimpl. by rewrite He.
  - intros ->. msimpl. cbn [is_ImportError]. msimpl. split.
    + intros pages ->. msimpl. rewrite lookup_insert_eq.
      by rewrite bool_decide_eq_true_2 by eauto.
    + intros e ->. msimpl. destruct (is_OSError e); cbn [andb]; [|done].
      by destruct (Py.substring_of "wkhtmltopdf" (str_exn e)).
Qed.

Lemma DOCXToPDF_strategies_witness :
  let m : FS := {[ "in/letter.docx" := FDocx ["Dear reader,"; "all is well."] ]} in
  (DOCXToPDF_convert demo_env "in/letter.docx" "out" (mkState m [])).1
    = inr "out/letter.pdf".
Proof.
  intros m.
  destruct (DOCXToPDF_strategies demo_env "in/letter.docx" "out" (mkState m [])
              ["Dear reader,"; "all is well."]) as [Hlab _].
  - reflexivity.
  - reflexivity.
  - destruct Hlab as [Hok _]; [reflexivity|].
    destruct (Hok [TextPage "laid out"]) as [Hr _]; [reflexivity|]. exact Hr.
Defined.

(** X19. The strategies of [html_to_pdf].  What pdfkit produces is the
    result; when pdfkit fails, for whatever reason, the file is read
    as text, its tags removed, and laid out with reportlab; a missing
    file and a missing reportlab fail with their message and write
    nothing. *)
Theorem HTMLToPDF_strategies (env : Env) (input_path output_dir : string) (s : State) :
  let output_path := OsPath.join output_dir (base_name_of input_path +:+ ".pdf") in
  let r := (HTMLToPDF_convert env input_path output_dir s).1 in
  let m' := fs (HTMLToPDF_convert env input_path output_dir s).2 in
  (∀ pages, pdfkit_from_file env (fs s !! input_path) = inr pages →
     r = inr output_path ∧ m' = <[output_path := FPdf pages]> (fs s))
  ∧ (∀ e, pdfkit_from_file env (fs s !! input_path) = inl e →
       (fs s !! input_path = None →
          r = inl (Exception ("HTML conversion failed: [Errno 2] No such file or directory: "
                                +:+ Py.repr input_path))
          ∧ m' = fs s)
       ∧ (∀ html_content, fs s !! input_path = Some (FText html_content) →
            let clean_text :=
              html_unescape env (re_sub env "<[^>]+>" EmptyString html_content) in
            (has_reportlab env = false →
               r = inl (Exception "HTML conversion failed: No module named 'reportlab'")
               ∧ m' = fs s)
            ∧ (has_reportlab env = true →
               ∀ pages, reportlab_build env [Paragraph clean_text "Normal"] = inr pages →
               r = inr output_path ∧ m' = <[output_path := FPdf pages]> (fs s)))).
Proof.
  intros output_path r m'. subst r m'.
  unfold HTMLToPDF_convert, read_text, import, doc_build. msimpl. fold output_path.
  split.
  - intros pages ->. done.
  - intros e ->. msimpl. split.
    + intros ->. done.
    + intros html_content ->. msimpl. split.
      * intros ->. done.
      * intros -> pages ->. done.
Qed.

Lemma HTMLToPDF_strategies_witness :
  let m : FS := {[ "in/page.html" := FText "<p>hello</p>" ]} in
  (HTMLToPDF_convert demo_env "in/page.html" "out" (mkState m [])).1
    = inr "out/page.pdf".
Proof.
  intros m.
  destruct (HTMLToPDF_strategies demo_env "in/page.html" "out" (mkState m []))
    as [_ Hfallback].
  destruct (Hfallback (OSError "No wkhtmltopdf executable found")) as [_ Htext];
    [reflexivity|].
  destruct (Htext "<p>hello</p>") as [_ Hlab]; [reflexivity|].
  destruct (Hlab eq_refl [TextPage "laid out"]) as [Hr _]; [reflexivity|].
  exact Hr.
Defined.

(** ** Album pages *)

Lemma MergeImages_prepare_fits env img :
  0 < width img → 0 < height img →
  let r := MergeImages_prepare env img in
  0 < width r ≤ 2000 ∧ 0 < height r ≤ 2000.
Proof.
  intros Hw Hh r. subst r. destruct (to_rgb_size img) as [Hrw Hrh].
  unfold MergeImages_prepare, max_size.
  destruct ((width (to_rgb img) >? 2000) || (height (to_rgb img) >? 2000)) eqn:Hbig.
  - rewrite Hrw, Hrh in Hbig. apply orb_true_iff in Hbig.
    rewrite !Z.gtb_ltb, !Z.ltb_lt in Hbig.
    destruct (thumbnail_size_2000 (width img) (height img) Hw Hh)
      as (w' & h' & Hsize & Hwb & Hhb & _); [lia|].
    rewrite <- Hrw, <- Hrh in Hsize.
    destruct (thumbnail_dims env _ _ _ _ _ Hsize) as [-> ->]. lia.
  - rewrite Hrw, Hrh in Hbig |- *. apply orb_false_iff in Hbig.
    rewrite !Z.gtb_ltb, !Z.ltb_ge in Hbig. lia.
Qed.

(** X20. What the image merge does to an image before storing it is
    idempotent: the prepared image is RGB, fits the 2000 px box, and
    preparing it again changes nothing, so a page of an album fed to
    the merge once more is not resampled a second time. *)
Theorem MergeImages_prepare_idempotent (env : Env) (img : Image) :
  0 < width img → 0 < height img →
  let r := MergeImages_prepare env img in
  mode r = RGB
  ∧ 0 < width r ≤ 2000 ∧ 0 < height r ≤ 2000
  ∧ MergeImages_prepare env r = r.
Proof.
  intros Hw Hh r.
  pose proof (MergeImages_prepare_mode env img) as Hmode. fold r in Hmode.
  pose proof (MergeImages_prepare_fits env img Hw Hh) as [Hrw Hrh]. fold r in Hrw, Hrh.
  split; [done|]. split; [done|]. split; [done|].
  unfold MergeImages_prepare at 1, to_rgb, max_size. rewrite Hmode.
  rewrite decide_False by (by intros ?).
  assert ((width r >? 2000) || (height r >? 2000) = false) as ->; [|done].
  apply orb_false_iff. rewrite !Z.gtb_ltb, !Z.ltb_ge. lia.
Qed.

Lemma MergeImages_prepare_idempotent_witness :
  MergeImages_prepare demo_env (MergeImages_prepare demo_env large_image)
    = MergeImages_prepare demo_env large_image
  ∧ (width (MergeImages_prepare demo_env large_image),
     height (MergeImages_prepare demo_env large_image)) = (2000, 1500).
Proof.
  destruct (MergeImages_prepare_idempotent demo_env large_image) as (_ & _ & _ & Hidem);
    [reflexivity | reflexivity |].
  split; [exact Hidem | reflexivity].
Defined.
